(** * gemini-deep-review: rule loading, prompt compilation, response contract

    A shallow embedding of the TypeScript sources
    [src/rule-loader.ts], [src/gemini-reviewer.ts], [src/formatter.ts]
    and [src/cli.ts], and the properties of the specification proved
    (or refuted) on it.

    Conventions of the embedding.
    - A JavaScript string is a Rocq [string]: the UTF-8 bytes of its text.
      Equality, concatenation, [includes] and the count of line feeds
      agree with the UTF-16 view on every well-formed text.
    - A value produced by [JSON.parse] is a [json] tree and is used
      untyped, as the code uses it ([reviewData] has type [any]).
    - An exception is an explicit [Throw] outcome; [try]/[catch] is
      [tryCatch].  Console output is the list of events a computation
      emits.
    - The file system, the gray-matter parser and the remote model are
      the environment: their answers are data given to the functions.
    - Frontmatter and response parts are read at the types the
      interfaces declare for them.  Where a property depends on what the
      code does with a value of another kind (tags written as one
      string, a part flagged [thought: true]), the definitions named
      [...Raw] keep the value as it comes, and agree with the typed ones
      on typed values. *)

From Stdlib Require Import List String Ascii ZArith NArith Lia Bool Arith.
From Stdlib Require Import DecimalString Permutation.
Import ListNotations.
Open Scope string_scope.

Set Implicit Arguments.

(* ================================================================== *)
(** * Strings as the code uses them *)
(* ================================================================== *)

Definition byte (n : nat) : ascii := ascii_of_nat n.

(** The line feed, ['\n']. *)
Definition LF : ascii := byte 10.
Definition nl : string := String LF "".

(** A template literal, one list element per source line. *)
Definition template (lines : list string) : string := String.concat nl lines.

(** [s.includes(needle)] *)
Fixpoint includes (needle s : string) : bool :=
  String.prefix needle s ||
  match s with
  | "" => false
  | String _ s' => includes needle s'
  end.

(** [s.split('\n')]: the pieces between line feeds, [acc] being the
    piece under construction, reversed. *)
Fixpoint split_lf_from (acc : list ascii) (s : string) : list string :=
  match s with
  | "" => [string_of_list_ascii (rev acc)]
  | String c s' =>
      if Ascii.eqb c LF
      then string_of_list_ascii (rev acc) :: split_lf_from [] s'
      else split_lf_from (c :: acc) s'
  end.

Definition split_lf (s : string) : list string := split_lf_from [] s.

(** Number of line feeds of a text. *)
Fixpoint count_lf (s : string) : nat :=
  match s with
  | "" => 0
  | String c s' => (if Ascii.eqb c LF then 1 else 0) + count_lf s'
  end.

(** ** [String.prototype.trim]

    ECMAScript strips WhiteSpace and LineTerminator code points:
    U+0009..U+000D, U+0020, U+00A0, U+1680, U+2000..U+200A, U+2028,
    U+2029, U+202F, U+205F, U+3000 and U+FEFF, here in their UTF-8
    encodings of one, two or three bytes. *)

Definition ws1 (a : ascii) : bool :=
  let n := nat_of_ascii a in
  (Nat.leb 9 n && Nat.leb n 13) || Nat.eqb n 32.

Definition ws2 (a b : ascii) : bool :=
  Nat.eqb (nat_of_ascii a) 194 && Nat.eqb (nat_of_ascii b) 160.

Definition ws3 (a b c : ascii) : bool :=
  let x := nat_of_ascii a in
  let y := nat_of_ascii b in
  let z := nat_of_ascii c in
  (Nat.eqb x 225 && Nat.eqb y 154 && Nat.eqb z 128)
  || (Nat.eqb x 226 && Nat.eqb y 128
      && ((Nat.leb 128 z && Nat.leb z 138)
          || Nat.eqb z 168 || Nat.eqb z 169 || Nat.eqb z 175))
  || (Nat.eqb x 226 && Nat.eqb y 129 && Nat.eqb z 159)
  || (Nat.eqb x 227 && Nat.eqb y 128 && Nat.eqb z 128)
  || (Nat.eqb x 239 && Nat.eqb y 187 && Nat.eqb z 191).

(** Strip leading white space from a byte list. *)
Fixpoint strip_left (l : list ascii) : list ascii :=
  match l with
  | [] => []
  | a :: r1 =>
      if ws1 a then strip_left r1 else
      match r1 with
      | [] => l
      | b :: r2 =>
          if ws2 a b then strip_left r2 else
          match r2 with
          | [] => l
          | c :: r3 => if ws3 a b c then strip_left r3 else l
          end
      end
  end.

(** The same on the reversed text, where each encoding reads backwards. *)
Fixpoint strip_left_rev (l : list ascii) : list ascii :=
  match l with
  | [] => []
  | a :: r1 =>
      if ws1 a then strip_left_rev r1 else
      match r1 with
      | [] => l
      | b :: r2 =>
          if ws2 b a then strip_left_rev r2 else
          match r2 with
          | [] => l
          | c :: r3 => if ws3 c b a then strip_left_rev r3 else l
          end
      end
  end.

Definition trim (s : string) : string :=
  string_of_list_ascii
    (rev (strip_left_rev (rev (strip_left (list_ascii_of_string s))))).

(** Decimal text of a natural number, as [`${n}`] prints a count. *)
Definition decimal (n : nat) : string :=
  NilEmpty.string_of_uint (Nat.to_uint n).

(* ================================================================== *)
(** * Exceptions and console output *)
(* ================================================================== *)

(** What a [throw] carries.  [UserError m] is [new Error(m)];
    [EngineError] is an error the runtime raises ([TypeError] on a
    property read of [null], on a call of a missing method), whose
    message is the engine's; [NonError] is a thrown value that is not an
    [Error] instance. *)
Inductive thrown : Type :=
| UserError (message : string)
| EngineError (message : string)
| NonError.

Inductive outcome (A : Type) : Type :=
| Return (a : A)
| Throw (e : thrown).
Arguments Return {A} a.
Arguments Throw {A} e.

(** [error instanceof Error ? error.message : 'Unknown error'] *)
Definition errorMessage (e : thrown) : string :=
  match e with
  | UserError m => m
  | EngineError m => m
  | NonError => "Unknown error"
  end.

(** One call of [console.log], [console.warn] or [console.error].
    Colours (chalk) are not part of the model. *)
Inductive ConsoleEvent : Type :=
| Log (text : string)
| Warn (text : string)
| WarnThrown (text : string) (e : thrown)
| ErrorText (label text : string)
| ErrorThrown (label : string) (e : thrown).

(** A computation that writes to the console and then returns or throws. *)
Definition io (A : Type) : Type := (list ConsoleEvent * outcome A)%type.

Definition ret {A} (a : A) : io A := ([], Return a).
Definition throw {A} (e : thrown) : io A := ([], Throw e).
Definition console {A} (ev : ConsoleEvent) (a : A) : io A := ([ev], Return a).
Definition lift {A} (o : outcome A) : io A := ([], o).

Definition bind {A B} (m : io A) (k : A -> io B) : io B :=
  match m with
  | (out, Return a) => let (out', r) := k a in ((out ++ out')%list, r)
  | (out, Throw e) => (out, Throw e)
  end.

Definition tryCatch {A} (m : io A) (handler : thrown -> io A) : io A :=
  match m with
  | (out, Throw e) => let (out', r) := handler e in ((out ++ out')%list, r)
  | done => done
  end.

Notation "x <- m ;; k" := (bind m (fun x => k))
  (at level 61, m at next level, right associativity).
Notation "m ;;; k" := (bind m (fun _ => k))
  (at level 61, right associativity).

(* ================================================================== *)
(** * JSON values and [JSON.parse] *)
(* ================================================================== *)

(** A parsed JSON value.  A number keeps the exact decimal value
    [m * 10^e] of its literal; the double that [JSON.parse] rounds it to
    is not computed, but whether that double is zero is (see
    [rounds_to_zero] below).  An object is its list of own properties; a
    repeated key keeps the place of its first occurrence and the value of
    its last one, as [JSON.parse] builds it. *)
#[local] Set Warnings "-register-all".

Inductive json : Type :=
| JNull
| JBool (b : bool)
| JNum (m e : Z)
| JStr (s : string)
| JArr (items : list json)
| JObj (fields : list (string * json)).

(** Own property [k] of an object; [None] is [undefined]. *)
Fixpoint lookup (k : string) (fields : list (string * json)) : option json :=
  match fields with
  | [] => None
  | (k', v) :: rest => if String.eqb k k' then Some v else lookup k rest
  end.

(** Assignment [obj[k] = v]. *)
Fixpoint set_field (k : string) (v : json) (fields : list (string * json))
  : list (string * json) :=
  match fields with
  | [] => [(k, v)]
  | (k', v') :: rest =>
      if String.eqb k k' then (k, v) :: rest
      else (k', v') :: set_field k v rest
  end.

(** ** Tokens *)

Inductive token : Type :=
| TLBrace | TRBrace | TLBracket | TRBracket | TColon | TComma
| TScalar (v : json).

(** A character of a string literal under construction: a byte of the
    text, or the UTF-16 code unit of a [\uXXXX] escape. *)
Inductive strchar : Type :=
| Lit (c : ascii)
| Esc (u : N).

Definition utf8 (cp : N) : list ascii :=
  let b (n : N) := ascii_of_N n in
  if (cp <? 128)%N then [b cp]
  else if (cp <? 2048)%N then
    [b (192 + cp / 64)%N; b (128 + cp mod 64)%N]
  else if (cp <? 65536)%N then
    [b (224 + cp / 4096)%N; b (128 + (cp / 64) mod 64)%N; b (128 + cp mod 64)%N]
  else
    [b (240 + cp / 262144)%N; b (128 + (cp / 4096) mod 64)%N;
     b (128 + (cp / 64) mod 64)%N; b (128 + cp mod 64)%N].

Definition high_surrogate (u : N) : bool := ((55296 <=? u) && (u <=? 56319))%N.
Definition low_surrogate (u : N) : bool := ((56320 <=? u) && (u <=? 57343))%N.

(** The text of a string literal: escapes become UTF-8, a surrogate pair
    becoming the one code point it denotes. *)
Fixpoint string_bytes (l : list strchar) : list ascii :=
  match l with
  | [] => []
  | Lit c :: rest => c :: string_bytes rest
  | Esc hi :: rest =>
      match rest with
      | Esc lo :: rest' =>
          if high_surrogate hi && low_surrogate lo
          then (utf8 (65536 + (hi - 55296) * 1024 + (lo - 56320))
                  ++ string_bytes rest')%list
          else (utf8 hi ++ string_bytes rest)%list
      | _ => (utf8 hi ++ string_bytes rest)%list
      end
  end.

(** Where the scanner is inside a number: an optional minus sign, then
    a single 0 or a non-zero digit followed by digits, then optionally a
    point and at least one digit, then optionally e or E, an optional
    sign and at least one digit. *)
Inductive numstage : Type :=
| NMinus | NZero | NInt | NDot | NFrac | NE | NESign | NExp.

Record numacc : Type := {
  negative : bool;      (* a leading minus sign *)
  digits : Z;           (* integer and fraction digits read so far *)
  scale : Z;            (* number of fraction digits *)
  exp_negative : bool;
  exponent : Z
}.

Definition num_value (a : numacc) : json :=
  JNum (if negative a then - digits a else digits a)%Z
       ((if exp_negative a then - exponent a else exponent a) - scale a)%Z.

Inductive lexstate : Type :=
| LIdle
| LWord (rest : list ascii) (v : json)
| LStr (acc : list strchar)
| LEscape (acc : list strchar)
| LHex (acc : list strchar) (seen : nat) (val : N)
| LNum (stage : numstage) (a : numacc).

Definition digit_of (c : ascii) : option Z :=
  let n := nat_of_ascii c in
  if Nat.leb 48 n && Nat.leb n 57 then Some (Z.of_nat (n - 48)) else None.

Definition hex_of (c : ascii) : option N :=
  let n := nat_of_ascii c in
  if Nat.leb 48 n && Nat.leb n 57 then Some (N.of_nat (n - 48))
  else if Nat.leb 65 n && Nat.leb n 70 then Some (N.of_nat (n - 55))
  else if Nat.leb 97 n && Nat.leb n 102 then Some (N.of_nat (n - 87))
  else None.

Definition is_char (c : ascii) (s : string) : bool :=
  String.eqb (String c "") s.

(** JSON white space: space, tab, line feed, carriage return. *)
Definition json_ws (c : ascii) : bool :=
  let n := nat_of_ascii c in
  Nat.eqb n 32 || Nat.eqb n 9 || Nat.eqb n 10 || Nat.eqb n 13.

Definition fresh_num (neg : bool) (d : Z) : numacc :=
  {| negative := neg; digits := d; scale := 0;
     exp_negative := false; exponent := 0 |}.

Definition push_digit (a : numacc) (d : Z) (fraction : bool) : numacc :=
  {| negative := negative a;
     digits := (digits a * 10 + d)%Z;
     scale := (if fraction then scale a + 1 else scale a)%Z;
     exp_negative := exp_negative a;
     exponent := exponent a |}.

Definition push_exp (a : numacc) (d : Z) : numacc :=
  {| negative := negative a; digits := digits a; scale := scale a;
     exp_negative := exp_negative a;
     exponent := (exponent a * 10 + d)%Z |}.

Definition set_exp_sign (a : numacc) (neg : bool) : numacc :=
  {| negative := negative a; digits := digits a; scale := scale a;
     exp_negative := neg; exponent := exponent a |}.

(** One character read between tokens. *)
Definition lex_idle (c : ascii) : option (list token * lexstate) :=
  if json_ws c then Some ([], LIdle)
  else if is_char c "{" then Some ([TLBrace], LIdle)
  else if is_char c "}" then Some ([TRBrace], LIdle)
  else if is_char c "[" then Some ([TLBracket], LIdle)
  else if is_char c "]" then Some ([TRBracket], LIdle)
  else if is_char c ":" then Some ([TColon], LIdle)
  else if is_char c "," then Some ([TComma], LIdle)
  else if Nat.eqb (nat_of_ascii c) 34 then Some ([], LStr [])
  else if is_char c "-" then Some ([], LNum NMinus (fresh_num true 0))
  else if is_char c "t" then Some ([], LWord (list_ascii_of_string "rue") (JBool true))
  else if is_char c "f" then Some ([], LWord (list_ascii_of_string "alse") (JBool false))
  else if is_char c "n" then Some ([], LWord (list_ascii_of_string "ull") JNull)
  else match digit_of c with
       | Some 0%Z => Some ([], LNum NZero (fresh_num false 0))
       | Some d => Some ([], LNum NInt (fresh_num false d))
       | None => None
       end.

(** A number ends at the first character that cannot continue it; that
    character is then read between tokens. *)
Definition end_number (a : numacc) (c : ascii) : option (list token * lexstate) :=
  match lex_idle c with
  | Some (toks, st) => Some (TScalar (num_value a) :: toks, st)
  | None => None
  end.

Definition is_exp_mark (c : ascii) : bool := is_char c "e" || is_char c "E".

Definition lex_number (stage : numstage) (a : numacc) (c : ascii)
  : option (list token * lexstate) :=
  match stage, digit_of c with
  | NMinus, Some 0%Z => Some ([], LNum NZero a)
  | NMinus, Some d => Some ([], LNum NInt (push_digit a d false))
  | NMinus, None => None
  | NZero, _ =>
      if is_char c "." then Some ([], LNum NDot a)
      else if is_exp_mark c then Some ([], LNum NE a)
      else end_number a c
  | NInt, Some d => Some ([], LNum NInt (push_digit a d false))
  | NInt, None =>
      if is_char c "." then Some ([], LNum NDot a)
      else if is_exp_mark c then Some ([], LNum NE a)
      else end_number a c
  | NDot, Some d => Some ([], LNum NFrac (push_digit a d true))
  | NDot, None => None
  | NFrac, Some d => Some ([], LNum NFrac (push_digit a d true))
  | NFrac, None =>
      if is_exp_mark c then Some ([], LNum NE a) else end_number a c
  | NE, Some d => Some ([], LNum NExp (push_exp a d))
  | NE, None =>
      if is_char c "+" then Some ([], LNum NESign (set_exp_sign a false))
      else if is_char c "-" then Some ([], LNum NESign (set_exp_sign a true))
      else None
  | NESign, Some d => Some ([], LNum NExp (push_exp a d))
  | NESign, None => None
  | NExp, Some d => Some ([], LNum NExp (push_exp a d))
  | NExp, None => end_number a c
  end.

Definition lex_escape (acc : list strchar) (c : ascii) : option (list token * lexstate) :=
  let plain (n : nat) := Some ([], LStr (Lit (byte n) :: acc)) in
  if Nat.eqb (nat_of_ascii c) 34 then plain 34
  else if Nat.eqb (nat_of_ascii c) 92 then plain 92
  else if is_char c "/" then plain 47
  else if is_char c "b" then plain 8
  else if is_char c "f" then plain 12
  else if is_char c "n" then plain 10
  else if is_char c "r" then plain 13
  else if is_char c "t" then plain 9
  else if is_char c "u" then Some ([], LHex acc 0 0%N)
  else None.

Definition lex_step (st : lexstate) (c : ascii) : option (list token * lexstate) :=
  match st with
  | LIdle => lex_idle c
  | LWord [] _ => None
  | LWord (x :: rest) v =>
      if Ascii.eqb c x then
        match rest with
        | [] => Some ([TScalar v], LIdle)
        | _ => Some ([], LWord rest v)
        end
      else None
  | LStr acc =>
      if Nat.eqb (nat_of_ascii c) 34
      then Some ([TScalar (JStr (string_of_list_ascii (string_bytes (rev acc))))], LIdle)
      else if Nat.eqb (nat_of_ascii c) 92 then Some ([], LEscape acc)
      else if Nat.ltb (nat_of_ascii c) 32 then None
      else Some ([], LStr (Lit c :: acc))
  | LEscape acc => lex_escape acc c
  | LHex acc seen val =>
      match hex_of c with
      | Some h =>
          let val' := (val * 16 + h)%N in
          if Nat.eqb seen 3 then Some ([], LStr (Esc val' :: acc))
          else Some ([], LHex acc (S seen) val')
      | None => None
      end
  | LNum stage a => lex_number stage a c
  end.

(** At the end of the text only a complete token may be pending. *)
Definition lex_end (st : lexstate) : option (list token) :=
  match st with
  | LIdle => Some []
  | LNum NZero a | LNum NInt a | LNum NFrac a | LNum NExp a =>
      Some [TScalar (num_value a)]
  | _ => None
  end.

Fixpoint lex_from (st : lexstate) (s : string) : option (list token) :=
  match s with
  | "" => lex_end st
  | String c s' =>
      match lex_step st c with
      | None => None
      | Some (toks, st') =>
          match lex_from st' s' with
          | None => None
          | Some more => Some (toks ++ more)%list
          end
      end
  end.

(** ** The grammar, as a pushdown automaton over the tokens *)

Inductive frame : Type :=
| FArr (items : list json)               (* elements so far, last first *)
| FObj (fields : list (string * json))
| FKey (key : string).                   (* the key awaiting its value *)

Inductive expect : Type :=
| XValue            (* a value *)
| XValueOrClose     (* a value or ], just after [ *)
| XKeyOrClose       (* a key or }, just after { *)
| XKey              (* a key, after a comma *)
| XColon
| XSep              (* a comma or the closing bracket *)
| XEnd (v : json).  (* the whole value has been read *)

Definition pstate : Type := (list frame * expect)%type.

(** A complete value goes to the container on top of the stack. *)
Definition deliver (v : json) (stack : list frame) : option pstate :=
  match stack with
  | [] => Some ([], XEnd v)
  | FArr items :: below => Some (FArr (v :: items) :: below, XSep)
  | FKey k :: FObj fields :: below =>
      Some (FObj (set_field k v fields) :: below, XSep)
  | _ => None
  end.

Definition parse_step (st : pstate) (t : token) : option pstate :=
  let (stack, x) := st in
  match x, t with
  | (XValue | XValueOrClose), TScalar v => deliver v stack
  | (XValue | XValueOrClose), TLBracket => Some (FArr [] :: stack, XValueOrClose)
  | (XValue | XValueOrClose), TLBrace => Some (FObj [] :: stack, XKeyOrClose)
  | XValueOrClose, TRBracket =>
      match stack with
      | FArr items :: below => deliver (JArr (rev items)) below
      | _ => None
      end
  | (XKeyOrClose | XKey), TScalar (JStr k) => Some (FKey k :: stack, XColon)
  | XKeyOrClose, TRBrace =>
      match stack with
      | FObj fields :: below => deliver (JObj fields) below
      | _ => None
      end
  | XColon, TColon => Some (stack, XValue)
  | XSep, TComma =>
      match stack with
      | FArr _ :: _ => Some (stack, XValue)
      | FObj _ :: _ => Some (stack, XKey)
      | _ => None
      end
  | XSep, TRBracket =>
      match stack with
      | FArr items :: below => deliver (JArr (rev items)) below
      | _ => None
      end
  | XSep, TRBrace =>
      match stack with
      | FObj fields :: below => deliver (JObj fields) below
      | _ => None
      end
  | _, _ => None
  end.

Fixpoint parse_tokens (st : pstate) (toks : list token) : option json :=
  match toks with
  | [] => match st with ([], XEnd v) => Some v | _ => None end
  | t :: rest =>
      match parse_step st t with
      | None => None
      | Some st' => parse_tokens st' rest
      end
  end.

(** [JSON.parse(text)]; [None] is the [SyntaxError] it throws. *)
Definition JSON_parse (text : string) : option json :=
  match lex_from LIdle text with
  | None => None
  | Some toks => parse_tokens ([], XValue) toks
  end.

(** Test payloads are written with ['] where the JSON text has the
    double quote. *)
Definition dq (s : string) : string :=
  string_of_list_ascii
    (map (fun c => if Nat.eqb (nat_of_ascii c) 39 then byte 34 else c)
         (list_ascii_of_string s)).

(* ================================================================== *)
(** * Untyped reads of parsed values *)
(* ================================================================== *)

(** The double nearest to [m * 10^e] is zero: the literal is zero, or
    its magnitude is at most [2^-1075], half of the least positive double
    [2^-1074] (at exactly one half the tie goes to the even neighbour,
    which is zero).  So [1e-400] is the number 0 once parsed. *)
Definition rounds_to_zero (m e : Z) : bool :=
  Z.eqb m 0 || (Z.ltb e 0 && Z.leb (Z.abs m * 2 ^ 1075) (10 ^ (- e))).

(** Truthiness of a value read from a parsed object; [None] is
    [undefined].  A number is falsy when it is zero as a double (no
    literal parses to [NaN]). *)
Definition truthy (v : option json) : bool :=
  match v with
  | None => false
  | Some JNull => false
  | Some (JBool b) => b
  | Some (JNum m e) => negb (rounds_to_zero m e)
  | Some (JStr s) => negb (String.eqb s "")
  | Some (JArr _) => true
  | Some (JObj _) => true
  end.

(** [v || d] *)
Definition or_else (v : option json) (d : json) : json :=
  match v with
  | Some x => if truthy v then x else d
  | None => d
  end.

(** The property read [v.k], for the keys this program reads ([issues],
    [summary], [overallScore], [severity]), none of which a string,
    number, boolean or array has: reading it from [null] throws a
    [TypeError] (the message is V8's), from an object gives the own
    property, from any other value gives [undefined]. *)
Definition member (v : json) (k : string) : outcome (option json) :=
  match v with
  | JNull =>
      Throw (EngineError ("Cannot read properties of null (reading '" ++ k ++ "')"))
  | JObj fields => Return (lookup k fields)
  | _ => Return None
  end.

(** [v === 'text'] *)
Definition is_text (v : option json) (text : string) : bool :=
  match v with
  | Some (JStr s) => String.eqb s text
  | _ => false
  end.

(** Truthiness of an optional string field, and [s || d]. *)
Definition truthy_text (s : option string) : bool :=
  match s with
  | Some x => negb (String.eqb x "")
  | None => false
  end.

Definition text_or (s : option string) (d : string) : string :=
  match s with
  | Some x => if String.eqb x "" then d else x
  | None => d
  end.

(** The string of a field that is known to be there. *)
Definition text_of (s : option string) : string :=
  match s with
  | Some x => x
  | None => ""
  end.

(* ================================================================== *)
(** * The data model ([src/types.ts]) *)
(* ================================================================== *)

(** A rule.  [type] and [impact] are declared as enumerations, which
    nothing checks at run time: they hold whatever string the
    frontmatter gave. *)
Module Rule.
Record t : Type := {
  id : string;
  title : string;
  type : string;
  impact : string;
  category : string;
  tags : list string;
  content : string
}.
End Rule.

(** The [data] object gray-matter returns for a file, read at the types
    the [Rule] interface declares for its fields; [None] is a key the
    frontmatter does not have. *)
Module Data.
Record t : Type := {
  id : option string;
  title : option string;
  type : option string;
  impact : option string;
  category : option string;
  tags : option (list string)
}.
End Data.

Module FileToReview.
Record t : Type := {
  path : string;
  content : string;
  language : string
}.
End FileToReview.

(** The configuration, without the fields that only go to the SDK
    ([maxTokens], [temperature], [apiKey]). *)
Module ReviewConfig.
Record t : Type := {
  model : string;
  enableDeepThinking : bool
}.
End ReviewConfig.

(** A review result as [reviewCode] builds it: [issues], [summary] and
    [overallScore] are whatever the parsed response held. *)
Module ReviewResult.
Record t : Type := {
  issues : json;
  summary : json;
  overallScore : json;
  thinkingTrace : option string;
  filesReviewed : list string;
  totalLines : nat
}.
End ReviewResult.

(* ================================================================== *)
(** * The rule loader ([src/rule-loader.ts]) *)
(* ================================================================== *)

(** The rules directory as the loader sees it.  A file carries the
    outcome of [matter(readFileSync(filePath, 'utf-8'))], the frontmatter
    data and the body, or what either call threw; a directory carries
    the outcome of [readdirSync], its entries in enumeration order;
    [FsOther] is an entry that is neither (a socket, a device);
    [FsBroken] is an entry on which [statSync] throws. *)
Inductive fsnode : Type :=
| FsFile (name : string) (parsed : outcome (Data.t * string))
| FsDir (name : string) (listing : outcome (list fsnode))
| FsOther (name : string)
| FsBroken (name : string) (e : thrown).

(** A method of the loader that returns nothing: it writes to the
    console and changes [this.rules]. *)
Definition step : Type := list Rule.t -> list ConsoleEvent * list Rule.t.

Definition skip : step := fun rules => ([], rules).
Definition say (ev : ConsoleEvent) : step := fun rules => ([ev], rules).
Definition seq (a b : step) : step :=
  fun rules =>
    let (out1, rules1) := a rules in
    let (out2, rules2) := b rules1 in
    ((out1 ++ out2)%list, rules2).

(** [path.extname] of a directory entry (a name without separator):
    the text from the last dot on, empty when there is no dot, when the
    last dot is the first character, and for the name [..]. *)
Fixpoint from_last_dot (s : string) : option string :=
  match s with
  | "" => None
  | String c s' =>
      match from_last_dot s' with
      | Some e => Some e
      | None => if is_char c "." then Some s else None
      end
  end.

Definition extname (name : string) : string :=
  match from_last_dot name with
  | None => ""
  | Some e =>
      if String.eqb e name then ""
      else if String.eqb name ".." then ""
      else e
  end.

(** [path.join(dir, entry)] for an entry name. *)
Definition join (dir entry : string) : string := dir ++ "/" ++ entry.

(** [loadRuleFile(filePath)] *)
Definition loadRuleFile (filePath : string) (parsed : outcome (Data.t * string)) : step :=
  match parsed with
  | Throw e => say (WarnThrown ("Warning: Could not load rule " ++ filePath ++ ":") e)
  | Return (data, content) =>
      if negb (truthy_text (Data.id data)) || negb (truthy_text (Data.title data))
      then say (Warn ("Skipping " ++ filePath ++ ": missing required frontmatter (id, title)"))
      else
        fun rules =>
          let rule := {|
            Rule.id := text_of (Data.id data);
            Rule.title := text_of (Data.title data);
            Rule.type := text_or (Data.type data) "principle";
            Rule.impact := text_or (Data.impact data) "MEDIUM";
            Rule.category := text_or (Data.category data) "general";
            Rule.tags := match Data.tags data with Some l => l | None => [] end;
            Rule.content := trim content
          |} in
          ([], (rules ++ [rule])%list)
  end.

Definition scanWarning (dir : string) (e : thrown) : step :=
  say (WarnThrown ("Warning: Could not scan directory " ++ dir ++ ":") e).

(** The [for] loop of [scanDirectory] inside its [try]: the first entry
    whose visit throws ends the loop in the [catch]. *)
Definition scanLoop (visit : fsnode -> outcome step) (caught : thrown -> step)
  : list fsnode -> step :=
  fix loop (entries : list fsnode) : step :=
    match entries with
    | [] => skip
    | entry :: rest =>
        match visit entry with
        | Throw e => caught e
        | Return s => seq s (loop rest)
        end
    end.

(** The body of the loop for one entry of [dir]; [Throw] is [statSync]
    throwing. *)
Fixpoint visitEntry (dir : string) (entry : fsnode) {struct entry} : outcome step :=
  match entry with
  | FsBroken _ e => Throw e
  | FsDir name listing =>
      let fullPath := join dir name in
      Return match listing with
             | Throw e => scanWarning fullPath e
             | Return entries =>
                 scanLoop (visitEntry fullPath) (scanWarning fullPath) entries
             end
  | FsFile name parsed =>
      if String.eqb (extname name) ".md"
      then Return (loadRuleFile (join dir name) parsed)
      else Return skip
  | FsOther _ => Return skip
  end.

(** [scanDirectory(dir)], [listing] being what [readdirSync(dir)] gives. *)
Definition scanDirectory (dir : string) (listing : outcome (list fsnode)) : step :=
  match listing with
  | Throw e => scanWarning dir e
  | Return entries => scanLoop (visitEntry dir) (scanWarning dir) entries
  end.

(** [loadRules()] *)
Definition loadRules (rulesDir : string) (root : outcome (list fsnode)) : step :=
  fun _ =>
    let (out, rules) := scanDirectory rulesDir root [] in
    ((out ++ [Log ("✓ Loaded " ++ decimal (List.length rules) ++ " rules")])%list, rules).

(** [getRules()] *)
Definition getRules (rules : list Rule.t) : list Rule.t := rules.

(** [getRulesByTags(tags)] *)
Definition getRulesByTags (rules : list Rule.t) (tags : list string) : list Rule.t :=
  filter (fun rule => existsb (fun tag => existsb (String.eqb tag) (Rule.tags rule)) tags)
         rules.

(** ** [compileRulesForPrompt] *)

Definition noRulesText : string :=
  "No specific rules loaded. Use general React and TypeScript best practices.".

Definition principlesHeader : string :=
  template [
    "";
    "# GUIDING PRINCIPLES (Use these to guide your deep thinking)";
    "";
    "These principles should inform your analysis. Use your expertise to discover";
    "issues related to these concepts. Think deeply and reason about implications.";
    "";
    ""
  ].

Definition principleBlock (rule : Rule.t) : string :=
  template [
    "";
    "## " ++ Rule.title rule;
    "**Focus Area:** " ++ Rule.category rule ++ " | **Priority:** " ++ Rule.impact rule;
    "";
    Rule.content rule;
    "";
    "---";
    ""
  ].

Definition requirementsHeader : string :=
  template [
    "";
    "# STRICT REQUIREMENTS (Always enforce these)";
    "";
    "These are team-specific standards that MUST be followed. Flag any violations.";
    "";
    ""
  ].

Definition requirementBlock (rule : Rule.t) : string :=
  template [
    "";
    "## " ++ Rule.title rule;
    "**Rule ID:** " ++ Rule.id rule ++ " | **Priority:** " ++ Rule.impact rule;
    "";
    Rule.content rule;
    "";
    "---";
    ""
  ].

Definition isPrinciple (r : Rule.t) : bool := String.eqb (Rule.type r) "principle".
Definition isRequirement (r : Rule.t) : bool := String.eqb (Rule.type r) "requirement".

(** [rules.forEach(rule => { output += block(rule) })] *)
Definition appendEach (block : Rule.t -> string) (rules : list Rule.t) (output : string)
  : string :=
  fold_left (fun output rule => output ++ block rule) rules output.

(** The function from [const principles = ...] to [return output]. *)
Definition compileSections (rulesToUse : list Rule.t) : string :=
  let principles := filter isPrinciple rulesToUse in
  let requirements := filter isRequirement rulesToUse in
  let output := "" in
  let output :=
    if Nat.ltb 0 (List.length principles)
    then appendEach principleBlock principles (output ++ principlesHeader)
    else output in
  let output :=
    if Nat.ltb 0 (List.length requirements)
    then appendEach requirementBlock requirements (output ++ requirementsHeader)
    else output in
  output.

(** [compileRulesForPrompt(tags?)]; [None] is the omitted argument. *)
Definition compileRulesForPrompt (rules : list Rule.t) (tags : option (list string))
  : string :=
  let rulesToUse :=
    match tags with
    | Some tags => getRulesByTags rules tags
    | None => rules
    end in
  if Nat.eqb (List.length rulesToUse) 0 then noRulesText
  else compileSections rulesToUse.

(** ** The tags as the frontmatter gives them

    gray-matter's [data] is untyped, and [loadRuleFile] copies
    [data.tags] without a check: a rule holds whatever the YAML of its
    file gave for [tags].  The definitions above read that value at its
    declared type [string[]].  The ones below keep it as a value, in the
    shape of a parsed value: a YAML sequence is an array, a plain scalar
    such as [react, typescript] a string, a mapping or a date an
    object. *)
Module RawData.
Record t : Type := {
  id : option string;
  title : option string;
  type : option string;
  impact : option string;
  category : option string;
  tags : option json
}.
End RawData.

Module RawRule.
Record t : Type := {
  id : string;
  title : string;
  type : string;
  impact : string;
  category : string;
  tags : json;
  content : string
}.
End RawRule.

(** [loadRuleFile(filePath)], with [data.tags] as it comes. *)
Definition loadRuleFileRaw (filePath : string) (parsed : outcome (RawData.t * string))
  : list RawRule.t -> list ConsoleEvent * list RawRule.t :=
  fun rules =>
    match parsed with
    | Throw e =>
        ([WarnThrown ("Warning: Could not load rule " ++ filePath ++ ":") e], rules)
    | Return (data, content) =>
        if negb (truthy_text (RawData.id data)) || negb (truthy_text (RawData.title data))
        then ([Warn ("Skipping " ++ filePath ++ ": missing required frontmatter (id, title)")],
              rules)
        else
          let rule := {|
            RawRule.id := text_of (RawData.id data);
            RawRule.title := text_of (RawData.title data);
            RawRule.type := text_or (RawData.type data) "principle";
            RawRule.impact := text_or (RawData.impact data) "MEDIUM";
            RawRule.category := text_or (RawData.category data) "general";
            RawRule.tags := or_else (RawData.tags data) (JArr []);
            RawRule.content := trim content
          |} in
          ([], (rules ++ [rule])%list)
    end.

(** [rule.tags.includes(tag)]: on an array the search for an element
    equal to the tag, on a string the search for the tag as a substring;
    no other value has the method (the messages are V8's). *)
Definition tagsInclude (ruleTags : json) (tag : string) : outcome bool :=
  match ruleTags with
  | JArr items => Return (existsb (fun item => is_text (Some item) tag) items)
  | JStr text => Return (includes tag text)
  | JNull => Throw (EngineError "Cannot read properties of null (reading 'includes')")
  | _ => Throw (EngineError "rule.tags.includes is not a function")
  end.

(** [tags.some(tag => rule.tags.includes(tag))]: stops at the first
    tag that is found; with no tag to try, [rule.tags] is not read. *)
Fixpoint someTag (ruleTags : json) (tags : list string) : outcome bool :=
  match tags with
  | [] => Return false
  | tag :: rest =>
      match tagsInclude ruleTags tag with
      | Throw e => Throw e
      | Return true => Return true
      | Return false => someTag ruleTags rest
      end
  end.

(** [getRulesByTags(tags)], with the tags of the rules as they come. *)
Fixpoint getRulesByTagsRaw (rules : list RawRule.t) (tags : list string)
  : outcome (list RawRule.t) :=
  match rules with
  | [] => Return []
  | rule :: rest =>
      match someTag (RawRule.tags rule) tags with
      | Throw e => Throw e
      | Return keep =>
          match getRulesByTagsRaw rest tags with
          | Throw e => Throw e
          | Return kept => Return (if keep then rule :: kept else kept)
          end
      end
  end.

(* ================================================================== *)
(** * The gateway ([src/gemini-reviewer.ts]) *)
(* ================================================================== *)

(** One part of the first candidate of a response, with its optional
    [thought] and [thinking] texts. *)
Module Part.
Record t : Type := {
  thought : option string;
  thinking : option string
}.
End Part.

(** What [generateContent] resolves to: [text] is the outcome of
    [response.text()], [parts] is [response.candidates?.[0]?.content?.parts]. *)
Module Response.
Record t : Type := {
  text : outcome string;
  parts : option (list Part.t)
}.
End Response.

(** The remote service and the clock, for the one call [reviewCode]
    makes: the outcome of [generateContent] and the text of
    [((Date.now() - startTime) / 1000).toFixed(1)]. *)
Module Remote.
Record t : Type := {
  generateContent : outcome Response.t;
  duration : string
}.
End Remote.

Definition partMarker (p : Part.t) : option string :=
  if truthy_text (Part.thought p) then Part.thought p else Part.thinking p.

(** [extractThinkingTrace(response)] *)
Definition extractThinkingTrace (response : Response.t) : option string :=
  match Response.parts response with
  | Some parts =>
      let thinkingParts := filter (fun part => truthy_text (partMarker part)) parts in
      if Nat.ltb 0 (List.length thinkingParts)
      then Some (String.concat nl (map (fun p => text_of (partMarker p)) thinkingParts))
      else None
  | None => None
  end.

(** [files.reduce((sum, f) => sum + f.content.split('\n').length, 0)] *)
Definition countLines (files : list FileToReview.t) : nat :=
  fold_left (fun sum f => sum + List.length (split_lf (FileToReview.content f))) files 0.

(** [reviewCode(files, rulesPrompt)].  The prompt goes to the remote
    service, whose answer is [remote]; the function's own work starts
    there. *)
Definition reviewCode (config : ReviewConfig.t) (remote : Remote.t)
    (files : list FileToReview.t) (rulesPrompt : string) : io ReviewResult.t :=
  console (Log ("🧠 Using model: " ++ ReviewConfig.model config)) tt ;;;
  console (Log ("🤔 Deep thinking: " ++
                if ReviewConfig.enableDeepThinking config then "enabled" else "disabled")) tt ;;;
  tryCatch
    (response <- lift (Remote.generateContent remote) ;;
     console (Log ("⏱️  Analysis completed in " ++ Remote.duration remote ++ "s")) tt ;;;
     text <- lift (Response.text response) ;;
     reviewData <-
       match JSON_parse text with
       | Some v => ret v
       | None =>
           console (ErrorText "Failed to parse JSON response:" text) tt ;;;
           throw (UserError "Invalid JSON response from Gemini")
       end ;;
     let thinkingTrace := extractThinkingTrace response in
     issues <- lift (member reviewData "issues") ;;
     summary <- lift (member reviewData "summary") ;;
     overallScore <- lift (member reviewData "overallScore") ;;
     ret {|
       ReviewResult.issues := or_else issues (JArr []);
       ReviewResult.summary := or_else summary (JStr "No summary provided");
       ReviewResult.overallScore := or_else overallScore (JNum 0 0);
       ReviewResult.thinkingTrace := thinkingTrace;
       ReviewResult.filesReviewed := map FileToReview.path files;
       ReviewResult.totalLines := countLines files
     |})
    (fun error =>
       console (ErrorThrown "Gemini API error:" error) tt ;;;
       throw (UserError ("Failed to review code: " ++ errorMessage error))).

(* ================================================================== *)
(** * The formatter ([src/formatter.ts]) and the exit code ([src/cli.ts]) *)
(* ================================================================== *)

(** [i.severity === severity], on an element of [issues]. *)
Definition severityIs (severity : string) (i : json) : outcome bool :=
  match member i "severity" with
  | Return v => Return (is_text v severity)
  | Throw e => Throw e
  end.

(** [xs.filter(test)] with a test that may throw. *)
Fixpoint filterM (test : json -> outcome bool) (xs : list json) : outcome (list json) :=
  match xs with
  | [] => Return []
  | x :: rest =>
      match test x with
      | Throw e => Throw e
      | Return keep =>
          match filterM test rest with
          | Throw e => Throw e
          | Return kept => Return (if keep then x :: kept else kept)
          end
      end
  end.

(** [xs.some(test)]: stops at the first element that passes. *)
Fixpoint someM (test : json -> outcome bool) (xs : list json) : outcome bool :=
  match xs with
  | [] => Return false
  | x :: rest =>
      match test x with
      | Throw e => Throw e
      | Return true => Return true
      | Return false => someM test rest
      end
  end.

Module Buckets.
Record t : Type := {
  critical : list json;
  high : list json;
  medium : list json;
  low : list json
}.
End Buckets.

(** [groupBySeverity(issues)] *)
Definition groupBySeverity (issues : list json) : outcome Buckets.t :=
  match filterM (severityIs "critical") issues with
  | Throw e => Throw e
  | Return critical =>
  match filterM (severityIs "high") issues with
  | Throw e => Throw e
  | Return high =>
  match filterM (severityIs "medium") issues with
  | Throw e => Throw e
  | Return medium =>
  match filterM (severityIs "low") issues with
  | Throw e => Throw e
  | Return low =>
      Return {| Buckets.critical := critical; Buckets.high := high;
                Buckets.medium := medium; Buckets.low := low |}
  end end end end.

(** [result.issues.some(test)]: a value that is not an array has no
    method [some] (the message is V8's). *)
Definition issuesSome (test : json -> outcome bool) (issues : json) : outcome bool :=
  match issues with
  | JArr xs => someM test xs
  | _ => Throw (EngineError "result.issues.some is not a function")
  end.

(** The exit-code block of the CLI action, from [const hasCritical] to
    the three [process.exit] calls: the banner it prints and the code
    it exits with. *)
Definition exitCode (result : ReviewResult.t) : io nat :=
  hasCritical <- lift (issuesSome (severityIs "critical") (ReviewResult.issues result)) ;;
  hasHigh <- lift (issuesSome (severityIs "high") (ReviewResult.issues result)) ;;
  if hasCritical then
    console (Log ("❌ Review failed: Critical issues found" ++ nl)) 1
  else if hasHigh then
    console (Log ("⚠️  Review passed with warnings: High-priority issues found" ++ nl)) 0
  else
    console (Log ("✅ Review passed!" ++ nl)) 0.

(** ** [buildPrompt] *)

(** The double quote. *)
Definition quote : string := String (byte 34) "".

(** The text of one file in the prompt. *)
Definition fileSection (file : FileToReview.t) : string :=
  template [
    "";
    "### File: " ++ FileToReview.path file;
    "```" ++ FileToReview.language file;
    FileToReview.content file;
    "```";
    ""
  ].

(** [buildPrompt(files, rulesPrompt)] *)
Definition buildPrompt (files : list FileToReview.t) (rulesPrompt : string) : string :=
  let filesSection := String.concat nl (map fileSection files) in
  template [
    "";
    "# Code Review Task";
    "";
    "You are an expert code reviewer with deep expertise in React and TypeScript.";
    "";
    "## Your Approach";
    "";
    "You have TWO sources of knowledge to apply:";
    "";
    "### 1. Team's Custom Rules (Below)";
    "These represent the team's specific standards and focus areas. Use these to:";
    "- **PRINCIPLES**: Guide your thinking and help you discover related issues";
    "- **REQUIREMENTS**: Strictly enforce these team standards";
    "";
    "### 2. Your Own Expertise (Pre-trained Knowledge)";
    "Beyond the custom rules, use your extensive knowledge to discover:";
    "- Subtle bugs and logic errors";
    "- Security vulnerabilities";
    "- Performance optimization opportunities";
    "- Architectural improvements";
    "- React/TypeScript anti-patterns not explicitly mentioned";
    "- Edge cases and error handling gaps";
    "- Accessibility concerns";
    "- Maintainability issues";
    "";
    "**CRITICAL**: Don't limit yourself to only what's in the rules! The rules are guidance,";
    "not constraints. Use your reasoning to find issues the team may not have thought to specify.";
    "";
    "---";
    "";
    rulesPrompt;
    "";
    "---";
    "";
    "**REMEMBER**: When reporting issues, if the issue matches one of the rules above:";
    "- Async waterfall, missing dependencies, expensive computations → " ++ quote ++ "react-performance-principles" ++ quote ++ "";
    "- Type assertions, any usage, null handling → " ++ quote ++ "typescript-type-safety-principles" ++ quote ++ "";
    "- No effect cleanup, functional state updates, no any type → " ++ quote ++ "team-strict-requirements" ++ quote ++ "";
    "";
    "Include the rule ID so the team knows it was a rule-based finding!";
    "";
    "---";
    "";
    "## Code to Review";
    "";
    filesSection;
    "";
    "## Review Instructions";
    "";
    "### Step 1: Deep Reasoning";
    "Before flagging issues, THINK about:";
    "- What could go wrong with this code in production?";
    "- Are there hidden bugs or race conditions?";
    "- What happens under edge cases (null, undefined, empty arrays, slow network)?";
    "- How does this scale? What if there are 1000 items instead of 10?";
    "- Is this code maintainable? Will future developers understand it?";
    "- Are there security implications?";
    "- What performance bottlenecks exist?";
    "";
    "### Step 2: Issue Discovery";
    "Find issues in TWO categories:";
    "";
    "**A) Rule-Based Issues**";
    "- Check compliance with REQUIREMENTS (strict enforcement)";
    "- Use PRINCIPLES to guide discovery of related problems";
    "";
    "**B) Independent Discoveries**";
    "- Use your expertise to find issues NOT covered by rules";
    "- Think about implications the team may not have considered";
    "- Consider architecture, scalability, edge cases";
    "";
    "### Step 3: Reporting";
    "For each issue:";
    "- **File & Line**: Be specific";
    "- **Severity**: critical | high | medium | low";
    "  - critical: Will break in production (crashes, data loss, security holes)";
    "  - high: Major bugs, serious performance issues, bad practices";
    "  - medium: Code smells, minor issues, maintainability concerns";
    "  - low: Minor improvements, suggestions";
    "- **Category**: correctness | performance | maintainability | best-practice";
    "- **Title**: Short, clear description (max 100 chars)";
    "- **Description**: What's wrong? (max 300 chars)";
    "- **Reasoning**: WHY is this a problem? Use your deep reasoning here! (max 400 chars)";
    "- **Suggestion**: How to fix it? Be concise and actionable. (max 300 chars)";
    "- **Rule ID**: IMPORTANT!";
    "  - If the issue is DIRECTLY covered by a PRINCIPLE or REQUIREMENT rule above, include the rule ID";
    "  - Example: Async waterfall → " ++ quote ++ "react-performance-principles" ++ quote ++ "";
    "  - Example: Missing useEffect dependency → " ++ quote ++ "react-performance-principles" ++ quote ++ "";
    "  - Example: Type assertion without validation → " ++ quote ++ "typescript-type-safety-principles" ++ quote ++ "";
    "  - Example: No cleanup for effects → " ++ quote ++ "team-strict-requirements" ++ quote ++ "";
    "  - If it's NOT explicitly covered by any rule above, set to null (this makes it an AI discovery)";
    "";
    "### Step 4: Overall Assessment";
    "- **Score** (0-100): Holistic quality score";
    "- **Summary**: 2-3 sentences on overall code quality, major concerns, and strengths";
    "";
    "## What to IGNORE";
    "- Formatting/style (semicolons, spaces, quotes)";
    "- TypeScript compilation errors (assume handled separately)";
    "- Missing imports (assume they exist)";
    "";
    "## What to FOCUS ON";
    "- Logic and correctness";
    "- Architecture and patterns";
    "- Performance implications";
    "- Security concerns";
    "- Maintainability and scalability";
    "- React/TypeScript best practices";
    "- Edge cases and error handling";
    "";
    "## Output Format";
    "";
    "Return valid JSON matching the schema with:";
    "- Array of issues (both rule-based AND your independent discoveries)";
    "- Overall summary";
    "- Quality score";
    ""
  ].

(* ================================================================== *)
(** * The report ([src/formatter.ts]) *)
(* ================================================================== *)

(** One call of [console.log] in [printResults] and [printIssue], with
    the data it prints; colours, symbols, links and the table layout
    are left to the terminal libraries. *)
Inductive ReportLine : Type :=
| BlankLine                                        (* console.log() *)
| Frame                                        (* the line of 65 double bars *)
| Heading (text : string)                      (* a fixed heading *)
| ResultsTable (score : json) (files issues : nat)
| Tally (label : string) (n : nat)             (* a label with a count *)
| SeverityHeader (severity : string) (n : nat)
| Notice (text : string)                       (* a dimmed remark *)
| Title (v : option json)                      (* issue.title, in bold *)
| Location (file line : option json)           (* file, or file:line *)
| Text (v : option json)                       (* a value printed as it is *)
| Label (text : string)                        (* Why: and Fix: *)
| RuleLine (ruleId : option json)              (* Rule: ruleId *)
| AiInsight
| Separator
| Footer.

(** A computation that prints report lines and then returns or throws. *)
Definition report (A : Type) : Type := (list ReportLine * outcome A)%type.

Definition nothing : report unit := ([], Return tt).
Definition emit (l : ReportLine) : report unit := ([l], Return tt).
Definition reading {A} (o : outcome A) : report A := ([], o).

Definition andThen {A B} (m : report A) (k : A -> report B) : report B :=
  match m with
  | (out, Return a) => let (out', r) := k a in ((out ++ out')%list, r)
  | (out, Throw e) => (out, Throw e)
  end.

Notation "x <~ m ;; k" := (andThen m (fun x => k))
  (at level 61, m at next level, right associativity).
Notation "m ~~ k" := (andThen m (fun _ => k))
  (at level 61, right associativity).

(** [xs.forEach(f)] *)
Fixpoint forEach {A} (f : A -> report unit) (xs : list A) : report unit :=
  match xs with
  | [] => nothing
  | x :: rest => f x ~~ forEach f rest
  end.

(** The array behind [result.issues], for a call of one of its methods:
    a value that is not an array has none (the message is V8's). *)
Definition arrayOf (method : string) (v : json) : outcome (list json) :=
  match v with
  | JArr xs => Return xs
  | _ => Throw (EngineError ("result.issues." ++ method ++ " is not a function"))
  end.

(** [i.ruleId] and [!i.ruleId] as filter tests. *)
Definition hasRuleId (i : json) : outcome bool :=
  match member i "ruleId" with
  | Return v => Return (truthy v)
  | Throw e => Throw e
  end.

Definition lacksRuleId (i : json) : outcome bool :=
  match member i "ruleId" with
  | Return v => Return (negb (truthy v))
  | Throw e => Throw e
  end.

(** ** Conversion to a string

    [formatScore] compares the score with numbers and puts it into a
    template literal; [printResults] appends the summary to a string;
    [printIssue] puts [file] and [line] into template literals, appends
    [ruleId] to a string and hands [title], [reasoning] and [suggestion]
    to chalk, which turns its one argument into a string with ['' + x].
    Each of these converts the value to a primitive, which throws a
    [TypeError] for an object that has no usable [toString] or [valueOf].
    A parsed object inherits both, and the inherited [valueOf] gives back
    the object itself: the conversion fails exactly when the object has
    an own property [toString], whose parsed value cannot be called and
    hides the inherited method.  An array converts by joining the
    conversions of its elements.  Every other value converts. *)
Fixpoint convertible (v : json) : bool :=
  match v with
  | JObj fields =>
      match lookup "toString" fields with
      | Some _ => false
      | None => true
      end
  | JArr items => forallb convertible items
  | _ => true
  end.

(** The conversion of a value that was read; [undefined] converts. *)
Definition converts (v : option json) : bool :=
  match v with
  | Some x => convertible x
  | None => true
  end.

Definition toPrimitive (v : option json) : outcome unit :=
  if converts v then Return tt
  else Throw (EngineError "Cannot convert object to primitive value").

(** [printIssue(issue, isAiDiscovery)].  The location is
    [issue.line ? `${issue.file}:${issue.line}` : issue.file] and the
    target of the link is [`file://${process.cwd()}/${issue.file}`];
    both are computed before the first line is printed. *)
Definition printIssue (issue : json) (isAiDiscovery : bool) : report unit :=
  line <~ reading (member issue "line") ;;
  file <~ reading (member issue "file") ;;
  (if truthy line
   then reading (toPrimitive file) ~~ reading (toPrimitive line)
   else nothing) ~~
  reading (toPrimitive file) ~~
  title <~ reading (member issue "title") ;;
  reading (toPrimitive title) ~~
  emit (Title title) ~~
  emit (Location file (if truthy line then line else None)) ~~
  emit BlankLine ~~
  description <~ reading (member issue "description") ;;
  emit (Text description) ~~
  reasoning <~ reading (member issue "reasoning") ;;
  (if truthy reasoning
   then emit BlankLine ~~ emit (Label "Why:") ~~
        reading (toPrimitive reasoning) ~~ emit (Text reasoning)
   else nothing) ~~
  suggestion <~ reading (member issue "suggestion") ;;
  (if truthy suggestion
   then emit BlankLine ~~ emit (Label "Fix:") ~~
        reading (toPrimitive suggestion) ~~ emit (Text suggestion)
   else nothing) ~~
  ruleId <~ reading (member issue "ruleId") ;;
  (if truthy ruleId
   then emit BlankLine ~~ reading (toPrimitive ruleId) ~~ emit (RuleLine ruleId)
   else if isAiDiscovery then emit BlankLine ~~ emit AiInsight
   else nothing) ~~
  emit Separator ~~
  emit BlankLine.

(** The bucket [grouped[severity]]. *)
Definition bucketOf (grouped : Buckets.t) (severity : string) : list json :=
  if String.eqb severity "critical" then Buckets.critical grouped
  else if String.eqb severity "high" then Buckets.high grouped
  else if String.eqb severity "medium" then Buckets.medium grouped
  else Buckets.low grouped.

Definition severityOrder : list string := ["critical"; "high"; "medium"; "low"].

(** The loop over the four severities, for one group of issues. *)
Definition printGroups (grouped : Buckets.t) (isAiDiscovery : bool) : report unit :=
  forEach
    (fun severity =>
       let issues := bucketOf grouped severity in
       if Nat.eqb (List.length issues) 0 then nothing
       else
         emit (SeverityHeader severity (List.length issues)) ~~
         emit BlankLine ~~
         forEach (fun issue => printIssue issue isAiDiscovery) issues)
    severityOrder.

(** [result.issues.length]: only [null] has no properties to read. *)
Definition issuesLength (v : json) : outcome unit :=
  match v with
  | JNull => Throw (EngineError "Cannot read properties of null (reading 'length')")
  | _ => Return tt
  end.

(** [printResults(result)].  [formatScore(result.overallScore)] runs
    first, before the issues are read; the table is printed after the
    four counts. *)
Definition printResults (result : ReviewResult.t) : report unit :=
  emit BlankLine ~~
  emit Frame ~~ emit BlankLine ~~
  emit (Heading "        🔍 Gemini Deep Code Review") ~~
  emit BlankLine ~~ emit Frame ~~
  emit BlankLine ~~
  emit (Heading "Review Complete") ~~ emit BlankLine ~~
  emit (Heading "Results") ~~
  reading (toPrimitive (Some (ReviewResult.overallScore result))) ~~
  reading (issuesLength (ReviewResult.issues result)) ~~
  all <~ reading (arrayOf "filter" (ReviewResult.issues result)) ;;
  let issuesCount := List.length all in
  criticalCount <~ reading (filterM (severityIs "critical") all) ;;
  highCount <~ reading (filterM (severityIs "high") all) ;;
  mediumCount <~ reading (filterM (severityIs "medium") all) ;;
  lowCount <~ reading (filterM (severityIs "low") all) ;;
  emit (ResultsTable (ReviewResult.overallScore result)
          (List.length (ReviewResult.filesReviewed result)) issuesCount) ~~
  emit BlankLine ~~
  (if truthy (Some (ReviewResult.summary result))
   then emit (Heading "Summary") ~~
        reading (toPrimitive (Some (ReviewResult.summary result))) ~~
        emit (Text (Some (ReviewResult.summary result))) ~~ emit BlankLine
   else nothing) ~~
  ruleBased <~ reading (filterM hasRuleId all) ;;
  aiDiscoveries <~ reading (filterM lacksRuleId all) ;;
  let totalIssues := List.length all in
  emit (Tally "📊 Issues Found" totalIssues) ~~
  emit BlankLine ~~
  emit (Tally "🔖 From Team Rules" (List.length ruleBased)) ~~
  emit (Tally "✨ AI Insights:" (List.length aiDiscoveries)) ~~
  emit BlankLine ~~
  (if Nat.ltb 0 (List.length ruleBased)
   then ruleGrouped <~ reading (groupBySeverity ruleBased) ;;
        printGroups ruleGrouped false
   else emit (Notice "No rule violations found") ~~ emit BlankLine) ~~
  emit (Tally "✨ AI Insights" (List.length aiDiscoveries)) ~~
  emit BlankLine ~~
  (if Nat.ltb 0 (List.length aiDiscoveries)
   then aiGrouped <~ reading (groupBySeverity aiDiscoveries) ;;
        printGroups aiGrouped true
   else emit (Notice "No additional issues discovered") ~~ emit BlankLine) ~~
  emit Footer ~~
  emit BlankLine.

(* ================================================================== *)
(** * The thinking trace on parts of any kind ([src/gemini-reviewer.ts]) *)
(* ================================================================== *)

(** The parts of a response are data of the remote service, read as
    [any]: [part.thought] may be a flag as well as a text.  [Part.t]
    above reads them at the type of a text; the definitions below take
    [response.candidates?.[0]?.content?.parts] as the parsed value it
    is, [None] being [undefined]. *)

Section Texts.

Variable convert : json -> outcome string.

(** The conversions of the elements of an array, in order, up to the
    first one that throws. *)
Fixpoint textsOf (items : list json) : outcome (list string) :=
  match items with
  | [] => Return []
  | x :: rest =>
      match convert x with
      | Throw e => Throw e
      | Return t =>
          match textsOf rest with
          | Throw e => Throw e
          | Return ts => Return (t :: ts)
          end
      end
  end.

End Texts.

Section NumberText.

(** The text of a number, [String(x)], is the one conversion that is
    not computed here: [numberText m e] stands for the text of the
    double nearest to [m * 10^e]. *)
Variable numberText : Z -> Z -> string.

(** [String(v)], as [Array.prototype.join] applies it to an element:
    an array joins its elements with commas, [null] among them giving
    the empty text; an object gives [[object Object]], unless an own
    property [toString] hides the inherited method (see
    [convertible]). *)
Fixpoint toText (v : json) : outcome string :=
  match v with
  | JNull => Return "null"
  | JBool b => Return (if b then "true" else "false")
  | JNum m e => Return (numberText m e)
  | JStr s => Return s
  | JArr items =>
      match textsOf (fun x => match x with
                              | JNull => Return ""
                              | _ => toText x
                              end) items with
      | Throw e => Throw e
      | Return ts => Return (String.concat "," ts)
      end
  | JObj fields =>
      match lookup "toString" fields with
      | Some _ => Throw (EngineError "Cannot convert object to primitive value")
      | None => Return "[object Object]"
      end
  end.

(** [part.thought || part.thinking] *)
Definition thoughtOrThinking (part : json) : outcome (option json) :=
  match member part "thought" with
  | Throw e => Throw e
  | Return thought =>
      if truthy thought then Return thought else member part "thinking"
  end.

(** [extractThinkingTrace(response)] on the value of
    [response.candidates?.[0]?.content?.parts]; whatever is thrown
    inside the [try] ends in [return undefined]. *)
Definition extractThinkingTraceRaw (parts : option json) : option string :=
  let attempt : outcome (option string) :=
    if truthy parts then
      match parts with
      | Some (JArr items) =>
          match filterM (fun part =>
                           match thoughtOrThinking part with
                           | Throw e => Throw e
                           | Return marker => Return (truthy marker)
                           end) items with
          | Throw e => Throw e
          | Return thinkingParts =>
              if Nat.ltb 0 (List.length thinkingParts)
              then
                match textsOf (fun p =>
                                 match thoughtOrThinking p with
                                 | Throw e => Throw e
                                 | Return (Some marker) => toText marker
                                 | Return None => Return ""
                                 end) thinkingParts with
                | Throw e => Throw e
                | Return texts => Return (Some (String.concat nl texts))
                end
              else Return None
          end
      | _ =>
          Throw (EngineError
                   "response.candidates[0].content.parts.filter is not a function")
      end
    else Return None in
  match attempt with
  | Return trace => trace
  | Throw _ => None
  end.

End NumberText.

(* ================================================================== *)
(** * The command line ([src/cli.ts]) *)
(* ================================================================== *)

(** [s.split(sep)] for a separator of one character, [acc] being the
    piece under construction, reversed. *)
Fixpoint split_from (sep : ascii) (acc : list ascii) (s : string) : list string :=
  match s with
  | "" => [string_of_list_ascii (rev acc)]
  | String c s' =>
      if Ascii.eqb c sep
      then string_of_list_ascii (rev acc) :: split_from sep [] s'
      else split_from sep (c :: acc) s'
  end.

Definition split_on (sep : ascii) (s : string) : list string := split_from sep [] s.

Definition comma : ascii := byte 44.

(** The tags of the run:
    [options.tags ? options.tags.split(',').map(t => t.trim()) : ['react', 'typescript']] *)
Definition parseTags (tagsOption : string) : list string :=
  if negb (String.eqb tagsOption "")
  then map trim (split_on comma tagsOption)
  else ["react"; "typescript"].

(** [path.extname] of a path (POSIX): the extension of its last
    segment, trailing separators left aside. *)
Fixpoint drop_slashes (l : list ascii) : list ascii :=
  match l with
  | c :: rest => if Nat.eqb (nat_of_ascii c) 47 then drop_slashes rest else l
  | [] => []
  end.

Fixpoint until_slash (l : list ascii) : list ascii :=
  match l with
  | c :: rest => if Nat.eqb (nat_of_ascii c) 47 then [] else c :: until_slash rest
  | [] => []
  end.

Definition lastSegment (path : string) : string :=
  string_of_list_ascii
    (rev (until_slash (drop_slashes (rev (list_ascii_of_string path))))).

Definition extnameOfPath (path : string) : string := extname (lastSegment path).

(** [languageMap[ext] || 'typescript'] *)
Definition languageOf (ext : string) : string :=
  if String.eqb ext ".ts" then "typescript"
  else if String.eqb ext ".tsx" then "tsx"
  else if String.eqb ext ".js" then "javascript"
  else if String.eqb ext ".jsx" then "jsx"
  else "typescript".

(** [loadSingleFile(filePath)], [fileExists] and [fileRead] being what
    [existsSync] and [readFileSync] give for the resolved path. *)
Definition loadSingleFile (filePath : string) (fileExists : bool)
    (fileRead : outcome string) : outcome (list FileToReview.t) :=
  if negb fileExists then Throw (UserError ("File not found: " ++ filePath))
  else
    match fileRead with
    | Throw e => Throw e
    | Return content =>
        Return [ {| FileToReview.path := filePath;
                    FileToReview.content := content;
                    FileToReview.language := languageOf (extnameOfPath filePath) |} ]
    end.

(** What a run of the command finds around it. *)
Module Env.
Record t : Type := {
  GOOGLE_API_KEY : option string;      (* process.env.GOOGLE_API_KEY *)
  cwd : string;                        (* process.cwd() *)
  rulesDirExists : bool;               (* existsSync(rulesDir) *)
  rulesRoot : outcome (list fsnode);   (* the content of rulesDir *)
  tagsOption : string;                 (* options.tags, '' by default *)
  modelOption : string;                (* options.model *)
  thinkingOption : bool;               (* options.thinking *)
  fileArgument : option string;        (* the positional argument *)
  fileExists : bool;                   (* existsSync(resolvedPath) *)
  fileRead : outcome string;           (* readFileSync(resolvedPath, 'utf-8') *)
  remote : Remote.t
}.
End Env.

(** What the command shows, in order: its own lines, the spinner
    transitions, the console lines of the loader and of the gateway, the
    lines of the report, and the error of the outer [catch]. *)
Inductive CliEvent : Type :=
| Stdout (text : string)
| Stderr (text : string)
| Spinner (state text : string)
| Console (ev : ConsoleEvent)
| Report (l : ReportLine)
| ErrorReport (e : thrown).

(** The outer [catch]: the error is shown and the process exits with 1. *)
Definition failWith (shown : list CliEvent) (e : thrown) : list CliEvent * nat :=
  ((shown ++ [ErrorReport e])%list, 1).

(** The action of the command: what it shows and the exit code.  The
    constructor of the reviewer throws only without an API key, which
    the first check has excluded by then. *)
Definition action (env : Env.t) : list CliEvent * nat :=
  let shown := [Stdout (nl ++ "🔍 Gemini Code Review" ++ nl)] in
  if negb (truthy_text (Env.GOOGLE_API_KEY env)) then
    ((shown ++ [ Stderr "❌ Error: GOOGLE_API_KEY environment variable is required";
                 Stdout (nl ++ "Set it with: export GOOGLE_API_KEY=your_api_key_here");
                 Stdout ("Or create a .env file (see .env.example)" ++ nl) ])%list, 1)
  else
  let shown := (shown ++ [Spinner "start" "Loading review rules..."])%list in
  let rulesDir := join (Env.cwd env) "rules" in
  if negb (Env.rulesDirExists env) then
    ((shown ++ [Spinner "fail" ("Rules directory not found: " ++ rulesDir)])%list, 1)
  else
  let (loaderOut, rules) := loadRules rulesDir (Env.rulesRoot env) [] in
  let shown :=
    (shown ++ map Console loaderOut
       ++ [Spinner "succeed"
             ("Loaded " ++ decimal (List.length (getRules rules)) ++ " rules")])%list in
  let tags := parseTags (Env.tagsOption env) in
  let rulesPrompt := compileRulesForPrompt rules (Some tags) in
  let shown :=
    (shown ++ [Stdout ("Using rules tagged: " ++ String.concat ", " tags)])%list in
  if negb (truthy_text (Env.fileArgument env)) then
    ((shown ++ [ Stderr "❌ Error: File path required in Phase 1";
                 Stdout "Usage: gemini-review <file-path>";
                 Stdout ("Example: gemini-review src/components/UserProfile.tsx" ++ nl) ])%list,
     1)
  else
  match loadSingleFile (text_of (Env.fileArgument env)) (Env.fileExists env)
          (Env.fileRead env) with
  | Throw e => failWith shown e
  | Return filesToReview =>
      let shown :=
        (shown ++ [ Stdout ("Reviewing " ++ decimal (List.length filesToReview)
                              ++ " file(s)..." ++ nl);
                    Stdout ("🤖 AI Review Process" ++ nl);
                    Stdout "📋 JOB 1: Checking against your team rules...";
                    Stdout "   - Enforcing strict requirements";
                    Stdout ("   - Applying guiding principles" ++ nl);
                    Spinner "start"
                      "🧠 JOB 2: Deep AI reasoning (discovering issues beyond rules)..." ])%list in
      let config := {| ReviewConfig.model := Env.modelOption env;
                       ReviewConfig.enableDeepThinking := Env.thinkingOption env |} in
      let analysisFailed (shown : list CliEvent) (e : thrown) :=
        failWith (shown ++ [Spinner "fail" "Analysis failed"])%list e in
      match reviewCode config (Env.remote env) filesToReview rulesPrompt with
      | (out, Throw e) => analysisFailed (shown ++ map Console out)%list e
      | (out, Return result) =>
          let shown :=
            (shown ++ map Console out
               ++ [Spinner "succeed"
                     "✅ Analysis complete! (Both rule-based + AI discoveries)"])%list in
          match printResults result with
          | (lines, Throw e) => analysisFailed (shown ++ map Report lines)%list e
          | (lines, Return _) =>
              let shown := (shown ++ map Report lines)%list in
              match exitCode result with
              | (out, Throw e) => analysisFailed (shown ++ map Console out)%list e
              | (out, Return code) => ((shown ++ map Console out)%list, code)
              end
          end
      end
  end.

(* ================================================================== *)
(** * Words of the specification *)
(* ================================================================== *)

(** [xs] keeps some of the elements of [ys], in the order of [ys]. *)
Inductive Subseq {A : Type} : list A -> list A -> Prop :=
| Subseq_nil : Subseq [] []
| Subseq_keep x xs ys : Subseq xs ys -> Subseq (x :: xs) (x :: ys)
| Subseq_drop y xs ys : Subseq xs ys -> Subseq xs (y :: ys).

(** A text made of white space only. *)
Inductive Blank : list ascii -> Prop :=
| Blank_nil : Blank []
| Blank_1 a l : ws1 a = true -> Blank l -> Blank (a :: l)
| Blank_2 a b l : ws2 a b = true -> Blank l -> Blank (a :: b :: l)
| Blank_3 a b c l : ws3 a b c = true -> Blank l -> Blank (a :: b :: c :: l).

(** The text starts with a white space character; the same for a text
    given last byte first. *)
Definition starts_blank (l : list ascii) : bool :=
  match l with
  | [] => false
  | a :: r1 =>
      ws1 a ||
      match r1 with
      | [] => false
      | b :: r2 =>
          ws2 a b || match r2 with [] => false | c :: _ => ws3 a b c end
      end
  end.

Definition starts_blank_rev (l : list ascii) : bool :=
  match l with
  | [] => false
  | a :: r1 =>
      ws1 a ||
      match r1 with
      | [] => false
      | b :: r2 =>
          ws2 b a || match r2 with [] => false | c :: _ => ws3 c b a end
      end
  end.

(** The tag set of a rule intersects a tag list. *)
Definition tagsIntersect (r : Rule.t) (tags : list string) : Prop :=
  exists tag, In tag (Rule.tags r) /\ In tag tags.

(** The same for a rule whose tags are kept as a value: the tags of the
    rule are the strings among the elements of the array. *)
Definition tagItems (ruleTags : json) : list json :=
  match ruleTags with
  | JArr items => items
  | _ => []
  end.

Definition tagsAreArray (r : RawRule.t) : Prop :=
  exists items, RawRule.tags r = JArr items.

Definition rawIntersect (r : RawRule.t) (tags : list string) : Prop :=
  exists tag, In (JStr tag) (tagItems (RawRule.tags r)) /\ In tag tags.

(** The test that decides [rawIntersect]. *)
Definition tagTest (tags : list string) (r : RawRule.t) : bool :=
  existsb (fun tag =>
             existsb (fun item => is_text (Some item) tag) (tagItems (RawRule.tags r)))
          tags.

(** A typed rule and typed frontmatter, with their tags as values. *)
Definition rawRule (r : Rule.t) : RawRule.t :=
  {| RawRule.id := Rule.id r;
     RawRule.title := Rule.title r;
     RawRule.type := Rule.type r;
     RawRule.impact := Rule.impact r;
     RawRule.category := Rule.category r;
     RawRule.tags := JArr (map JStr (Rule.tags r));
     RawRule.content := Rule.content r |}.

Definition rawData (d : Data.t) : RawData.t :=
  {| RawData.id := Data.id d;
     RawData.title := Data.title d;
     RawData.type := Data.type d;
     RawData.impact := Data.impact d;
     RawData.category := Data.category d;
     RawData.tags := option_map (fun l => JArr (map JStr l)) (Data.tags d) |}.

(** The rule set a compilation works on. *)
Definition filteredRules (rules : list Rule.t) (tags : option (list string)) : list Rule.t :=
  match tags with
  | Some tags => getRulesByTags rules tags
  | None => rules
  end.

(** A section of the compiled prompt: nothing for an empty bucket, else
    the header followed by one block per rule of the bucket. *)
Definition sectionText (header : string) (block : Rule.t -> string) (bucket : list Rule.t)
  : string :=
  match bucket with
  | [] => ""
  | _ => header ++ String.concat "" (map block bucket)
  end.

(** The frontmatter lacks [id] or lacks [title]. *)
Definition lacksRequired (data : Data.t) : Prop :=
  Data.id data = None \/ Data.title data = None.

(** [tree'] is the directory content [tree] without one occurrence of
    the entry [f], at the top or inside a readable sub-directory. *)
Inductive without (f : fsnode) : list fsnode -> list fsnode -> Prop :=
| without_here rest : without f (f :: rest) rest
| without_later n rest rest' :
    without f rest rest' -> without f (n :: rest) (n :: rest')
| without_inside name sub sub' rest :
    without f sub sub' ->
    without f (FsDir name (Return sub) :: rest) (FsDir name (Return sub') :: rest).

(** The line count of a text, counting the pieces between line feeds. *)
Definition lineCount (s : string) : nat := S (count_lf s).

(** An issue is an object whose [severity] is the string [s]. *)
Definition hasSeverity (s : string) (i : json) : Prop :=
  exists fields, i = JObj fields /\ lookup "severity" fields = Some (JStr s).

Definition knownSeverity (i : json) : Prop :=
  hasSeverity "critical" i \/ hasSeverity "high" i \/
  hasSeverity "medium" i \/ hasSeverity "low" i.

Definition bucketTotal (b : Buckets.t) : nat :=
  List.length (Buckets.critical b) + List.length (Buckets.high b)
  + List.length (Buckets.medium b) + List.length (Buckets.low b).

(** What [reviewCode] logs before it reads the response. *)
Definition preamble (config : ReviewConfig.t) (remote : Remote.t) : list ConsoleEvent :=
  [ Log ("🧠 Using model: " ++ ReviewConfig.model config);
    Log ("🤔 Deep thinking: " ++
         if ReviewConfig.enableDeepThinking config then "enabled" else "disabled");
    Log ("⏱️  Analysis completed in " ++ Remote.duration remote ++ "s") ].

(** The test [i.severity === severity] on an element that is not
    [null]. *)
Definition severityTest (severity : string) (i : json) : bool :=
  match i with
  | JObj fields => is_text (lookup "severity" fields) severity
  | _ => false
  end.

(** No issue is in both lists. *)
Definition disjoint (xs ys : list json) : Prop := forall i, In i xs -> ~ In i ys.

(** The three banners of the exit-code block. *)
Definition failedBanner : string := "❌ Review failed: Critical issues found" ++ nl.
Definition warningBanner : string :=
  "⚠️  Review passed with warnings: High-priority issues found" ++ nl.
Definition passedBanner : string := "✅ Review passed!" ++ nl.

(* ================================================================== *)
(** * Sample inputs *)
(* ================================================================== *)

Definition sampleConfig : ReviewConfig.t :=
  {| ReviewConfig.model := "gemini-2.0-flash-lite";
     ReviewConfig.enableDeepThinking := true |}.

Definition sampleFiles : list FileToReview.t :=
  [ {| FileToReview.path := "src/App.tsx";
       FileToReview.content := template ["const a = 1;"; "export default a;"; ""];
       FileToReview.language := "tsx" |};
    {| FileToReview.path := "src/empty.ts";
       FileToReview.content := "";
       FileToReview.language := "typescript" |} ].

(** The remote service answering with the text [payload]. *)
Definition answering (payload : string) : Remote.t :=
  {| Remote.generateContent :=
       Return {| Response.text := Return payload; Response.parts := None |};
     Remote.duration := "1.2" |}.

(** A response cut off in the middle, as in TROUBLESHOOTING.md. *)
Definition truncatedPayload : string :=
  dq "{'issues': [{'suggestion': 'Use Promise.all to fetch data concurrently".

Definition emptyObjectPayload : string := "{}".

Definition threeIssuesPayload : string :=
  dq "{'issues':[{'severity':'high','title':'a'},{'severity':'critical','title':'b'},{'severity':'low','title':'c'}],'summary':'ok','overallScore':70}".

(** A response whose single issue has a severity outside the schema. *)
Definition infoIssuePayload : string :=
  dq "{'issues':[{'severity':'info','title':'note'}],'summary':'ok','overallScore':90}".

(** A response whose score is an object with an own [toString], and one
    whose issues are a number too small for a double. *)
Definition unprintableScorePayload : string :=
  dq "{'issues':[],'summary':'ok','overallScore':{'toString':1}}".

Definition underflowIssuesPayload : string :=
  dq "{'issues':1e-400,'summary':'ok','overallScore':90}".

Definition issueOf (severity : string) : json :=
  JObj [("severity", JStr severity); ("title", JStr "t")].

Definition resultWith (issues : list json) : ReviewResult.t :=
  {| ReviewResult.issues := JArr issues;
     ReviewResult.summary := JStr "s";
     ReviewResult.overallScore := JNum 50 0;
     ReviewResult.thinkingTrace := None;
     ReviewResult.filesReviewed := [];
     ReviewResult.totalLines := 0 |}.

Definition dataOf (id title : option string) (type : option string)
    (tags : option (list string)) : Data.t :=
  {| Data.id := id; Data.title := title; Data.type := type;
     Data.impact := None; Data.category := None; Data.tags := tags |}.

Definition ruleOf (id type : string) (tags : list string) : Rule.t :=
  {| Rule.id := id; Rule.title := "Title of " ++ id; Rule.type := type;
     Rule.impact := "HIGH"; Rule.category := "performance";
     Rule.tags := tags; Rule.content := "Body of " ++ id |}.

Definition sampleRules : list Rule.t :=
  [ ruleOf "r1" "requirement" ["a"];
    ruleOf "p1" "principle" ["b"];
    ruleOf "g1" "guideline" ["a"; "c"];
    ruleOf "p2" "principle" ["c"] ].

(** A rule file without [title], between two complete ones, one of them
    in a sub-directory. *)
Definition untitledFile : fsnode :=
  FsFile "untitled.md" (Return (dataOf (Some "u") None None None, "text")).

Definition sampleTree : list fsnode :=
  [ FsDir "react"
      (Return [ FsFile "first.md"
                  (Return (dataOf (Some "x") (Some "T") None None, nl ++ "Body" ++ nl));
                untitledFile;
                FsFile "notes.txt" (Return (dataOf (Some "n") (Some "N") None None, "")) ]);
    FsFile "last.md"
      (Return (dataOf (Some "y") (Some "Y") (Some "guideline") (Some ["a"]), "Last")) ].

Definition sampleTreeWithout : list fsnode :=
  [ FsDir "react"
      (Return [ FsFile "first.md"
                  (Return (dataOf (Some "x") (Some "T") None None, nl ++ "Body" ++ nl));
                FsFile "notes.txt" (Return (dataOf (Some "n") (Some "N") None None, "")) ]);
    FsFile "last.md"
      (Return (dataOf (Some "y") (Some "Y") (Some "guideline") (Some ["a"]), "Last")) ].

(** Two loaded rules whose tags are sequences: [c], and [b, 1] with an
    element that is not a string. *)
Definition arrayTagsRules : list RawRule.t :=
  [ {| RawRule.id := "p2"; RawRule.title := "P2"; RawRule.type := "principle";
       RawRule.impact := "MEDIUM"; RawRule.category := "general";
       RawRule.tags := JArr [JStr "c"]; RawRule.content := "Body" |};
    {| RawRule.id := "p1"; RawRule.title := "P1"; RawRule.type := "principle";
       RawRule.impact := "HIGH"; RawRule.category := "general";
       RawRule.tags := JArr [JStr "b"; JNum 1 0]; RawRule.content := "Body" |} ].

(** The frontmatter of a rule file that gives its tags on one line,
    [tags: react, typescript], which YAML reads as one string. *)
Definition scalarTagsData : RawData.t :=
  {| RawData.id := Some "style";
     RawData.title := Some "Style";
     RawData.type := None;
     RawData.impact := None;
     RawData.category := None;
     RawData.tags := Some (JStr "react, typescript") |}.

Definition scalarTagsRule : RawRule.t :=
  {| RawRule.id := "style";
     RawRule.title := "Style";
     RawRule.type := "principle";
     RawRule.impact := "MEDIUM";
     RawRule.category := "general";
     RawRule.tags := JStr "react, typescript";
     RawRule.content := "Body" |}.

(* ================================================================== *)
(** * Words for the rest of the loader *)
(* ================================================================== *)

(** Induction on a directory tree: a readable directory has the
    property once all its entries have it. *)
Section TreeInduction.

Variable P : fsnode -> Prop.
Hypothesis onFile : forall name parsed, P (FsFile name parsed).
Hypothesis onOther : forall name, P (FsOther name).
Hypothesis onBroken : forall name e, P (FsBroken name e).
Hypothesis onUnreadable : forall name e, P (FsDir name (Throw e)).
Hypothesis onDir : forall name entries, Forall P entries -> P (FsDir name (Return entries)).

Fixpoint fsnode_tree_ind (n : fsnode) : P n :=
  match n with
  | FsFile name parsed => onFile name parsed
  | FsOther name => onOther name
  | FsBroken name e => onBroken name e
  | FsDir name (Throw e) => onUnreadable name e
  | FsDir name (Return entries) =>
      onDir name
        ((fix all (l : list fsnode) : Forall P l :=
            match l with
            | [] => Forall_nil P
            | x :: rest => Forall_cons x (fsnode_tree_ind x) (all rest)
            end) entries)
  end.

End TreeInduction.

(** [statSync] succeeds on the entry. *)
Definition statOk (n : fsnode) : Prop :=
  match n with
  | FsBroken _ _ => False
  | _ => True
  end.

(** An entry from which no rule can come: not a file or a directory,
    a file whose extension is not [.md], a file that cannot be read or
    parsed, a file whose [id] or [title] is missing or empty, a
    directory that cannot be listed, an empty directory. *)
Definition inert (n : fsnode) : Prop :=
  match n with
  | FsOther _ => True
  | FsBroken _ _ => False
  | FsFile name parsed =>
      extname name <> ".md"
      \/ match parsed with
         | Throw _ => True
         | Return (data, _) =>
             truthy_text (Data.id data) = false \/ truthy_text (Data.title data) = false
         end
  | FsDir _ (Throw _) => True
  | FsDir _ (Return entries) => entries = []
  end.

(** [tree'] is the directory content [tree] cut at a failing entry: in
    one directory, the content itself or a readable directory at any
    depth below it, an entry on which [statSync] fails and all entries
    listed after it are gone; everything else is as in [tree]. *)
Inductive cutAtFailure : list fsnode -> list fsnode -> Prop :=
| cut_here before name e after :
    cutAtFailure (before ++ FsBroken name e :: after)%list before
| cut_later n rest rest' :
    cutAtFailure rest rest' -> cutAtFailure (n :: rest) (n :: rest')
| cut_inside name sub sub' rest :
    cutAtFailure sub sub' ->
    cutAtFailure (FsDir name (Return sub) :: rest) (FsDir name (Return sub') :: rest).

(** What every rule of a loaded collection satisfies: no field that is
    printed into the prompt header is empty, and the content has no
    white space at either end. *)
Definition wellFormedRule (r : Rule.t) : Prop :=
  Rule.id r <> "" /\ Rule.title r <> "" /\ Rule.type r <> ""
  /\ Rule.impact r <> "" /\ Rule.category r <> ""
  /\ starts_blank (list_ascii_of_string (Rule.content r)) = false
  /\ starts_blank_rev (rev (list_ascii_of_string (Rule.content r))) = false.

(** A step that only adds rules at the end. *)
Definition appends (s : step) (added : list Rule.t) : Prop :=
  forall rules, snd (s rules) = (rules ++ added)%list.

(** What a visit or a scan does to the collection: it adds well-formed
    rules at the end, the same ones whatever the collection held. *)
Definition visitAppends (entry : fsnode) : Prop :=
  forall dir,
    match visitEntry dir entry with
    | Return s => exists added, appends s added /\ Forall wellFormedRule added
    | Throw _ => True
    end.

(** A tree with a sub-directory in which [statSync] fails on the second
    of three entries, followed by a sibling file. *)
Definition brokenTree : list fsnode :=
  [ FsDir "team"
      (Return [ FsFile "one.md" (Return (dataOf (Some "one") (Some "One") None None, "1"));
                FsBroken "dangling" (EngineError "ENOENT: no such file or directory");
                FsFile "two.md" (Return (dataOf (Some "two") (Some "Two") None None, "2")) ]);
    FsOther "socket";
    FsDir "locked" (Throw (EngineError "EACCES: permission denied"));
    FsFile "README.MD" (Return (dataOf (Some "readme") (Some "Readme") None None, "r"));
    FsFile "bad.md" (Throw (UserError "bad indentation of a mapping entry"));
    FsFile "three.md"
      (Return (dataOf (Some "three") (Some "Three") (Some "") (Some ["react"]), " 3 ")) ].

(** A tree in which [statSync] fails two directories below the root,
    and the same tree with the inner directory ending before the
    failing entry. *)
Definition deepTree : list fsnode :=
  [ FsDir "team"
      (Return [ FsOther "socket";
                FsDir "react"
                  (Return [ FsFile "one.md"
                              (Return (dataOf (Some "one") (Some "One") None None, "1"));
                            FsBroken "dangling"
                              (EngineError "ENOENT: no such file or directory");
                            FsFile "two.md"
                              (Return (dataOf (Some "two") (Some "Two") None None, "2")) ]);
                FsFile "three.md"
                  (Return (dataOf (Some "three") (Some "Three") None None, "3")) ]);
    FsFile "four.md" (Return (dataOf (Some "four") (Some "Four") None None, "4")) ].

Definition deepTreeCut : list fsnode :=
  [ FsDir "team"
      (Return [ FsOther "socket";
                FsDir "react"
                  (Return [ FsFile "one.md"
                              (Return (dataOf (Some "one") (Some "One") None None, "1")) ]);
                FsFile "three.md"
                  (Return (dataOf (Some "three") (Some "Three") None None, "3")) ]);
    FsFile "four.md" (Return (dataOf (Some "four") (Some "Four") None None, "4")) ].

(* ================================================================== *)
(** * Words for the report and the command line *)
(* ================================================================== *)

(** The tests [i.ruleId] is truthy, and [i.severity] is one of the four
    severities, on an element that is not [null]. *)
Definition ruleIdTest (i : json) : bool :=
  match i with
  | JObj fields => truthy (lookup "ruleId" fields)
  | _ => false
  end.

Definition knownTest (i : json) : bool :=
  severityTest "critical" i || severityTest "high" i
  || severityTest "medium" i || severityTest "low" i.

Definition titleOf (i : json) : option json :=
  match i with
  | JObj fields => lookup "title" fields
  | _ => None
  end.

Definition ruleIdOf (i : json) : option json :=
  match i with
  | JObj fields => lookup "ruleId" fields
  | _ => None
  end.

(** The block of an issue can be printed: none of the fields that
    [printIssue] turns into a string is an object with an own
    [toString], or an array that holds one. *)
Definition printable (i : json) : bool :=
  match i with
  | JObj fields =>
      converts (lookup "file" fields) && converts (lookup "line" fields)
      && converts (lookup "title" fields) && converts (lookup "reasoning" fields)
      && converts (lookup "suggestion" fields) && converts (lookup "ruleId" fields)
  | _ => true
  end.

(** The marker of the block of an issue. *)
Definition markerOf (i : json) (isAiDiscovery : bool) : list ReportLine :=
  if ruleIdTest i then [RuleLine (ruleIdOf i)]
  else if isAiDiscovery then [AiInsight]
  else [].

(** The issues of a group in the order of the report: critical ones
    first, then high, medium and low ones. *)
Definition bySeverity (group : list json) : list json :=
  flat_map (fun severity => filter (severityTest severity) group) severityOrder.

(** The issues in the order of the report: those with a rule id, then
    the others, each group by severity. *)
Definition shownIssues (items : list json) : list json :=
  (bySeverity (filter ruleIdTest items)
   ++ bySeverity (filter (fun i => negb (ruleIdTest i)) items))%list.

(** The titles, the separators and the markers among report lines. *)
Definition titlesOf (lines : list ReportLine) : list (option json) :=
  flat_map (fun l => match l with Title t => [t] | _ => [] end) lines.

Definition separatorsOf (lines : list ReportLine) : list ReportLine :=
  flat_map (fun l => match l with Separator => [l] | _ => [] end) lines.

Definition markersOf (lines : list ReportLine) : list ReportLine :=
  flat_map (fun l => match l with RuleLine _ | AiInsight => [l] | _ => [] end) lines.

(** A reading of report lines that sees only lines of issue blocks. *)
Definition blockReading {B : Type} (f : ReportLine -> list B) : Prop :=
  f BlankLine = [] /\ f Frame = [] /\ f Footer = []
  /\ (forall t, f (Heading t) = []) /\ (forall t, f (Notice t) = [])
  /\ (forall s a b, f (ResultsTable s a b) = [])
  /\ (forall l n, f (Tally l n) = []) /\ (forall s n, f (SeverityHeader s n) = [])
  /\ (forall v, f (Text v) = []).

(** The lines before the results table. *)
Definition opening : list ReportLine :=
  [ BlankLine; Frame; BlankLine; Heading "        🔍 Gemini Deep Code Review";
    BlankLine; Frame; BlankLine; Heading "Review Complete"; BlankLine;
    Heading "Results" ].

(** The part of the report for one group of issues. *)
Definition groupReport (group : list json) (isAiDiscovery : bool) (notice : string)
  : report unit :=
  if Nat.ltb 0 (List.length group)
  then grouped <~ reading (groupBySeverity group) ;;
       printGroups grouped isAiDiscovery
  else emit (Notice notice) ~~ emit BlankLine.

Definition summaryLines (result : ReviewResult.t) : list ReportLine :=
  if truthy (Some (ReviewResult.summary result))
  then [Heading "Summary"; Text (Some (ReviewResult.summary result)); BlankLine]
  else [].

(** The lines of the report before the blocks of the issues. *)
Definition reportHead (result : ReviewResult.t) (items : list json) : list ReportLine :=
  (opening
   ++ [ ResultsTable (ReviewResult.overallScore result)
          (List.length (ReviewResult.filesReviewed result)) (List.length items);
        BlankLine ]
   ++ summaryLines result
   ++ [ Tally "📊 Issues Found" (List.length items); BlankLine;
        Tally "🔖 From Team Rules" (List.length (filter ruleIdTest items));
        Tally "✨ AI Insights:"
          (List.length (filter (fun i => negb (ruleIdTest i)) items));
        BlankLine ])%list.

(** An issue whose title is an object with an own [toString]. *)
Definition unprintableIssue : json :=
  JObj [("severity", JStr "high"); ("title", JObj [("toString", JNum 1 0)])].

(** A text without the character [c]. *)
Definition lacksChar (c : ascii) (s : string) : Prop :=
  ~ In c (list_ascii_of_string s).

Fixpoint count_char (c : ascii) (s : string) : nat :=
  match s with
  | "" => 0
  | String x s' => (if Ascii.eqb x c then 1 else 0) + count_char c s'
  end.

(** Induction on a parsed value: an array has the property once all its
    elements have it. *)
Section JsonInduction.

Variable P : json -> Prop.
Hypothesis onNull : P JNull.
Hypothesis onBool : forall b, P (JBool b).
Hypothesis onNum : forall m e, P (JNum m e).
Hypothesis onStr : forall s, P (JStr s).
Hypothesis onArr : forall items, Forall P items -> P (JArr items).
Hypothesis onObj : forall fields, P (JObj fields).

Fixpoint json_tree_ind (v : json) : P v :=
  match v with
  | JNull => onNull
  | JBool b => onBool b
  | JNum m e => onNum m e
  | JStr s => onStr s
  | JArr items =>
      onArr
        ((fix all (l : list json) : Forall P l :=
            match l with
            | [] => Forall_nil P
            | x :: rest => Forall_cons x (json_tree_ind x) (all rest)
            end) items)
  | JObj fields => onObj fields
  end.

End JsonInduction.

(** The marker of a part, [part.thought || part.thinking], on a part
    that is not [null]; a part is marked when its marker is truthy. *)
Definition markerValue (part : json) : option json :=
  match part with
  | JObj fields =>
      if truthy (lookup "thought" fields) then lookup "thought" fields
      else lookup "thinking" fields
  | _ => None
  end.

Definition markedTest (part : json) : bool := truthy (markerValue part).

(** The text a marked part contributes to the trace. *)
Definition markerText (numberText : Z -> Z -> string) (part : json) : string :=
  match markerValue part with
  | Some marker =>
      match toText numberText marker with
      | Return t => t
      | Throw _ => ""
      end
  | None => ""
  end.

(** A typed part as the object it is. *)
Definition partJson (p : Part.t) : json :=
  JObj ((match Part.thought p with Some t => [("thought", JStr t)] | None => [] end)
        ++ (match Part.thinking p with Some t => [("thinking", JStr t)] | None => [] end))%list.

(** Parts as the service sends them for a thought: the flag
    [thought: true] beside the text. *)
Definition flaggedParts : json :=
  JArr [ JObj [("text", JStr "Let me think."); ("thought", JBool true)];
         JObj [("text", JStr "{}")];
         JObj [("thinking", JStr "second thoughts")] ].

(** The call of [reviewCode] that the command makes once the file has
    been read as [content]. *)
Definition runReview (env : Env.t) (content : string) : io ReviewResult.t :=
  reviewCode
    {| ReviewConfig.model := Env.modelOption env;
       ReviewConfig.enableDeepThinking := Env.thinkingOption env |}
    (Env.remote env)
    [ {| FileToReview.path := text_of (Env.fileArgument env);
         FileToReview.content := content;
         FileToReview.language :=
           languageOf (extnameOfPath (text_of (Env.fileArgument env))) |} ]
    (compileRulesForPrompt
       (snd (loadRules (join (Env.cwd env) "rules") (Env.rulesRoot env) []))
       (Some (parseTags (Env.tagsOption env)))).

(** The startup of the command succeeds: the API key is set, the rules
    directory exists, a file path is given, and the file exists and is
    read as [content]. *)
Definition started (env : Env.t) (content : string) : Prop :=
  truthy_text (Env.GOOGLE_API_KEY env) = true
  /\ Env.rulesDirExists env = true
  /\ truthy_text (Env.fileArgument env) = true
  /\ Env.fileExists env = true
  /\ Env.fileRead env = Return content.

(** A run in which every step before the exit-code block succeeds. *)
Definition sampleEnv (payload : string) : Env.t :=
  {| Env.GOOGLE_API_KEY := Some "key";
     Env.cwd := "/repo";
     Env.rulesDirExists := true;
     Env.rulesRoot := Return sampleTree;
     Env.tagsOption := "";
     Env.modelOption := "gemini-2.0-flash-lite";
     Env.thinkingOption := true;
     Env.fileArgument := Some "src/App.tsx";
     Env.fileExists := true;
     Env.fileRead := Return "const a = 1;";
     Env.remote := answering payload |}.

Definition mixedIssues : list json :=
  [ JObj [("severity", JStr "low"); ("title", JStr "a"); ("ruleId", JStr "r1")];
    JObj [("severity", JStr "critical"); ("title", JStr "b")];
    JObj [("severity", JStr "info"); ("title", JStr "c"); ("ruleId", JNull)];
    JObj [("severity", JStr "critical"); ("title", JStr "d"); ("ruleId", JStr "r2")];
    JStr "e" ].

(* ================================================================== *)
(** * General facts on strings and lists *)
(* ================================================================== *)

Lemma append_empty_r (s : string) : s ++ "" = s.
Proof. induction s as [|c s IH]; simpl; [reflexivity | now rewrite IH]. Qed.

Lemma append_assoc (a b c : string) : (a ++ b) ++ c = a ++ (b ++ c).
Proof. induction a as [|x a IH]; simpl; [reflexivity | now rewrite IH]. Qed.

Lemma concat_empty_cons (s : string) (l : list string) :
  String.concat "" (s :: l) = s ++ String.concat "" l.
Proof.
  destruct l as [|t l]; simpl.
  - now rewrite append_empty_r.
  - reflexivity.
Qed.

Lemma concat_empty_app (l1 l2 : list string) :
  String.concat "" (l1 ++ l2) = String.concat "" l1 ++ String.concat "" l2.
Proof.
  induction l1 as [|s l1 IH].
  - reflexivity.
  - cbn [app]. rewrite !concat_empty_cons, IH. symmetry. apply append_assoc.
Qed.

Lemma split_lf_from_length (s : string) :
  forall acc, List.length (split_lf_from acc s) = S (count_lf s).
Proof.
  induction s as [|c s IH]; intros acc; simpl.
  - reflexivity.
  - destruct (Ascii.eqb c LF); simpl; now rewrite IH.
Qed.

Lemma split_lf_length (s : string) : List.length (split_lf s) = lineCount s.
Proof. apply split_lf_from_length. Qed.

Lemma fold_left_sum {A : Type} (g : A -> nat) (l : list A) :
  forall start, fold_left (fun sum x => sum + g x) l start = start + list_sum (map g l).
Proof.
  induction l as [|x l IH]; intros start; simpl.
  - lia.
  - rewrite IH. lia.
Qed.

Lemma filter_Subseq {A : Type} (p : A -> bool) (l : list A) : Subseq (filter p l) l.
Proof.
  induction l as [|x l IH]; simpl.
  - constructor.
  - destruct (p x); now constructor.
Qed.

Lemma existsb_eqb_In (tag : string) (l : list string) :
  existsb (String.eqb tag) l = true <-> In tag l.
Proof.
  rewrite existsb_exists. split.
  - intros [x [Hx Heq]]. apply String.eqb_eq in Heq. now subst.
  - intros H. exists tag. split; [assumption | apply String.eqb_refl].
Qed.

(* ================================================================== *)
(** * Facts on the functions of the platform *)
(* ================================================================== *)

(** ** [trim] removes white space, and only white space, at both ends *)

Lemma Blank_app (l1 l2 : list ascii) : Blank l1 -> Blank l2 -> Blank (l1 ++ l2).
Proof.
  induction 1 as [|a l Ha _ IH|a b l Hab _ IH|a b c l Habc _ IH]; intros H2; cbn [app].
  - exact H2.
  - apply Blank_1; auto.
  - apply Blank_2; auto.
  - apply Blank_3; auto.
Qed.

Lemma strip_left_bounded (n : nat) :
  forall l, List.length l <= n ->
    exists pre, l = (pre ++ strip_left l)%list /\ Blank pre
                /\ starts_blank (strip_left l) = false.
Proof.
  induction n as [|n IH]; intros l Hlen.
  - destruct l; [|cbn in Hlen; lia]. exists []. repeat split; constructor.
  - destruct l as [|a r1]; [exists []; repeat split; constructor|].
    cbn [strip_left]. destruct (ws1 a) eqn:E1.
    { destruct (IH r1) as [pre [E [B S]]]; [cbn in Hlen; lia|].
      exists (a :: pre). cbn [app]. rewrite <- E.
      repeat split; [now apply Blank_1 | exact S]. }
    destruct r1 as [|b r2].
    { exists []. cbn. rewrite E1. repeat split; constructor. }
    destruct (ws2 a b) eqn:E2.
    { destruct (IH r2) as [pre [E [B S]]]; [cbn in Hlen; lia|].
      exists (a :: b :: pre). cbn [app]. rewrite <- E.
      repeat split; [now apply Blank_2 | exact S]. }
    destruct r2 as [|c r3].
    { exists []. cbn. rewrite E1, E2. repeat split; constructor. }
    destruct (ws3 a b c) eqn:E3.
    { destruct (IH r3) as [pre [E [B S]]]; [cbn in Hlen; lia|].
      exists (a :: b :: c :: pre). cbn [app]. rewrite <- E.
      repeat split; [now apply Blank_3 | exact S]. }
    exists []. cbn. rewrite E1, E2, E3. repeat split; constructor.
Qed.

Lemma strip_left_rev_bounded (n : nat) :
  forall l, List.length l <= n ->
    exists pre, l = (pre ++ strip_left_rev l)%list /\ Blank (rev pre)
                /\ starts_blank_rev (strip_left_rev l) = false.
Proof.
  induction n as [|n IH]; intros l Hlen.
  - destruct l; [|cbn in Hlen; lia]. exists []. repeat split; constructor.
  - destruct l as [|a r1]; [exists []; repeat split; constructor|].
    cbn [strip_left_rev]. destruct (ws1 a) eqn:E1.
    { destruct (IH r1) as [pre [E [B S]]]; [cbn in Hlen; lia|].
      exists (a :: pre). cbn [app rev]. rewrite <- E.
      repeat split; [|exact S].
      apply Blank_app; [exact B | apply Blank_1; [exact E1 | constructor]]. }
    destruct r1 as [|b r2].
    { exists []. cbn. rewrite E1. repeat split; constructor. }
    destruct (ws2 b a) eqn:E2.
    { destruct (IH r2) as [pre [E [B S]]]; [cbn in Hlen; lia|].
      exists (a :: b :: pre). cbn [app rev]. rewrite <- E.
      repeat split; [|exact S].
      rewrite <- app_assoc. cbn [app].
      apply Blank_app; [exact B | apply Blank_2; [exact E2 | constructor]]. }
    destruct r2 as [|c r3].
    { exists []. cbn. rewrite E1, E2. repeat split; constructor. }
    destruct (ws3 c b a) eqn:E3.
    { destruct (IH r3) as [pre [E [B S]]]; [cbn in Hlen; lia|].
      exists (a :: b :: c :: pre). cbn [app rev]. rewrite <- E.
      repeat split; [|exact S].
      rewrite <- !app_assoc. cbn [app].
      apply Blank_app; [exact B | apply Blank_3; [exact E3 | constructor]]. }
    exists []. cbn. rewrite E1, E2, E3. repeat split; constructor.
Qed.

Lemma starts_blank_prefix (p q : list ascii) :
  starts_blank (p ++ q) = false -> starts_blank p = false.
Proof.
  destruct p as [|a [|b [|c p]]]; cbn; try reflexivity.
  - intros H. apply orb_false_iff in H. destruct H as [-> _]. reflexivity.
  - intros H. apply orb_false_iff in H. destruct H as [-> H].
    apply orb_false_iff in H. destruct H as [-> _]. reflexivity.
  - tauto.
Qed.

(** The text is white space, then the trimmed text, then white space;
    the trimmed text neither starts nor ends with white space. *)
Lemma trim_spec (s : string) :
  exists pre post,
    list_ascii_of_string s = (pre ++ list_ascii_of_string (trim s) ++ post)%list
    /\ Blank pre /\ Blank post
    /\ starts_blank (list_ascii_of_string (trim s)) = false
    /\ starts_blank_rev (rev (list_ascii_of_string (trim s))) = false.
Proof.
  unfold trim. rewrite list_ascii_of_string_of_list_ascii.
  set (l := list_ascii_of_string s).
  destruct (@strip_left_bounded (List.length l) l (le_n _)) as [pre [E1 [B1 S1]]].
  set (m := strip_left l) in *.
  destruct (@strip_left_rev_bounded (List.length (rev m)) (rev m) (le_n _))
    as [q [E2 [B2 S2]]].
  set (k := strip_left_rev (rev m)) in *.
  assert (Em : m = (rev k ++ rev q)%list).
  { rewrite <- rev_app_distr, <- E2. symmetry. apply rev_involutive. }
  exists pre, (rev q). repeat split.
  - rewrite <- Em. exact E1.
  - exact B1.
  - exact B2.
  - apply starts_blank_prefix with (q := rev q). rewrite <- Em. exact S1.
  - rewrite rev_involutive. exact S2.
Qed.

(** ** The entries that [extname] takes for markdown files *)

Lemma from_last_dot_suffix (s e : string) :
  from_last_dot s = Some e -> exists pre, s = pre ++ e.
Proof.
  revert e. induction s as [|c s IH]; intros e; cbn [from_last_dot].
  - discriminate.
  - destruct (from_last_dot s) as [e'|].
    + intros H. injection H as <-. destruct (IH e' eq_refl) as [pre ->].
      now exists (String c pre).
    + destruct (is_char c "."); [|discriminate].
      intros H. injection H as <-. now exists "".
Qed.

Lemma from_last_dot_append (pre s e : string) :
  from_last_dot s = Some e -> from_last_dot (pre ++ s) = Some e.
Proof.
  intros H. induction pre as [|c pre IH]; cbn [append from_last_dot].
  - exact H.
  - now rewrite IH.
Qed.

Lemma append_length (a b : string) :
  String.length (a ++ b) = String.length a + String.length b.
Proof. induction a as [|c a IH]; cbn; [reflexivity | now rewrite IH]. Qed.

(** An entry has the extension [.md] exactly when it is a non-empty
    stem followed by [.md]. *)
Lemma extname_md (name : string) :
  extname name = ".md" <-> exists stem, stem <> "" /\ name = stem ++ ".md".
Proof.
  unfold extname. split.
  - destruct (from_last_dot name) as [e|] eqn:E; [|discriminate].
    destruct (String.eqb e name) eqn:En; [discriminate|].
    destruct (String.eqb name ".."); [discriminate|].
    intros He. subst e. destruct (@from_last_dot_suffix name ".md" E) as [stem Hs].
    exists stem. split; [|exact Hs].
    intros ->. apply String.eqb_neq in En. apply En. now rewrite Hs.
  - intros [stem [Hne ->]].
    rewrite (@from_last_dot_append stem ".md" ".md" eq_refl).
    destruct (String.eqb ".md" (stem ++ ".md")) eqn:E1.
    + apply String.eqb_eq in E1. apply (f_equal String.length) in E1.
      rewrite append_length in E1. destruct stem; [now elim Hne | cbn in E1; lia].
    + destruct (String.eqb (stem ++ ".md") "..") eqn:E2; [|reflexivity].
      apply String.eqb_eq in E2. apply (f_equal String.length) in E2.
      rewrite append_length in E2. cbn in E2. lia.
Qed.

(** ** [JSON.parse] on some texts *)

Example JSON_parse_object :
  JSON_parse (dq "{ 'issues' : [ ], 'overallScore' : 87.5, 'summary' : 'fine' }")
  = Some (JObj [("issues", JArr []); ("overallScore", JNum 875 (-1));
                ("summary", JStr "fine")]).
Proof. reflexivity. Qed.

Example JSON_parse_repeated_key :
  JSON_parse (dq "{'a':1,'b':[true,null],'a':'x'}")
  = Some (JObj [("a", JStr "x"); ("b", JArr [JBool true; JNull])]).
Proof. reflexivity. Qed.

Example JSON_parse_rejects :
  map JSON_parse
    [""; "{"; "[1,]"; "[1 2]"; "01"; "1."; "-"; "tru"; "nul l"; "[]]";
     dq "{'a':}"; dq "{'a':1,}"; dq "'open"; dq "{a:1}"; "undefined"; "NaN"]
  = repeat None 16.
Proof. reflexivity. Qed.

(* ================================================================== *)
(** * Facts on the rule loader *)
(* ================================================================== *)

Lemma appendEach_concat (block : Rule.t -> string) (rules : list Rule.t) :
  forall output,
    appendEach block rules output = output ++ String.concat "" (map block rules).
Proof.
  unfold appendEach.
  induction rules as [|r rules IH]; intros output.
  - simpl. now rewrite append_empty_r.
  - cbn [fold_left map]. rewrite IH, concat_empty_cons. apply append_assoc.
Qed.

(** The test of [getRulesByTags] decides the intersection of the tag
    sets. *)
Lemma tag_test_intersect (r : Rule.t) (tags : list string) :
  existsb (fun tag => existsb (String.eqb tag) (Rule.tags r)) tags = true
  <-> tagsIntersect r tags.
Proof.
  unfold tagsIntersect. rewrite existsb_exists. split.
  - intros [tag [Hin Hex]]. apply existsb_eqb_In in Hex. now exists tag.
  - intros [tag [Hr Ht]]. exists tag. split; [assumption|].
    now apply existsb_eqb_In.
Qed.

Lemma compileSections_sections (rulesToUse : list Rule.t) :
  compileSections rulesToUse =
    sectionText principlesHeader principleBlock (filter isPrinciple rulesToUse)
    ++ sectionText requirementsHeader requirementBlock (filter isRequirement rulesToUse).
Proof.
  unfold compileSections.
  destruct (filter isPrinciple rulesToUse) as [|p ps];
    destruct (filter isRequirement rulesToUse) as [|q qs]; cbn [List.length Nat.ltb Nat.leb sectionText].
  - reflexivity.
  - rewrite appendEach_concat. reflexivity.
  - rewrite appendEach_concat. cbn [append]. now rewrite append_empty_r.
  - rewrite !appendEach_concat. cbn [append]. apply append_assoc.
Qed.

(** The section of a bucket holds the block of each of its rules. *)
Lemma sectionText_block (header : string) (block : Rule.t -> string)
    (bucket : list Rule.t) (r : Rule.t) :
  In r bucket ->
  exists a c, sectionText header block bucket = a ++ block r ++ c.
Proof.
  intros Hin. destruct (in_split _ _ Hin) as [l1 [l2 ->]].
  exists (header ++ String.concat "" (map block l1)), (String.concat "" (map block l2)).
  assert (E : sectionText header block (l1 ++ r :: l2)
              = header ++ String.concat "" (map block (l1 ++ r :: l2))).
  { now destruct l1. }
  rewrite E, map_app, concat_empty_app. cbn [map].
  rewrite concat_empty_cons. symmetry. apply append_assoc.
Qed.

Lemma compile_nonempty (rules : list Rule.t) (tags : option (list string)) :
  filteredRules rules tags <> [] ->
  compileRulesForPrompt rules tags = compileSections (filteredRules rules tags).
Proof.
  unfold compileRulesForPrompt, filteredRules.
  destruct tags as [tags|]; intros Hne.
  - destruct (getRulesByTags rules tags); [now elim Hne | reflexivity].
  - destruct rules; [now elim Hne | reflexivity].
Qed.

(** With the tags of every rule read at their declared type, a list of
    strings, [getRulesByTags] returns exactly the rules whose tag set
    intersects the list: a rule is kept if and only if at least one of
    its tags occurs in the list (any tag, not all), each rule as often
    and in the order in which it was loaded. *)
Theorem getRulesByTags_any_match (rules : list Rule.t) (tags : list string) :
  (forall r, In r (getRulesByTags rules tags) <-> In r rules /\ tagsIntersect r tags)
  /\ Subseq (getRulesByTags rules tags) rules
  /\ (forall r before,
        rules = (before ++ [r])%list ->
        (tagsIntersect r tags ->
           getRulesByTags rules tags = (getRulesByTags before tags ++ [r])%list)
        /\ (~ tagsIntersect r tags ->
           getRulesByTags rules tags = getRulesByTags before tags)).
Proof.
  unfold getRulesByTags. split; [|split].
  - intros r. rewrite filter_In, tag_test_intersect. reflexivity.
  - apply filter_Subseq.
  - intros r before ->. rewrite filter_app. cbn [filter]. split.
    + intros Hint. apply tag_test_intersect in Hint. now rewrite Hint.
    + intros Hnot. destruct (existsb _ tags) eqn:E.
      * apply tag_test_intersect in E. contradiction.
      * now rewrite app_nil_r.
Qed.

(** A rule that has only the tag [b] is returned for the tags [a], [b],
    and a rule with neither tag is not. *)
Lemma getRulesByTags_any_match_witness :
  In (ruleOf "p1" "principle" ["b"]) (getRulesByTags sampleRules ["a"; "b"])
  /\ ~ In (ruleOf "p2" "principle" ["c"]) (getRulesByTags sampleRules ["a"; "b"]).
Proof.
  split.
  - apply (proj1 (getRulesByTags_any_match sampleRules ["a"; "b"])). split.
    + simpl. tauto.
    + exists "b". simpl. tauto.
  - intros H.
    apply (proj1 (getRulesByTags_any_match sampleRules ["a"; "b"])) in H.
    destruct H as [_ [tag [Hr Ht]]]. simpl in Hr, Ht.
    destruct Hr as [<-|[]]. destruct Ht as [H|[H|[]]]; discriminate H.
Defined.

(** ** The selection with the tags as they come *)

Lemma is_text_iff (item : json) (tag : string) :
  is_text (Some item) tag = true <-> item = JStr tag.
Proof.
  destruct item; cbn [is_text]; try (split; [discriminate | intros H; discriminate H]).
  rewrite String.eqb_eq. split; [now intros -> | now intros [= ->]].
Qed.

Lemma tagTest_intersect (r : RawRule.t) (tags : list string) :
  tagTest tags r = true <-> rawIntersect r tags.
Proof.
  unfold tagTest, rawIntersect. rewrite existsb_exists. split.
  - intros [tag [Hin Hex]]. apply existsb_exists in Hex.
    destruct Hex as [item [Hitem Htext]]. apply is_text_iff in Htext. subst item.
    now exists tag.
  - intros [tag [Hr Ht]]. exists tag. split; [assumption|].
    apply existsb_exists. exists (JStr tag). split; [assumption|].
    now apply is_text_iff.
Qed.

Lemma someTag_array (items : list json) (tags : list string) :
  someTag (JArr items) tags
  = Return (existsb (fun tag => existsb (fun item => is_text (Some item) tag) items) tags).
Proof.
  induction tags as [|tag rest IH]; cbn [someTag tagsInclude existsb]; [reflexivity|].
  destruct (existsb _ items); [reflexivity | exact IH].
Qed.

(** On rules whose tags are arrays the selection is a filter. *)
Lemma getRulesByTagsRaw_arrays (rules : list RawRule.t) (tags : list string) :
  Forall tagsAreArray rules ->
  getRulesByTagsRaw rules tags = Return (filter (tagTest tags) rules).
Proof.
  induction 1 as [|r rest [items Hr] _ IH]; cbn [getRulesByTagsRaw filter]; [reflexivity|].
  unfold tagTest at 1. rewrite Hr, someTag_array, IH. reflexivity.
Qed.

Lemma existsb_text_tags (xs : list string) (tag : string) :
  existsb (fun item => is_text (Some item) tag) (map JStr xs)
  = existsb (String.eqb tag) xs.
Proof.
  induction xs as [|x xs IH]; cbn [map existsb]; [reflexivity|].
  rewrite IH. cbn [is_text]. now rewrite String.eqb_sym.
Qed.

(** The typed reading is the untyped one on arrays of strings: loading
    and selecting commute with [rawRule]. *)
Lemma getRulesByTagsRaw_typed (rules : list Rule.t) (tags : list string) :
  getRulesByTagsRaw (map rawRule rules) tags
  = Return (map rawRule (getRulesByTags rules tags)).
Proof.
  unfold getRulesByTags.
  induction rules as [|r rest IH]; cbn [map getRulesByTagsRaw filter]; [reflexivity|].
  cbn [rawRule RawRule.tags]. rewrite someTag_array, IH.
  assert (E : forall tags,
             existsb (fun tag =>
                existsb (fun item => is_text (Some item) tag) (map JStr (Rule.tags r))) tags
             = existsb (fun tag => existsb (String.eqb tag) (Rule.tags r)) tags).
  { clear. intros tags. induction tags as [|tag more IHt]; cbn [existsb]; [reflexivity|].
    now rewrite IHt, existsb_text_tags. }
  rewrite E. now destruct (existsb _ tags).
Qed.

Lemma loadRuleFileRaw_typed (filePath : string) (data : Data.t) (content : string)
    (rules : list Rule.t) :
  loadRuleFileRaw filePath (Return (rawData data, content)) (map rawRule rules)
  = (fst (loadRuleFile filePath (Return (data, content)) rules),
     map rawRule (snd (loadRuleFile filePath (Return (data, content)) rules))).
Proof.
  unfold loadRuleFileRaw, loadRuleFile. cbn [rawData RawData.id RawData.title].
  destruct (negb (truthy_text (Data.id data)) || negb (truthy_text (Data.title data)));
    [reflexivity|].
  cbn [fst snd]. rewrite map_app. cbn [map]. do 3 f_equal.
  unfold rawRule. cbn. f_equal. now destruct (Data.tags data).
Qed.

(** C3. For every loaded rule set in which the tags of each rule are an
    array (a YAML sequence in the frontmatter, or no tags at all) and
    every tag list, [getRulesByTags] returns, and returns exactly the
    rules whose tag set intersects the list: a rule is kept if and only
    if at least one of its tags occurs in the list (any tag, not all),
    each rule as often and in the order in which it was loaded. *)
Theorem getRulesByTags_on_tag_arrays (rules : list RawRule.t) (tags : list string) :
  Forall tagsAreArray rules ->
  exists selected,
    getRulesByTagsRaw rules tags = Return selected
    /\ (forall r, In r selected <-> In r rules /\ rawIntersect r tags)
    /\ Subseq selected rules
    /\ (forall r before,
          rules = (before ++ [r])%list ->
          exists kept,
            getRulesByTagsRaw before tags = Return kept
            /\ (rawIntersect r tags -> selected = (kept ++ [r])%list)
            /\ (~ rawIntersect r tags -> selected = kept)).
Proof.
  intros Harr. exists (filter (tagTest tags) rules).
  split; [now apply getRulesByTagsRaw_arrays|]. split; [|split].
  - intros r. rewrite filter_In, tagTest_intersect. reflexivity.
  - apply filter_Subseq.
  - intros r before ->. exists (filter (tagTest tags) before).
    apply Forall_app in Harr. destruct Harr as [Hbefore _].
    split; [now apply getRulesByTagsRaw_arrays|].
    rewrite filter_app. cbn [filter]. split.
    + intros Hint. apply tagTest_intersect in Hint. now rewrite Hint.
    + intros Hnot. destruct (tagTest tags r) eqn:E.
      * apply tagTest_intersect in E. contradiction.
      * now rewrite app_nil_r.
Qed.

(** A rule whose tags are the sequence [b, 1] is returned for the tags
    [a], [b]; a rule tagged [c] before it is not. *)
Lemma getRulesByTags_on_tag_arrays_witness :
  exists selected,
    getRulesByTagsRaw arrayTagsRules ["a"; "b"] = Return selected
    /\ map RawRule.id selected = ["p1"].
Proof.
  assert (Harr : Forall tagsAreArray arrayTagsRules).
  { constructor; [eexists; reflexivity|].
    constructor; [eexists; reflexivity|]. constructor. }
  destruct (@getRulesByTags_on_tag_arrays arrayTagsRules ["a"; "b"] Harr)
    as [selected [Hsel _]].
  exists selected. split; [exact Hsel|].
  cbn in Hsel. injection Hsel as <-. reflexivity.
Defined.

(** C3 fails as stated: a rule file that gives [tags: react, typescript]
    on one line is loaded with that text as its tags, and is then
    selected for the tag [type], a substring of the text, which is
    neither the text nor one of the tags it lists. *)
Lemma getRulesByTags_scalar_tags_substring :
  snd (loadRuleFileRaw "rules/style.md" (Return (scalarTagsData, "Body")) [])
  = [scalarTagsRule]
  /\ getRulesByTagsRaw [scalarTagsRule] ["type"] = Return [scalarTagsRule]
  /\ RawRule.tags scalarTagsRule = JStr "react, typescript"
  /\ ~ In "type" (parseTags "react, typescript")
  /\ ~ rawIntersect scalarTagsRule ["type"].
Proof.
  split; [reflexivity|]. split; [reflexivity|]. split; [reflexivity|]. split.
  - cbn. intros [H|[H|[]]]; discriminate H.
  - intros [tag [[] _]].
Qed.

(** Tags that are neither an array nor a string make the selection
    throw, unless the tag list is empty. *)
Lemma getRulesByTagsRaw_no_includes (r : RawRule.t) (m e : Z) (tag : string)
    (tags : list string) :
  RawRule.tags r = JNum m e ->
  getRulesByTagsRaw [r] (tag :: tags)
  = Throw (EngineError "rule.tags.includes is not a function")
  /\ getRulesByTagsRaw [r] [] = Return [].
Proof. intros H. cbn. rewrite H. split; reflexivity. Qed.

(** C4. For a non-empty filtered rule set the compiled text is the
    principles section followed by the requirements section: the block
    of every principle stands before the block of every requirement,
    each section lists its rules in the order of the rule set, and a
    section whose bucket is empty contributes nothing, header
    included. *)
Theorem compileRulesForPrompt_sections (rules : list Rule.t) (tags : option (list string)) :
  filteredRules rules tags <> [] ->
  let principles := filter isPrinciple (filteredRules rules tags) in
  let requirements := filter isRequirement (filteredRules rules tags) in
  compileRulesForPrompt rules tags =
    sectionText principlesHeader principleBlock principles
    ++ sectionText requirementsHeader requirementBlock requirements
  /\ (forall p q,
        In p principles -> In q requirements ->
        exists a b c,
          compileRulesForPrompt rules tags
          = a ++ principleBlock p ++ b ++ requirementBlock q ++ c)
  /\ Subseq principles (filteredRules rules tags)
  /\ Subseq requirements (filteredRules rules tags)
  /\ (principles = [] ->
      compileRulesForPrompt rules tags =
        sectionText requirementsHeader requirementBlock requirements)
  /\ (requirements = [] ->
      compileRulesForPrompt rules tags =
        sectionText principlesHeader principleBlock principles).
Proof.
  intros Hne principles requirements.
  assert (E : compileRulesForPrompt rules tags =
              sectionText principlesHeader principleBlock principles
              ++ sectionText requirementsHeader requirementBlock requirements).
  { rewrite compile_nonempty by assumption. apply compileSections_sections. }
  split; [exact E|].
  split.
  { intros p q Hp Hq.
    destruct (sectionText_block principlesHeader principleBlock _ _ Hp) as [a [c Ep]].
    destruct (sectionText_block requirementsHeader requirementBlock _ _ Hq) as [a' [c' Eq]].
    exists a, (c ++ a'), c'. rewrite E, Ep, Eq.
    now rewrite !append_assoc. }
  split; [apply filter_Subseq|].
  split; [apply filter_Subseq|].
  split.
  - intros Hp. rewrite E, Hp. reflexivity.
  - intros Hr. rewrite E, Hr. cbn [sectionText]. apply append_empty_r.
Qed.

(** On the sample rules: both principles, in their order, then the one
    requirement; the rule of type [guideline] has no block. *)
Lemma compileRulesForPrompt_sections_witness :
  compileRulesForPrompt sampleRules None =
    (principlesHeader
       ++ principleBlock (ruleOf "p1" "principle" ["b"])
       ++ principleBlock (ruleOf "p2" "principle" ["c"]))
    ++ (requirementsHeader ++ requirementBlock (ruleOf "r1" "requirement" ["a"])).
Proof.
  assert (Hne : filteredRules sampleRules None <> []) by discriminate.
  rewrite (proj1 (compileRulesForPrompt_sections sampleRules None Hne)).
  reflexivity.
Defined.

(** C5. Whenever the filtered rule set is empty, because no rule is
    loaded or because no rule matches the tags, [compileRulesForPrompt]
    returns the fixed text that sends the consumer to general best
    practices; that text is not empty. *)
Theorem compileRulesForPrompt_fallback (rules : list Rule.t) (tags : option (list string)) :
  filteredRules rules tags = [] ->
  compileRulesForPrompt rules tags = noRulesText
  /\ noRulesText <> ""
  /\ includes "Use general React and TypeScript best practices" noRulesText = true.
Proof.
  intros Hempty. split; [|split].
  - unfold compileRulesForPrompt. fold (filteredRules rules tags).
    now rewrite Hempty.
  - discriminate.
  - reflexivity.
Qed.

Lemma compileRulesForPrompt_fallback_witness :
  compileRulesForPrompt [] None = noRulesText
  /\ compileRulesForPrompt sampleRules (Some ["z"]) = noRulesText.
Proof.
  split.
  - apply (compileRulesForPrompt_fallback [] None). reflexivity.
  - apply (compileRulesForPrompt_fallback sampleRules (Some ["z"])). reflexivity.
Defined.

(** ** Loading *)

Lemma seq_rules (a b : step) (rules : list Rule.t) :
  snd (seq a b rules) = snd (b (snd (a rules))).
Proof.
  unfold seq. destruct (a rules) as [out1 rules1]. cbn [snd].
  now destruct (b rules1).
Qed.

Lemma truthy_text_None_false (s : option string) :
  s = None -> truthy_text s = false.
Proof. now intros ->. Qed.

Lemma loadRuleFile_incomplete (filePath : string) (data : Data.t) (body : string) :
  lacksRequired data ->
  loadRuleFile filePath (Return (data, body)) =
    say (Warn ("Skipping " ++ filePath ++ ": missing required frontmatter (id, title)")).
Proof.
  intros [H|H]; unfold loadRuleFile; rewrite (truthy_text_None_false H); cbn [negb orb].
  - reflexivity.
  - now rewrite orb_true_r.
Qed.

Lemma loadRuleFile_complete (filePath : string) (data : Data.t) (body : string)
    (rules : list Rule.t) :
  truthy_text (Data.id data) = true ->
  truthy_text (Data.title data) = true ->
  loadRuleFile filePath (Return (data, body)) rules =
    ([], (rules ++ [ {| Rule.id := text_of (Data.id data);
                        Rule.title := text_of (Data.title data);
                        Rule.type := text_or (Data.type data) "principle";
                        Rule.impact := text_or (Data.impact data) "MEDIUM";
                        Rule.category := text_or (Data.category data) "general";
                        Rule.tags := match Data.tags data with Some l => l | None => [] end;
                        Rule.content := trim body |} ])%list).
Proof.
  intros Hid Htitle. unfold loadRuleFile. now rewrite Hid, Htitle.
Qed.

(** A scan of a directory content loads what the scan of the content
    without an incomplete rule file loads. *)
Lemma scanLoop_without (name : string) (data : Data.t) (body : string) :
  lacksRequired data ->
  forall tree tree',
    without (FsFile name (Return (data, body))) tree tree' ->
    forall dir rules,
      snd (scanLoop (visitEntry dir) (scanWarning dir) tree rules)
      = snd (scanLoop (visitEntry dir) (scanWarning dir) tree' rules).
Proof.
  intros Hlacks tree tree' Hw.
  induction Hw as [rest | n rest rest' _ IH | dname sub sub' rest _ IH];
    intros dir rules.
  - cbn [scanLoop visitEntry].
    destruct (String.eqb (extname name) ".md").
    + rewrite seq_rules, loadRuleFile_incomplete by assumption. reflexivity.
    + rewrite seq_rules. reflexivity.
  - cbn [scanLoop]. destruct (visitEntry dir n) as [s|e].
    + rewrite !seq_rules. apply IH.
    + reflexivity.
  - cbn [scanLoop visitEntry]. rewrite !seq_rules. now rewrite IH.
Qed.

(** C6. A rule file whose frontmatter lacks [id] or lacks [title] is
    skipped with a warning and leaves the collection as it was; a load
    of a directory tree that holds such a file yields the collection,
    and logs the count, of the tree without it: the files after it are
    loaded all the same. *)
Theorem loadRules_skips_incomplete (name : string) (data : Data.t) (body : string) :
  lacksRequired data ->
  (forall filePath rules,
      loadRuleFile filePath (Return (data, body)) rules =
        ([Warn ("Skipping " ++ filePath ++ ": missing required frontmatter (id, title)")],
         rules))
  /\ (forall rulesDir tree tree' this,
        without (FsFile name (Return (data, body))) tree tree' ->
        let loaded := snd (loadRules rulesDir (Return tree) this) in
        let others := snd (loadRules rulesDir (Return tree') this) in
        getRules loaded = getRules others
        /\ List.length (getRules loaded) = List.length (getRules others)
        /\ last (fst (loadRules rulesDir (Return tree) this)) (Log "")
           = Log ("✓ Loaded " ++ decimal (List.length others) ++ " rules")).
Proof.
  intros Hlacks. split.
  - intros filePath rules. now rewrite loadRuleFile_incomplete.
  - intros rulesDir tree tree' this Hw.
    assert (E : snd (loadRules rulesDir (Return tree) this)
                = snd (loadRules rulesDir (Return tree') this)).
    { unfold loadRules, scanDirectory.
      pose proof (scanLoop_without Hlacks Hw rulesDir []) as H.
      destruct (scanLoop _ _ tree []) as [o1 r1].
      destruct (scanLoop _ _ tree' []) as [o2 r2].
      exact H. }
    cbn zeta. unfold getRules. rewrite <- E. split; [reflexivity|].
    split; [reflexivity|].
    unfold loadRules.
    destruct (scanDirectory rulesDir (Return tree) []) as [o1 r1].
    cbn [fst snd]. apply last_last.
Qed.

(** The sample tree holds a file without title between two complete
    files: both are loaded, in order, and the count is 2. *)
Lemma loadRules_skips_incomplete_witness :
  map Rule.id (snd (loadRules "rules" (Return sampleTree) [])) = ["x"; "y"]
  /\ last (fst (loadRules "rules" (Return sampleTree) [])) (Log "")
     = Log "✓ Loaded 2 rules".
Proof.
  assert (Hl : lacksRequired (dataOf (Some "u") None None None)) by (right; reflexivity).
  assert (Hw : without untitledFile sampleTree sampleTreeWithout).
  { apply without_inside. apply without_later. apply without_here. }
  destruct (proj2 (loadRules_skips_incomplete "untitled.md" "text" Hl)
              "rules" sampleTree sampleTreeWithout [] Hw) as [E [_ L]].
  unfold getRules in E. rewrite E, L. split; reflexivity.
Defined.

(** C7. A rule file that loads (its [id] and [title] are there) becomes
    one rule at the end of the collection, with the given [id] and
    [title]; a field the frontmatter does not give takes its default,
    [principle] for [type], [MEDIUM] for [impact], [general] for
    [category], no tag for [tags]; [content] is the body trimmed. *)
Theorem loadRuleFile_defaults (filePath : string) (data : Data.t) (body : string)
    (rules : list Rule.t) :
  truthy_text (Data.id data) = true ->
  truthy_text (Data.title data) = true ->
  exists rule,
    loadRuleFile filePath (Return (data, body)) rules = ([], (rules ++ [rule])%list)
    /\ Some (Rule.id rule) = Data.id data
    /\ Some (Rule.title rule) = Data.title data
    /\ (Data.type data = None -> Rule.type rule = "principle")
    /\ (Data.impact data = None -> Rule.impact rule = "MEDIUM")
    /\ (Data.category data = None -> Rule.category rule = "general")
    /\ (Data.tags data = None -> Rule.tags rule = [])
    /\ Rule.content rule = trim body.
Proof.
  intros Hid Htitle. eexists. split.
  - now apply loadRuleFile_complete.
  - cbn [Rule.id Rule.title Rule.type Rule.impact Rule.category Rule.tags Rule.content].
    repeat split.
    + destruct (Data.id data); [reflexivity | discriminate Hid].
    + destruct (Data.title data); [reflexivity | discriminate Htitle].
    + now intros ->.
    + now intros ->.
    + now intros ->.
    + now intros ->.
Qed.

(** The example of the specification: frontmatter [id: x], [title: T],
    nothing else. *)
Lemma loadRuleFile_defaults_witness :
  exists rule,
    loadRuleFile "rules/x.md"
      (Return (dataOf (Some "x") (Some "T") None None, nl ++ "Body" ++ nl)) []
    = ([], [rule])
    /\ Rule.type rule = "principle" /\ Rule.impact rule = "MEDIUM"
    /\ Rule.category rule = "general" /\ Rule.tags rule = []
    /\ Rule.content rule = "Body".
Proof.
  destruct (@loadRuleFile_defaults "rules/x.md"
              (dataOf (Some "x") (Some "T") None None) (nl ++ "Body" ++ nl) []
              eq_refl eq_refl)
    as [rule [E [_ [_ [Ht [Hi [Hc [Hg Hb]]]]]]]].
  exists rule. split; [exact E|].
  split; [now apply Ht|]. split; [now apply Hi|]. split; [now apply Hc|].
  split; [now apply Hg|]. rewrite Hb. reflexivity.
Defined.

(** ** Rules of an unknown type *)

Lemma filter_without_middle {A : Type} (p : A -> bool) (before after : list A) (x : A) :
  p x = false -> filter p (before ++ x :: after) = filter p (before ++ after).
Proof.
  intros Hx. rewrite !filter_app. cbn [filter]. now rewrite Hx.
Qed.

Lemma compileSections_unknown_type (before after : list Rule.t) (r : Rule.t) :
  isPrinciple r = false -> isRequirement r = false ->
  compileSections (before ++ r :: after) = compileSections (before ++ after).
Proof.
  intros Hp Hr. rewrite !compileSections_sections.
  now rewrite !filter_without_middle by assumption.
Qed.

Lemma filteredRules_middle (before after : list Rule.t) (r : Rule.t)
    (tags : option (list string)) :
  filteredRules (before ++ r :: after) tags = filteredRules (before ++ after) tags
  \/ exists b a,
       filteredRules (before ++ r :: after) tags = (b ++ r :: a)%list
       /\ filteredRules (before ++ after) tags = (b ++ a)%list.
Proof.
  destruct tags as [tags|]; cbn [filteredRules].
  - unfold getRulesByTags. rewrite !filter_app. cbn [filter].
    destruct (existsb _ tags).
    + right. eexists. eexists. split; reflexivity.
    + now left.
  - right. exists before, after. split; reflexivity.
Qed.

(** C10. A rule file with [id], [title] and a [type] that is a
    non-empty string other than [principle] and [requirement] is loaded
    with that type, copied as it is: the rule is in [getRules()] and is
    counted, it is in neither bucket, and wherever it stands in a rule
    set the compiled sections are those of the set without it. *)
Theorem unknown_type_rule_omitted (filePath : string) (data : Data.t) (body t : string)
    (rules : list Rule.t) :
  truthy_text (Data.id data) = true ->
  truthy_text (Data.title data) = true ->
  Data.type data = Some t ->
  t <> "" -> t <> "principle" -> t <> "requirement" ->
  exists rule,
    snd (loadRuleFile filePath (Return (data, body)) rules) = (rules ++ [rule])%list
    /\ Rule.type rule = t
    /\ In rule (getRules (rules ++ [rule]))
    /\ List.length (getRules (rules ++ [rule])) = S (List.length rules)
    /\ (forall before after,
          ~ In rule (filter isPrinciple (before ++ rule :: after))
          /\ ~ In rule (filter isRequirement (before ++ rule :: after))
          /\ compileSections (before ++ rule :: after) = compileSections (before ++ after))
    /\ (forall before after tags,
          filteredRules (before ++ after) tags <> [] ->
          compileRulesForPrompt (before ++ rule :: after) tags
          = compileRulesForPrompt (before ++ after) tags).
Proof.
  intros Hid Htitle Htype Hne Hp Hr.
  eexists. split.
  { rewrite loadRuleFile_complete by assumption. reflexivity. }
  set (rule := {| Rule.id := text_of (Data.id data) |}).
  assert (Et : Rule.type rule = t).
  { cbn. rewrite Htype. cbn. apply String.eqb_neq in Hne. now rewrite Hne. }
  assert (Ep : isPrinciple rule = false).
  { unfold isPrinciple. rewrite Et. now apply String.eqb_neq. }
  assert (Er : isRequirement rule = false).
  { unfold isRequirement. rewrite Et. now apply String.eqb_neq. }
  split; [exact Et|].
  split; [unfold getRules; apply in_or_app; right; now left|].
  split; [unfold getRules; rewrite length_app; cbn; lia|].
  split.
  - intros before after. split; [|split].
    + intros H. apply filter_In in H. destruct H as [_ H]. congruence.
    + intros H. apply filter_In in H. destruct H as [_ H]. congruence.
    + now apply compileSections_unknown_type.
  - intros before after tags Hrest.
    rewrite (compile_nonempty (before ++ after) tags Hrest).
    destruct (filteredRules_middle before after rule tags) as [E|[b [a [E1 E2]]]].
    + rewrite compile_nonempty by (rewrite E; exact Hrest). now rewrite E.
    + rewrite compile_nonempty by (rewrite E1; now destruct b).
      rewrite E1, E2. now apply compileSections_unknown_type.
Qed.

(** The last file of the sample tree has type [guideline]: it is loaded
    and the prompt compiled from the sample rules is the one compiled
    without the rule of that type. *)
Lemma unknown_type_rule_omitted_witness :
  exists rule,
    snd (loadRuleFile "rules/last.md"
           (Return (dataOf (Some "y") (Some "Y") (Some "guideline") (Some ["a"]), "Last"))
           [])
    = [rule]
    /\ Rule.type rule = "guideline"
    /\ compileRulesForPrompt [ruleOf "p1" "principle" ["b"]; rule] None
       = compileRulesForPrompt [ruleOf "p1" "principle" ["b"]] None.
Proof.
  destruct (@unknown_type_rule_omitted "rules/last.md"
              (dataOf (Some "y") (Some "Y") (Some "guideline") (Some ["a"]))
              "Last" "guideline" [] eq_refl eq_refl eq_refl)
    as [rule [E [Ht [_ [_ [_ Hc]]]]]]; try discriminate.
  exists rule. split; [exact E|]. split; [exact Ht|].
  apply (Hc [ruleOf "p1" "principle" ["b"]] [] None). discriminate.
Defined.

(** When such a rule is the only one of the filtered set, the compiled
    text is empty: the set is not empty, so the fixed text is not used,
    and no section is written. *)
Lemma compileRulesForPrompt_only_unknown_type (r : Rule.t) :
  isPrinciple r = false -> isRequirement r = false ->
  compileRulesForPrompt [r] None = "".
Proof.
  intros Hp Hr. unfold compileRulesForPrompt, compileSections.
  cbn [List.length Nat.eqb filter]. now rewrite Hp, Hr.
Qed.

(* ================================================================== *)
(** * Facts on the gateway *)
(* ================================================================== *)

Section Answered.

Variables (config : ReviewConfig.t) (remote : Remote.t) (response : Response.t).
Variables (files : list FileToReview.t) (rulesPrompt text : string).
Hypothesis answered : Remote.generateContent remote = Return response.
Hypothesis readable : Response.text response = Return text.

Lemma reviewCode_invalid :
  JSON_parse text = None ->
  reviewCode config remote files rulesPrompt =
    ((preamble config remote
        ++ [ ErrorText "Failed to parse JSON response:" text;
             ErrorThrown "Gemini API error:"
               (UserError "Invalid JSON response from Gemini") ])%list,
     Throw (UserError "Failed to review code: Invalid JSON response from Gemini")).
Proof.
  intros Hparse. unfold reviewCode. rewrite answered.
  cbn. rewrite readable. cbn. rewrite Hparse. reflexivity.
Qed.

Lemma reviewCode_object (fields : list (string * json)) :
  JSON_parse text = Some (JObj fields) ->
  reviewCode config remote files rulesPrompt =
    (preamble config remote,
     Return {|
       ReviewResult.issues := or_else (lookup "issues" fields) (JArr []);
       ReviewResult.summary :=
         or_else (lookup "summary" fields) (JStr "No summary provided");
       ReviewResult.overallScore := or_else (lookup "overallScore" fields) (JNum 0 0);
       ReviewResult.thinkingTrace := extractThinkingTrace response;
       ReviewResult.filesReviewed := map FileToReview.path files;
       ReviewResult.totalLines := countLines files
     |}).
Proof.
  intros Hparse. unfold reviewCode. rewrite answered.
  cbn. rewrite readable. cbn. rewrite Hparse. reflexivity.
Qed.

End Answered.

Lemma countLines_sum (files : list FileToReview.t) :
  countLines files = list_sum (map (fun f => lineCount (FileToReview.content f)) files).
Proof.
  unfold countLines. rewrite fold_left_sum. cbn [Nat.add].
  f_equal. apply map_ext. intros f. apply split_lf_length.
Qed.

Lemma includes_first_char (c : ascii) (p s : string) :
  includes (String c p) s = true ->
  existsb (Ascii.eqb c) (list_ascii_of_string s) = true.
Proof.
  induction s as [|a s IH]; cbn [includes String.prefix list_ascii_of_string existsb].
  - discriminate.
  - intros H. apply orb_true_iff in H. destruct H as [H|H].
    + destruct (ascii_dec c a) as [->|]; [|discriminate H].
      now rewrite Ascii.eqb_refl.
    + rewrite (IH H). apply orb_true_r.
Qed.

(** C1, as amended. When the response text is not valid JSON,
    [reviewCode] throws, and returns no review result: the error has the
    fixed message [Failed to review code: Invalid JSON response from
    Gemini], and the whole response text goes to the error console,
    after the label [Failed to parse JSON response:]. *)
Theorem reviewCode_invalid_json (config : ReviewConfig.t) (remote : Remote.t)
    (response : Response.t) (files : list FileToReview.t) (rulesPrompt text : string) :
  Remote.generateContent remote = Return response ->
  Response.text response = Return text ->
  JSON_parse text = None ->
  snd (reviewCode config remote files rulesPrompt)
    = Throw (UserError "Failed to review code: Invalid JSON response from Gemini")
  /\ In (ErrorText "Failed to parse JSON response:" text)
        (fst (reviewCode config remote files rulesPrompt))
  /\ forall result, snd (reviewCode config remote files rulesPrompt) <> Return result.
Proof.
  intros Hgen Htext Hparse.
  rewrite (@reviewCode_invalid config remote response files rulesPrompt text Hgen Htext Hparse).
  cbn [fst snd]. split; [reflexivity|]. split.
  - apply in_or_app. right. now left.
  - discriminate.
Qed.

Lemma reviewCode_invalid_json_witness :
  snd (reviewCode sampleConfig (answering truncatedPayload) sampleFiles "")
    = Throw (UserError "Failed to review code: Invalid JSON response from Gemini")
  /\ In (ErrorText "Failed to parse JSON response:" truncatedPayload)
        (fst (reviewCode sampleConfig (answering truncatedPayload) sampleFiles "")).
Proof.
  destruct (@reviewCode_invalid_json sampleConfig (answering truncatedPayload)
              {| Response.text := Return truncatedPayload; Response.parts := None |}
              sampleFiles "" truncatedPayload eq_refl eq_refl eq_refl)
    as [Hthrow [Hlog _]].
  split; assumption.
Defined.

(** C1 fails as stated: for the truncated response of the
    troubleshooting guide, which is not valid JSON, the message of the
    error includes no preview of the response, however short. *)
Lemma reviewCode_error_message_lacks_payload :
  JSON_parse truncatedPayload = None
  /\ snd (reviewCode sampleConfig (answering truncatedPayload) sampleFiles "")
     = Throw (UserError "Failed to review code: Invalid JSON response from Gemini")
  /\ forall preview,
       preview <> "" ->
       String.prefix preview truncatedPayload = true ->
       includes preview "Failed to review code: Invalid JSON response from Gemini" = false.
Proof.
  split; [reflexivity|]. split; [reflexivity|].
  intros [|c p] Hne Hpre; [now elim Hne|].
  destruct (includes (String c p) _) eqn:E; [|reflexivity].
  apply includes_first_char in E.
  assert (Hc : c = "{"%char).
  { assert (exists rest, truncatedPayload = String "{"%char rest) as [rest Hp]
      by (eexists; vm_compute; reflexivity).
    rewrite Hp in Hpre. cbn [String.prefix] in Hpre.
    destruct (ascii_dec c "{"%char) as [->|]; [reflexivity | discriminate Hpre]. }
  subst c. discriminate E.
Qed.

(** C8. For a response text that parses to an object, [reviewCode]
    returns a result in which a missing [issues] is the empty array, a
    missing [summary] is [No summary provided] and a missing
    [overallScore] is 0; [filesReviewed] is the paths of the input
    files, in order, and [totalLines] is the sum over the files of the
    number of their lines, the pieces between line feeds. *)
Theorem reviewCode_normalizes (config : ReviewConfig.t) (remote : Remote.t)
    (response : Response.t) (files : list FileToReview.t) (rulesPrompt text : string)
    (fields : list (string * json)) :
  Remote.generateContent remote = Return response ->
  Response.text response = Return text ->
  JSON_parse text = Some (JObj fields) ->
  exists result,
    snd (reviewCode config remote files rulesPrompt) = Return result
    /\ (lookup "issues" fields = None -> ReviewResult.issues result = JArr [])
    /\ (lookup "summary" fields = None ->
        ReviewResult.summary result = JStr "No summary provided")
    /\ (lookup "overallScore" fields = None ->
        ReviewResult.overallScore result = JNum 0 0)
    /\ ReviewResult.filesReviewed result = map FileToReview.path files
    /\ ReviewResult.totalLines result
       = list_sum (map (fun f => lineCount (FileToReview.content f)) files).
Proof.
  intros Hgen Htext Hparse.
  rewrite (@reviewCode_object config remote response files rulesPrompt text Hgen Htext fields Hparse).
  eexists. split; [reflexivity|].
  cbn [ReviewResult.issues ReviewResult.summary ReviewResult.overallScore
       ReviewResult.filesReviewed ReviewResult.totalLines].
  repeat split.
  - now intros ->.
  - now intros ->.
  - now intros ->.
  - apply countLines_sum.
Qed.

(** The response [{}] for the two sample files, of three lines and of
    one (empty) line. *)
Lemma reviewCode_normalizes_witness :
  exists result,
    snd (reviewCode sampleConfig (answering emptyObjectPayload) sampleFiles "")
    = Return result
    /\ ReviewResult.issues result = JArr []
    /\ ReviewResult.summary result = JStr "No summary provided"
    /\ ReviewResult.overallScore result = JNum 0 0
    /\ ReviewResult.filesReviewed result = ["src/App.tsx"; "src/empty.ts"]
    /\ ReviewResult.totalLines result = 4.
Proof.
  destruct (@reviewCode_normalizes sampleConfig (answering emptyObjectPayload)
              {| Response.text := Return emptyObjectPayload; Response.parts := None |}
              sampleFiles "" emptyObjectPayload [] eq_refl eq_refl eq_refl)
    as [result [E [Hi [Hs [Ho [Hf Hl]]]]]].
  exists result. split; [exact E|].
  split; [now apply Hi|]. split; [now apply Hs|]. split; [now apply Ho|].
  split; [exact Hf | exact Hl].
Defined.

(* ================================================================== *)
(** * Facts on the grouping by severity and on the exit code *)
(* ================================================================== *)

Lemma severityIs_test (severity : string) (i : json) :
  i <> JNull -> severityIs severity i = Return (severityTest severity i).
Proof. destruct i; intros H; try reflexivity. now elim H. Qed.

Lemma severityTest_hasSeverity (severity : string) (i : json) :
  severityTest severity i = true <-> hasSeverity severity i.
Proof.
  unfold hasSeverity. split.
  - destruct i as [| | | | |fields]; try discriminate. cbn [severityTest].
    destruct (lookup "severity" fields) as [[| | |s| |]|] eqn:E; try discriminate.
    cbn [is_text]. intros H. apply String.eqb_eq in H. subst s.
    now exists fields.
  - intros [fields [-> H]]. cbn [severityTest]. rewrite H. apply String.eqb_refl.
Qed.

Lemma hasSeverity_unique (s1 s2 : string) (i : json) :
  hasSeverity s1 i -> hasSeverity s2 i -> s1 = s2.
Proof.
  intros [f1 [E1 H1]] [f2 [E2 H2]]. subst i. injection E2 as <-. congruence.
Qed.

Lemma knownSeverity_not_null (i : json) : knownSeverity i -> i <> JNull.
Proof.
  intros [H|[H|[H|H]]]; destruct H as [fields [-> _]]; discriminate.
Qed.

Lemma filterM_filter (severity : string) (items : list json) :
  Forall (fun i => i <> JNull) items ->
  filterM (severityIs severity) items = Return (filter (severityTest severity) items).
Proof.
  induction 1 as [|i items Hi _ IH]; cbn [filterM filter].
  - reflexivity.
  - rewrite (severityIs_test severity Hi), IH. reflexivity.
Qed.

Lemma someM_existsb (severity : string) (items : list json) :
  Forall (fun i => i <> JNull) items ->
  someM (severityIs severity) items = Return (existsb (severityTest severity) items).
Proof.
  induction 1 as [|i items Hi _ IH]; cbn [someM existsb].
  - reflexivity.
  - rewrite (severityIs_test severity Hi).
    destruct (severityTest severity i); [reflexivity | exact IH].
Qed.

Lemma existsb_severity (severity : string) (items : list json) :
  existsb (severityTest severity) items = true <-> Exists (hasSeverity severity) items.
Proof.
  rewrite existsb_exists, Exists_exists.
  split; intros [i [Hin H]]; exists i; (split; [assumption|]);
    now apply severityTest_hasSeverity.
Qed.

Lemma groupBySeverity_filters (items : list json) :
  Forall (fun i => i <> JNull) items ->
  groupBySeverity items =
    Return {| Buckets.critical := filter (severityTest "critical") items;
              Buckets.high := filter (severityTest "high") items;
              Buckets.medium := filter (severityTest "medium") items;
              Buckets.low := filter (severityTest "low") items |}.
Proof.
  intros H. unfold groupBySeverity. now rewrite !filterM_filter by assumption.
Qed.

(** Four tests of which every element passes exactly one split a list
    into four parts. *)
Lemma four_filters_length {A : Type} (p1 p2 p3 p4 : A -> bool) (l : list A) :
  Forall (fun x => Nat.b2n (p1 x) + Nat.b2n (p2 x) + Nat.b2n (p3 x) + Nat.b2n (p4 x) = 1) l ->
  List.length (filter p1 l) + List.length (filter p2 l)
  + List.length (filter p3 l) + List.length (filter p4 l) = List.length l.
Proof.
  induction 1 as [|x l Hx _ IH]; cbn [filter List.length].
  - reflexivity.
  - destruct (p1 x), (p2 x), (p3 x), (p4 x); cbn in Hx; try discriminate Hx;
      cbn [List.length]; lia.
Qed.

Lemma known_passes_one_test (i : json) :
  knownSeverity i ->
  Nat.b2n (severityTest "critical" i) + Nat.b2n (severityTest "high" i)
  + Nat.b2n (severityTest "medium" i) + Nat.b2n (severityTest "low" i) = 1.
Proof.
  intros [H|[H|[H|H]]]; destruct H as [fields [-> H]]; cbn [severityTest];
    rewrite H; reflexivity.
Qed.

Lemma buckets_disjoint (s1 s2 : string) (items : list json) :
  s1 <> s2 ->
  disjoint (filter (severityTest s1) items) (filter (severityTest s2) items).
Proof.
  intros Hne i H1 H2. apply filter_In in H1, H2.
  destruct H1 as [_ H1]. destruct H2 as [_ H2].
  apply severityTest_hasSeverity in H1, H2.
  apply Hne. exact (hasSeverity_unique H1 H2).
Qed.

Lemma bucket_members (severity : string) (items : list json) (i : json) :
  In i (filter (severityTest severity) items) <-> In i items /\ hasSeverity severity i.
Proof. rewrite filter_In, severityTest_hasSeverity. reflexivity. Qed.

(** C9, as amended. A result built from a response whose [issues] is
    an array of N elements holds these N elements in their order.  When
    every one of them is an object whose severity is [critical], [high],
    [medium] or [low], grouping them by severity gives four buckets
    that are pairwise disjoint, that hold every issue, each under its
    severity, and whose sizes sum to N. *)
Theorem issues_pass_through_and_partition (config : ReviewConfig.t) (remote : Remote.t)
    (response : Response.t) (files : list FileToReview.t) (rulesPrompt text : string)
    (fields : list (string * json)) (items : list json) :
  Remote.generateContent remote = Return response ->
  Response.text response = Return text ->
  JSON_parse text = Some (JObj fields) ->
  lookup "issues" fields = Some (JArr items) ->
  exists result,
    snd (reviewCode config remote files rulesPrompt) = Return result
    /\ ReviewResult.issues result = JArr items
    /\ (Forall knownSeverity items ->
        exists b,
          groupBySeverity items = Return b
          /\ bucketTotal b = List.length items
          /\ (forall i, In i (Buckets.critical b) <-> In i items /\ hasSeverity "critical" i)
          /\ (forall i, In i (Buckets.high b) <-> In i items /\ hasSeverity "high" i)
          /\ (forall i, In i (Buckets.medium b) <-> In i items /\ hasSeverity "medium" i)
          /\ (forall i, In i (Buckets.low b) <-> In i items /\ hasSeverity "low" i)
          /\ disjoint (Buckets.critical b) (Buckets.high b)
          /\ disjoint (Buckets.critical b) (Buckets.medium b)
          /\ disjoint (Buckets.critical b) (Buckets.low b)
          /\ disjoint (Buckets.high b) (Buckets.medium b)
          /\ disjoint (Buckets.high b) (Buckets.low b)
          /\ disjoint (Buckets.medium b) (Buckets.low b)).
Proof.
  intros Hgen Htext Hparse Hissues.
  rewrite (@reviewCode_object config remote response files rulesPrompt text
             Hgen Htext fields Hparse).
  eexists. split; [reflexivity|]. cbn [snd ReviewResult.issues].
  split; [now rewrite Hissues|].
  intros Hknown.
  assert (Hnn : Forall (fun i => i <> JNull) items).
  { eapply Forall_impl; [|exact Hknown]. apply knownSeverity_not_null. }
  eexists. split; [now apply groupBySeverity_filters|].
  unfold bucketTotal.
  cbn [Buckets.critical Buckets.high Buckets.medium Buckets.low].
  split.
  { apply four_filters_length.
    eapply Forall_impl; [|exact Hknown]. apply known_passes_one_test. }
  repeat match goal with |- _ /\ _ => split end;
    try (intros i; apply bucket_members);
    apply buckets_disjoint; discriminate.
Qed.

(** A response with three issues, one high, one critical, one low. *)
Lemma issues_pass_through_and_partition_witness :
  exists result b,
    snd (reviewCode sampleConfig (answering threeIssuesPayload) sampleFiles "")
    = Return result
    /\ ReviewResult.issues result
       = JArr [ JObj [("severity", JStr "high"); ("title", JStr "a")];
                JObj [("severity", JStr "critical"); ("title", JStr "b")];
                JObj [("severity", JStr "low"); ("title", JStr "c")] ]
    /\ groupBySeverity [ JObj [("severity", JStr "high"); ("title", JStr "a")];
                         JObj [("severity", JStr "critical"); ("title", JStr "b")];
                         JObj [("severity", JStr "low"); ("title", JStr "c")] ]
       = Return b
    /\ bucketTotal b = 3.
Proof.
  destruct (@issues_pass_through_and_partition sampleConfig (answering threeIssuesPayload)
              {| Response.text := Return threeIssuesPayload; Response.parts := None |}
              sampleFiles "" threeIssuesPayload
              [ ("issues",
                 JArr [ JObj [("severity", JStr "high"); ("title", JStr "a")];
                        JObj [("severity", JStr "critical"); ("title", JStr "b")];
                        JObj [("severity", JStr "low"); ("title", JStr "c")] ]);
                ("summary", JStr "ok"); ("overallScore", JNum 70 0) ]
              _ eq_refl eq_refl eq_refl eq_refl)
    as [result [E [Hi Hg]]].
  destruct Hg as [b [Hb [Ht _]]].
  { apply Forall_cons; [|apply Forall_cons; [|apply Forall_cons; [|apply Forall_nil]]].
    - right; left. eexists. split; reflexivity.
    - left. eexists. split; reflexivity.
    - right; right; right. eexists. split; reflexivity. }
  exists result, b. repeat split; assumption.
Defined.

(** C9 fails as stated: the response with one issue of severity [info]
    gives a result with one issue, and the four buckets of its grouping
    are empty, so their sizes sum to 0. *)
Lemma severity_outside_schema_in_no_bucket :
  exists result items b,
    snd (reviewCode sampleConfig (answering infoIssuePayload) sampleFiles "")
    = Return result
    /\ ReviewResult.issues result = JArr items
    /\ List.length items = 1
    /\ groupBySeverity items = Return b
    /\ bucketTotal b = 0
    /\ bucketTotal b <> List.length items.
Proof.
  eexists. eexists. eexists.
  split; [vm_compute; reflexivity|].
  split; [reflexivity|].
  split; [reflexivity|].
  split; [vm_compute; reflexivity|].
  split; [reflexivity | discriminate].
Qed.

(** C2. For a review result whose issues are an array without [null]
    element, the exit-code block exits with 1, under the failure banner,
    when some issue has severity [critical]; with 0, under the warning
    banner, when none is critical and some issue has severity [high];
    and with 0, under the success banner, otherwise. *)
Theorem exitCode_by_severity (result : ReviewResult.t) (items : list json) :
  ReviewResult.issues result = JArr items ->
  Forall (fun i => i <> JNull) items ->
  (Exists (hasSeverity "critical") items ->
     exitCode result = ([Log failedBanner], Return 1))
  /\ (~ Exists (hasSeverity "critical") items ->
      Exists (hasSeverity "high") items ->
      exitCode result = ([Log warningBanner], Return 0))
  /\ (~ Exists (hasSeverity "critical") items ->
      ~ Exists (hasSeverity "high") items ->
      exitCode result = ([Log passedBanner], Return 0)).
Proof.
  intros Hissues Hnn. unfold exitCode. rewrite Hissues. cbn [issuesSome].
  rewrite !someM_existsb by assumption.
  pose proof (existsb_severity "critical" items) as Hc.
  pose proof (existsb_severity "high" items) as Hh.
  destruct (existsb (severityTest "critical") items);
    destruct (existsb (severityTest "high") items); cbn;
    repeat split; intros; try reflexivity;
    try (exfalso; tauto);
    try (exfalso; match goal with H : _ <-> _ |- _ => destruct H; intuition discriminate end).
Qed.

(** The scenarios of the specification: one critical issue alone; high
    and low issues only; no issue. *)
Lemma exitCode_by_severity_witness :
  exitCode (resultWith [issueOf "critical"]) = ([Log failedBanner], Return 1)
  /\ exitCode (resultWith [issueOf "high"; issueOf "low"]) = ([Log warningBanner], Return 0)
  /\ exitCode (resultWith []) = ([Log passedBanner], Return 0).
Proof.
  assert (Hsev : forall s, hasSeverity s (issueOf s)).
  { intros s. eexists. split; [reflexivity|]. reflexivity. }
  assert (Hnot : forall s ss, ~ In s ss -> ~ Exists (hasSeverity s) (map issueOf ss)).
  { intros s ss Hs H. apply Exists_exists in H. destruct H as [i [Hin Hi]].
    apply in_map_iff in Hin. destruct Hin as [s' [<- Hin]].
    rewrite (hasSeverity_unique Hi (Hsev s')) in Hs. contradiction. }
  split; [|split].
  - apply (exitCode_by_severity (resultWith [issueOf "critical"]) eq_refl).
    + repeat constructor; discriminate.
    + left. apply Hsev.
  - apply (exitCode_by_severity (resultWith [issueOf "high"; issueOf "low"]) eq_refl).
    + repeat constructor; discriminate.
    + apply (Hnot "critical" ["high"; "low"]). cbn. intros [H|[H|[]]]; discriminate H.
    + left. apply Hsev.
  - apply (exitCode_by_severity (resultWith []) eq_refl).
    + constructor.
    + intros H; inversion H.
    + intros H; inversion H.
Defined.

(* ================================================================== *)
(** * More on the rule loader *)
(* ================================================================== *)

Lemma say_rules (ev : ConsoleEvent) (rules : list Rule.t) : snd (say ev rules) = rules.
Proof. reflexivity. Qed.

Lemma skip_rules (rules : list Rule.t) : snd (skip rules) = rules.
Proof. reflexivity. Qed.

Lemma appends_nothing (s : step) :
  (forall rules, snd (s rules) = rules) -> appends s [].
Proof. intros H rules. now rewrite H, app_nil_r. Qed.

Lemma appends_seq (a b : step) (xs ys : list Rule.t) :
  appends a xs -> appends b ys -> appends (seq a b) (xs ++ ys).
Proof.
  intros Ha Hb rules. rewrite seq_rules, Hb, Ha. now rewrite app_assoc.
Qed.

Lemma loadRuleFile_appends (filePath : string) (parsed : outcome (Data.t * string)) :
  exists added, appends (loadRuleFile filePath parsed) added
                /\ Forall wellFormedRule added.
Proof.
  destruct parsed as [[data body]|e].
  - destruct (truthy_text (Data.id data)) eqn:Hid;
      [destruct (truthy_text (Data.title data)) eqn:Htitle|].
    + eexists. split.
      * intros rules. rewrite loadRuleFile_complete by assumption. reflexivity.
      * constructor; [|constructor].
        assert (Hor : forall s d, d <> "" -> text_or s d <> "").
        { intros [x|] d Hd; cbn; [|exact Hd].
          destruct (String.eqb x "") eqn:E; [exact Hd | now apply String.eqb_neq]. }
        assert (Hof : forall s, truthy_text s = true -> text_of s <> "").
        { intros [x|]; cbn; [|discriminate].
          intros H. apply negb_true_iff in H. now apply String.eqb_neq. }
        destruct (trim_spec body) as [pre [post [_ [_ [_ [S1 S2]]]]]].
        unfold wellFormedRule. cbn.
        repeat split; try (apply Hor; discriminate); try (now apply Hof); assumption.
    + exists []. split; [|constructor]. apply appends_nothing. intros rules.
      unfold loadRuleFile. rewrite Hid, Htitle. reflexivity.
    + exists []. split; [|constructor]. apply appends_nothing. intros rules.
      unfold loadRuleFile. rewrite Hid. reflexivity.
  - exists []. split; [|constructor]. now apply appends_nothing.
Qed.

Lemma scanLoop_appends (entries : list fsnode) :
  Forall visitAppends entries ->
  forall dir,
    exists added,
      appends (scanLoop (visitEntry dir) (scanWarning dir) entries) added
      /\ Forall wellFormedRule added.
Proof.
  induction 1 as [|entry rest Hentry _ IH]; intros dir.
  - exists []. split; [now apply appends_nothing | constructor].
  - cbn [scanLoop]. specialize (Hentry dir).
    destruct (visitEntry dir entry) as [s|e].
    + destruct Hentry as [xs [Hxs Wxs]]. destruct (IH dir) as [ys [Hys Wys]].
      exists (xs ++ ys)%list. split; [now apply appends_seq|].
      apply Forall_app. now split.
    + exists []. split; [now apply appends_nothing | constructor].
Qed.

Lemma visitEntry_appends (entry : fsnode) : visitAppends entry.
Proof.
  induction entry as [name parsed|name|name e|name e|name entries IH]
    using fsnode_tree_ind; intros dir; cbn [visitEntry].
  - destruct (String.eqb (extname name) ".md").
    + apply loadRuleFile_appends.
    + exists []. split; [now apply appends_nothing | constructor].
  - exists []. split; [now apply appends_nothing | constructor].
  - exact I.
  - exists []. split; [now apply appends_nothing | constructor].
  - apply scanLoop_appends. exact IH.
Qed.

Lemma all_visitAppends (entries : list fsnode) : Forall visitAppends entries.
Proof. apply Forall_forall. intros entry _. apply visitEntry_appends. Qed.

(** X1. A scan never removes, changes or reorders the rules that are
    already in the collection: it adds rules at its end, and which ones
    it adds does not depend on what the collection held. *)
Theorem scanDirectory_appends (dir : string) (listing : outcome (list fsnode)) :
  exists added,
    forall rules, snd (scanDirectory dir listing rules) = (rules ++ added)%list.
Proof.
  destruct listing as [entries|e]; cbn [scanDirectory].
  - destruct (scanLoop_appends (all_visitAppends entries) dir) as [added [H _]].
    now exists added.
  - exists []. now apply appends_nothing.
Qed.


Lemma visitEntry_inert (dir : string) (n : fsnode) :
  inert n -> exists s, visitEntry dir n = Return s /\ forall rules, snd (s rules) = rules.
Proof.
  destruct n as [name parsed|name [entries|e]|name|name e]; cbn [inert visitEntry].
  - intros [Hext|Hparsed].
    + apply String.eqb_neq in Hext. rewrite Hext. now exists skip.
    + destruct (String.eqb (extname name) ".md"); [|now exists skip].
      eexists. split; [reflexivity|]. intros rules.
      destruct parsed as [[data body]|e]; [|reflexivity].
      unfold loadRuleFile. destruct Hparsed as [->| ->]; cbn [negb orb].
      * reflexivity.
      * now rewrite orb_true_r.
  - intros ->. eexists. split; reflexivity.
  - intros _. eexists. split; reflexivity.
  - intros _. now exists skip.
  - contradiction.
Qed.

Lemma scanLoop_without_inert (f : fsnode) :
  inert f ->
  forall tree tree',
    without f tree tree' ->
    forall dir rules,
      snd (scanLoop (visitEntry dir) (scanWarning dir) tree rules)
      = snd (scanLoop (visitEntry dir) (scanWarning dir) tree' rules).
Proof.
  intros Hinert tree tree' Hw.
  induction Hw as [rest | n rest rest' _ IH | dname sub sub' rest _ IH];
    intros dir rules.
  - cbn [scanLoop]. destruct (visitEntry_inert dir f Hinert) as [s [-> Hs]].
    now rewrite seq_rules, Hs.
  - cbn [scanLoop]. destruct (visitEntry dir n) as [s|e].
    + rewrite !seq_rules. apply IH.
    + reflexivity.
  - cbn [scanLoop visitEntry]. rewrite !seq_rules. now rewrite IH.
Qed.

(** X3. Entries from which no rule can come leave the loaded collection
    as it would be without them, wherever they stand in the tree: an
    entry that is neither file nor directory, a file whose extension is
    not exactly [.md], a file that cannot be read or parsed, a file whose
    [id] or [title] is missing or empty, a directory that cannot be
    listed, an empty directory. *)
Theorem loadRules_ignores_inert (f : fsnode) (rulesDir : string)
    (tree tree' : list fsnode) (this : list Rule.t) :
  inert f ->
  without f tree tree' ->
  getRules (snd (loadRules rulesDir (Return tree) this))
  = getRules (snd (loadRules rulesDir (Return tree') this)).
Proof.
  intros Hinert Hw. unfold getRules, loadRules, scanDirectory.
  pose proof (@scanLoop_without_inert f Hinert tree tree' Hw rulesDir []) as H.
  destruct (scanLoop _ _ tree []) as [o1 r1].
  destruct (scanLoop _ _ tree' []) as [o2 r2].
  exact H.
Qed.

(** The file [README.MD], with complete frontmatter, is not loaded: its
    extension is not [.md]. *)
Lemma loadRules_ignores_inert_witness :
  map Rule.id (getRules (snd (loadRules "rules" (Return brokenTree) [])))
  = ["one"; "three"].
Proof.
  set (readme := FsFile "README.MD"
                   (Return (dataOf (Some "readme") (Some "Readme") None None, "r"))).
  assert (Hi : inert readme) by (left; discriminate).
  assert (Hw : without readme brokenTree
                 (firstn 3 brokenTree ++ skipn 4 brokenTree)).
  { do 3 apply without_later. apply without_here. }
  rewrite (@loadRules_ignores_inert readme "rules" _ _ [] Hi Hw).
  reflexivity.
Defined.

Lemma scanLoop_app (dir : string) (es1 es2 : list fsnode) (rules : list Rule.t) :
  Forall statOk es1 ->
  snd (scanLoop (visitEntry dir) (scanWarning dir) (es1 ++ es2)%list rules)
  = snd (scanLoop (visitEntry dir) (scanWarning dir) es2
           (snd (scanLoop (visitEntry dir) (scanWarning dir) es1 rules))).
Proof.
  intros H. revert rules.
  induction H as [|entry rest Hentry _ IH]; intros rules.
  - reflexivity.
  - cbn [app scanLoop].
    destruct entry as [name parsed|name listing|name|name e]; try contradiction;
      cbn [visitEntry];
      try (destruct (String.eqb (extname name) ".md"));
      rewrite !seq_rules; apply IH.
Qed.

Lemma scanLoop_broken (dir : string) (before after : list fsnode)
    (name : string) (e : thrown) (rules : list Rule.t) :
  snd (scanLoop (visitEntry dir) (scanWarning dir)
         (before ++ FsBroken name e :: after)%list rules)
  = snd (scanLoop (visitEntry dir) (scanWarning dir) before rules).
Proof.
  revert rules. induction before as [|entry rest IH]; intros rules.
  - reflexivity.
  - cbn [app scanLoop]. destruct (visitEntry dir entry) as [s|e'].
    + rewrite !seq_rules. apply IH.
    + reflexivity.
Qed.

Lemma scanLoop_cutAtFailure (tree tree' : list fsnode) :
  cutAtFailure tree tree' ->
  forall dir rules,
    snd (scanLoop (visitEntry dir) (scanWarning dir) tree rules)
    = snd (scanLoop (visitEntry dir) (scanWarning dir) tree' rules).
Proof.
  induction 1 as [before name e after | n rest rest' _ IH | dname sub sub' rest _ IH];
    intros dir rules.
  - apply scanLoop_broken.
  - cbn [scanLoop]. destruct (visitEntry dir n) as [s|e].
    + rewrite !seq_rules. apply IH.
    + reflexivity.
  - cbn [scanLoop visitEntry]. rewrite !seq_rules. now rewrite IH.
Qed.

(** X4. When [statSync] fails on an entry of a directory, at any depth
    of the tree, the entries listed after it in that directory are not
    loaded, whatever they are: the loaded collection is the one of the
    tree in which that directory ends before the failing entry.  The
    entries before it, and the entries that follow the directory in its
    parent and in the directories above, are loaded as usual. *)
Theorem scan_stops_at_failing_stat (rulesDir : string) (tree tree' : list fsnode)
    (this : list Rule.t) :
  cutAtFailure tree tree' ->
  getRules (snd (loadRules rulesDir (Return tree) this))
  = getRules (snd (loadRules rulesDir (Return tree') this)).
Proof.
  intros Hcut. unfold getRules, loadRules, scanDirectory.
  pose proof (@scanLoop_cutAtFailure tree tree' Hcut rulesDir []) as H.
  destruct (scanLoop _ _ tree []) as [o1 r1].
  destruct (scanLoop _ _ tree' []) as [o2 r2].
  exact H.
Qed.

(** In [deepTree] the failing entry stands two directories below the
    root, between [one.md] and [two.md]: [two.md] is not loaded, while
    [one.md], the file [three.md] after the inner directory and the file
    [four.md] after the outer one are. *)
Lemma scan_stops_at_failing_stat_witness :
  map Rule.id (getRules (snd (loadRules "rules" (Return deepTree) [])))
  = ["one"; "three"; "four"].
Proof.
  assert (Hcut : cutAtFailure deepTree deepTreeCut).
  { apply cut_inside. apply cut_later. apply cut_inside.
    apply (@cut_here
             [FsFile "one.md" (Return (dataOf (Some "one") (Some "One") None None, "1"))]). }
  rewrite (@scan_stops_at_failing_stat "rules" deepTree deepTreeCut [] Hcut).
  reflexivity.
Defined.

(** X5. The rules of a directory content come in enumeration order:
    when [statSync] succeeds on the first entries, the rules loaded from
    a content are those of its first entries followed by those of the
    rest. *)
Theorem scan_in_enumeration_order (dir : string) (first rest : list fsnode) :
  Forall statOk first ->
  snd (scanDirectory dir (Return (first ++ rest)%list) [])
  = (snd (scanDirectory dir (Return first) [])
     ++ snd (scanDirectory dir (Return rest) []))%list.
Proof.
  intros H. cbn [scanDirectory]. rewrite scanLoop_app by assumption.
  destruct (scanLoop_appends (all_visitAppends rest) dir) as [added [Ha _]].
  rewrite (Ha (snd _)), (Ha []). reflexivity.
Qed.

Lemma scan_in_enumeration_order_witness :
  map Rule.id (snd (scanDirectory "rules" (Return brokenTree) []))
  = (map Rule.id (snd (scanDirectory "rules" (Return (firstn 2 brokenTree)) []))
     ++ map Rule.id (snd (scanDirectory "rules" (Return (skipn 2 brokenTree)) [])))%list.
Proof.
  assert (H : Forall statOk (firstn 2 brokenTree)) by (repeat constructor).
  change brokenTree with (firstn 2 brokenTree ++ skipn 2 brokenTree)%list at 1.
  rewrite (@scan_in_enumeration_order "rules" _ (skipn 2 brokenTree) H).
  apply map_app.
Defined.

(* ================================================================== *)
(** * More on the selection by tags and on the compiled prompt *)
(* ================================================================== *)

Lemma filter_Subseq_impl {A : Type} (p q : A -> bool) (l : list A) :
  (forall x, p x = true -> q x = true) -> Subseq (filter p l) (filter q l).
Proof.
  intros Himpl. induction l as [|x l IH]; cbn [filter].
  - constructor.
  - destruct (p x) eqn:Hp.
    + rewrite (Himpl x Hp). now constructor.
    + destruct (q x); [now constructor | exact IH].
Qed.

Lemma selected_rules_intersect (rules : list Rule.t) (tags : list string) (r : Rule.t) :
  In r (getRulesByTags rules tags) -> tagsIntersect r tags.
Proof.
  unfold getRulesByTags. intros H. apply filter_In in H. now apply tag_test_intersect.
Qed.

(** X6. Asking for more tags never loses a rule: the rules selected for
    a tag list are, in order, among those selected for a longer list,
    and a rule is selected for two lists together exactly when it is
    selected for one of them. *)
Theorem getRulesByTags_more_tags (rules : list Rule.t) (tags more : list string) :
  Subseq (getRulesByTags rules tags) (getRulesByTags rules (tags ++ more))
  /\ forall r,
       In r (getRulesByTags rules (tags ++ more))
       <-> In r (getRulesByTags rules tags) \/ In r (getRulesByTags rules more).
Proof.
  split.
  - unfold getRulesByTags. apply filter_Subseq_impl. intros r H.
    rewrite existsb_app, H. reflexivity.
  - intros r. unfold getRulesByTags. rewrite !filter_In, existsb_app, orb_true_iff.
    tauto.
Qed.

(** X7. A rule without tags is selected for no tag list, and the empty
    tag list selects no rule: compiling for it gives the fixed text,
    whatever rules are loaded. *)
Theorem getRulesByTags_nothing (rules : list Rule.t) (tags : list string) :
  (forall r, Rule.tags r = [] -> ~ In r (getRulesByTags rules tags))
  /\ getRulesByTags rules [] = []
  /\ compileRulesForPrompt rules (Some []) = noRulesText.
Proof.
  assert (Hempty : getRulesByTags rules [] = []).
  { unfold getRulesByTags. induction rules as [|r rules IH]; [reflexivity | exact IH]. }
  split; [|split].
  - intros r Hr Hin. apply selected_rules_intersect in Hin.
    destruct Hin as [tag [Htag _]]. rewrite Hr in Htag. contradiction.
  - exact Hempty.
  - unfold compileRulesForPrompt. now rewrite Hempty.
Qed.

Lemma prefix_append (x q : string) : String.prefix x (x ++ q) = true.
Proof.
  induction x as [|c x IH]; cbn.
  - now destruct q.
  - destruct (ascii_dec c c); [exact IH | contradiction].
Qed.

Lemma prefix_app (x s q : string) :
  String.prefix x s = true -> String.prefix x (s ++ q) = true.
Proof.
  revert s. induction x as [|c x IH]; intros s H.
  - now destruct (s ++ q).
  - destruct s as [|d s]; [discriminate H|]. cbn in *.
    destruct (ascii_dec c d); [now apply IH | discriminate H].
Qed.

Lemma includes_here (x q : string) : includes x (x ++ q) = true.
Proof.
  destruct (x ++ q) eqn:E; cbn [includes]; rewrite <- E, prefix_append; reflexivity.
Qed.

Lemma includes_app_r (x p s : string) :
  includes x s = true -> includes x (p ++ s) = true.
Proof.
  intros H. induction p as [|c p IH]; [exact H|].
  cbn [append includes]. rewrite IH. apply orb_true_r.
Qed.

Lemma includes_app_l (x s q : string) :
  includes x s = true -> includes x (s ++ q) = true.
Proof.
  induction s as [|c s IH]; cbn [includes append].
  - intros H. rewrite orb_false_r in H. destruct x; [|discriminate H].
    now destruct q.
  - intros H. apply orb_true_iff in H. destruct H as [H|H].
    + change (String c (s ++ q)) with (String c s ++ q).
      now rewrite (prefix_app _ _ q H).
    + rewrite (IH H). apply orb_true_r.
Qed.

Lemma includes_middle (x a c : string) : includes x (a ++ x ++ c) = true.
Proof. apply includes_app_r, includes_here. Qed.

Lemma includes_in_middle (x a b c : string) :
  includes x b = true -> includes x (a ++ b ++ c) = true.
Proof. intros H. apply includes_app_r, includes_app_l, H. Qed.

(** A text that occurs in a line of a template occurs in the template. *)
Lemma includes_concat (x sep line : string) (lines : list string) :
  In line lines -> includes x line = true ->
  includes x (String.concat sep lines) = true.
Proof.
  intros Hin Hx. induction lines as [|l lines IH]; [contradiction|].
  destruct lines as [|l' lines].
  - destruct Hin as [->|[]]. exact Hx.
  - change (String.concat sep (l :: l' :: lines))
      with (l ++ sep ++ String.concat sep (l' :: lines)).
    destruct Hin as [->|Hin].
    + now apply includes_app_l.
    + apply includes_app_r, includes_app_r, IH, Hin.
Qed.

Lemma includes_self (x : string) : includes x x = true.
Proof. rewrite <- (append_empty_r x) at 2. apply includes_here. Qed.

(** X8. The compiled prompt holds, as they are, the title, the category,
    the impact and the content of every principle of the filtered rule
    set, and the title, the id, the impact and the content of every
    requirement: nothing is escaped or cut. *)
Theorem compiled_prompt_holds_rule_text (rules : list Rule.t) (tags : option (list string))
    (r : Rule.t) :
  In r (filteredRules rules tags) ->
  let output := compileRulesForPrompt rules tags in
  (isPrinciple r = true ->
     includes (Rule.title r) output = true /\ includes (Rule.category r) output = true
     /\ includes (Rule.impact r) output = true /\ includes (Rule.content r) output = true)
  /\ (isRequirement r = true ->
     includes (Rule.title r) output = true /\ includes (Rule.id r) output = true
     /\ includes (Rule.impact r) output = true /\ includes (Rule.content r) output = true).
Proof.
  intros Hin output.
  assert (Hne : filteredRules rules tags <> []) by (intros E; now rewrite E in Hin).
  assert (E : output = compileSections (filteredRules rules tags))
    by now apply compile_nonempty.
  rewrite compileSections_sections in E.
  split; intros Hr.
  - assert (Hb : In r (filter isPrinciple (filteredRules rules tags)))
      by (apply filter_In; now split).
    destruct (sectionText_block principlesHeader principleBlock _ _ Hb) as [a [c Ea]].
    assert (Hblock : forall x, includes x (principleBlock r) = true ->
                               includes x output = true).
    { intros x Hx. rewrite E, Ea. apply includes_app_l. now apply includes_in_middle. }
    unfold principleBlock, template in Hblock.
    repeat split; apply Hblock.
    + eapply includes_concat; [right; left; reflexivity|].
      apply includes_app_r, includes_self.
    + eapply includes_concat; [right; right; left; reflexivity|].
      apply includes_in_middle, includes_self.
    + eapply includes_concat; [right; right; left; reflexivity|].
      apply includes_app_r, includes_app_r, includes_app_r, includes_self.
    + eapply includes_concat; [do 4 right; left; reflexivity|]. apply includes_self.
  - assert (Hb : In r (filter isRequirement (filteredRules rules tags)))
      by (apply filter_In; now split).
    destruct (sectionText_block requirementsHeader requirementBlock _ _ Hb) as [a [c Ea]].
    assert (Hblock : forall x, includes x (requirementBlock r) = true ->
                               includes x output = true).
    { intros x Hx. rewrite E, Ea. apply includes_app_r. now apply includes_in_middle. }
    unfold requirementBlock, template in Hblock.
    repeat split; apply Hblock.
    + eapply includes_concat; [right; left; reflexivity|].
      apply includes_app_r, includes_self.
    + eapply includes_concat; [right; right; left; reflexivity|].
      apply includes_in_middle, includes_self.
    + eapply includes_concat; [right; right; left; reflexivity|].
      apply includes_app_r, includes_app_r, includes_app_r, includes_self.
    + eapply includes_concat; [do 4 right; left; reflexivity|]. apply includes_self.
Qed.

Lemma compiled_prompt_holds_rule_text_witness :
  includes "Body of r1" (compileRulesForPrompt sampleRules (Some ["a"])) = true
  /\ includes "**Rule ID:** r1" (compileRulesForPrompt sampleRules (Some ["a"])) = true.
Proof.
  assert (Hin : In (ruleOf "r1" "requirement" ["a"])
                   (filteredRules sampleRules (Some ["a"]))) by (left; reflexivity).
  split.
  - apply (proj2 (@compiled_prompt_holds_rule_text sampleRules (Some ["a"]) _ Hin) eq_refl).
  - reflexivity.
Defined.

Lemma append_is_empty (a b : string) : a ++ b = "" -> a = "" /\ b = "".
Proof. destruct a; cbn; [now split | discriminate]. Qed.

Lemma sectionText_empty (header : string) (block : Rule.t -> string) (bucket : list Rule.t) :
  header <> "" -> sectionText header block bucket = "" -> bucket = [].
Proof.
  intros Hh. destruct bucket as [|r bucket]; [reflexivity|].
  cbn [sectionText]. intros H. apply append_is_empty in H. now destruct H.
Qed.

(** X9. The compiled prompt is the empty text in one case only: the
    filtered rule set is not empty and none of its rules has the type
    [principle] or [requirement]. *)
Theorem compiled_prompt_empty_iff (rules : list Rule.t) (tags : option (list string)) :
  compileRulesForPrompt rules tags = ""
  <-> filteredRules rules tags <> []
      /\ Forall (fun r => Rule.type r <> "principle" /\ Rule.type r <> "requirement")
                (filteredRules rules tags).
Proof.
  assert (Hnone : forall (p : Rule.t -> bool) l,
             filter p l = [] <-> Forall (fun r => p r = false) l).
  { intros p l. induction l as [|x l IH]; cbn [filter].
    - split; constructor.
    - destruct (p x) eqn:E; split; intros H.
      + discriminate H.
      + inversion H; congruence.
      + constructor; [exact E | now apply IH].
      + inversion H; subst. now apply IH. }
  split.
  - intros Hempty.
    destruct (filteredRules rules tags) as [|r0 l] eqn:Ef.
    + exfalso. unfold compileRulesForPrompt in Hempty.
      fold (filteredRules rules tags) in Hempty. rewrite Ef in Hempty.
      discriminate Hempty.
    + split; [discriminate|].
      assert (Hne : filteredRules rules tags <> []) by (rewrite Ef; discriminate).
      rewrite (compile_nonempty rules tags Hne), compileSections_sections, Ef in Hempty.
      apply append_is_empty in Hempty. destruct Hempty as [Hp Hr].
      apply sectionText_empty in Hp; [|discriminate].
      apply sectionText_empty in Hr; [|discriminate].
      apply Hnone in Hp. apply Hnone in Hr.
      apply Forall_forall. intros r Hin.
      rewrite Forall_forall in Hp, Hr. specialize (Hp r Hin). specialize (Hr r Hin).
      split; now apply String.eqb_neq.
  - intros [Hne Hall].
    rewrite (compile_nonempty rules tags Hne), compileSections_sections.
    assert (Hp : filter isPrinciple (filteredRules rules tags) = []).
    { apply Hnone. eapply Forall_impl; [|exact Hall].
      intros r [H _]. now apply String.eqb_neq. }
    assert (Hr : filter isRequirement (filteredRules rules tags) = []).
    { apply Hnone. eapply Forall_impl; [|exact Hall].
      intros r [_ H]. now apply String.eqb_neq. }
    now rewrite Hp, Hr.
Qed.

(* ================================================================== *)
(** * More on the gateway *)
(* ================================================================== *)

Lemma reviewCode_transport (config : ReviewConfig.t) (remote : Remote.t)
    (files : list FileToReview.t) (rulesPrompt : string) (e : thrown) :
  Remote.generateContent remote = Throw e ->
  reviewCode config remote files rulesPrompt =
    ([ Log ("🧠 Using model: " ++ ReviewConfig.model config);
       Log ("🤔 Deep thinking: " ++
            if ReviewConfig.enableDeepThinking config then "enabled" else "disabled");
       ErrorThrown "Gemini API error:" e ],
     Throw (UserError ("Failed to review code: " ++ errorMessage e))).
Proof. intros H. unfold reviewCode. rewrite H. reflexivity. Qed.

Lemma reviewCode_unreadable (config : ReviewConfig.t) (remote : Remote.t)
    (response : Response.t) (files : list FileToReview.t) (rulesPrompt : string)
    (e : thrown) :
  Remote.generateContent remote = Return response ->
  Response.text response = Throw e ->
  reviewCode config remote files rulesPrompt =
    ((preamble config remote ++ [ErrorThrown "Gemini API error:" e])%list,
     Throw (UserError ("Failed to review code: " ++ errorMessage e))).
Proof. intros H1 H2. unfold reviewCode. rewrite H1. cbn. rewrite H2. reflexivity. Qed.

Lemma reviewCode_null (config : ReviewConfig.t) (remote : Remote.t)
    (response : Response.t) (files : list FileToReview.t) (rulesPrompt text : string) :
  Remote.generateContent remote = Return response ->
  Response.text response = Return text ->
  JSON_parse text = Some JNull ->
  reviewCode config remote files rulesPrompt =
    ((preamble config remote
        ++ [ErrorThrown "Gemini API error:"
              (EngineError "Cannot read properties of null (reading 'issues')")])%list,
     Throw (UserError
              "Failed to review code: Cannot read properties of null (reading 'issues')")).
Proof.
  intros H1 H2 H3. unfold reviewCode. rewrite H1. cbn. rewrite H2. cbn.
  rewrite H3. reflexivity.
Qed.

Lemma reviewCode_value (config : ReviewConfig.t) (remote : Remote.t)
    (response : Response.t) (files : list FileToReview.t) (rulesPrompt text : string)
    (v : json) :
  Remote.generateContent remote = Return response ->
  Response.text response = Return text ->
  JSON_parse text = Some v ->
  v <> JNull ->
  exists issues summary overallScore,
    member v "issues" = Return issues
    /\ member v "summary" = Return summary
    /\ member v "overallScore" = Return overallScore
    /\ reviewCode config remote files rulesPrompt =
         (preamble config remote,
          Return {|
            ReviewResult.issues := or_else issues (JArr []);
            ReviewResult.summary := or_else summary (JStr "No summary provided");
            ReviewResult.overallScore := or_else overallScore (JNum 0 0);
            ReviewResult.thinkingTrace := extractThinkingTrace response;
            ReviewResult.filesReviewed := map FileToReview.path files;
            ReviewResult.totalLines := countLines files
          |}).
Proof.
  intros H1 H2 H3 Hv. unfold reviewCode. rewrite H1. cbn. rewrite H2. cbn.
  rewrite H3. destruct v; try (now elim Hv);
    (eexists; eexists; eexists; repeat split; reflexivity).
Qed.

(** X10. Whatever goes wrong in [reviewCode] (the remote call, the read
    of the response text, the parse, the read of the parsed value), the
    caller gets one kind of failure: an error whose message is [Failed
    to review code: ] followed by the message of the cause ([Unknown
    error] when the cause is not an [Error]), the cause having been
    written to the error console. *)
Theorem reviewCode_failures_are_wrapped (config : ReviewConfig.t) (remote : Remote.t)
    (files : list FileToReview.t) (rulesPrompt : string) (e : thrown) :
  snd (reviewCode config remote files rulesPrompt) = Throw e ->
  exists cause,
    e = UserError ("Failed to review code: " ++ errorMessage cause)
    /\ last (fst (reviewCode config remote files rulesPrompt)) (Log "")
       = ErrorThrown "Gemini API error:" cause.
Proof.
  destruct (Remote.generateContent remote) as [response|e0] eqn:H1.
  - destruct (Response.text response) as [text|e1] eqn:H2.
    + destruct (JSON_parse text) as [v|] eqn:H3.
      * destruct (match v with JNull => true | _ => false end) eqn:Enull.
        -- assert (v = JNull) by (destruct v; try discriminate Enull; reflexivity).
           subst v.
           rewrite (@reviewCode_null config remote response files rulesPrompt text
                      H1 H2 H3).
           cbn [fst snd]. intros H. injection H as <-.
           exists (EngineError "Cannot read properties of null (reading 'issues')").
           split; [reflexivity | apply last_last].
        -- assert (Hv : v <> JNull) by (intros ->; discriminate Enull).
           destruct (@reviewCode_value config remote response files rulesPrompt text v
                       H1 H2 H3 Hv) as [i [s [o [_ [_ [_ E]]]]]].
           rewrite E. discriminate.
      * rewrite (@reviewCode_invalid config remote response files rulesPrompt text H1 H2 H3).
        cbn [fst snd]. intros H. injection H as <-.
        exists (UserError "Invalid JSON response from Gemini").
        split; [reflexivity|].
        change (preamble config remote
                  ++ [ErrorText "Failed to parse JSON response:" text;
                      ErrorThrown "Gemini API error:"
                        (UserError "Invalid JSON response from Gemini")])%list
          with ((preamble config remote
                   ++ [ErrorText "Failed to parse JSON response:" text])
                  ++ [ErrorThrown "Gemini API error:"
                        (UserError "Invalid JSON response from Gemini")])%list.
        apply last_last.
    + rewrite (@reviewCode_unreadable config remote response files rulesPrompt e1 H1 H2).
      cbn [fst snd]. intros H. injection H as <-.
      exists e1. split; [reflexivity | apply last_last].
  - rewrite (@reviewCode_transport config remote files rulesPrompt e0 H1).
    cbn [fst snd]. intros H. injection H as <-.
    exists e0. split; reflexivity.
Qed.

(** A remote call that rejects with a value that is not an [Error]. *)
Lemma reviewCode_failures_are_wrapped_witness :
  exists cause,
    UserError "Failed to review code: Unknown error"
    = UserError ("Failed to review code: " ++ errorMessage cause)
    /\ last (fst (reviewCode sampleConfig
                    {| Remote.generateContent := Throw NonError;
                       Remote.duration := "0.3" |}
                    sampleFiles "")) (Log "")
       = ErrorThrown "Gemini API error:" cause.
Proof.
  exact (@reviewCode_failures_are_wrapped sampleConfig
           {| Remote.generateContent := Throw NonError; Remote.duration := "0.3" |}
           sampleFiles "" (UserError "Failed to review code: Unknown error") eq_refl).
Defined.

Lemma reviewCode_returned (config : ReviewConfig.t) (remote : Remote.t)
    (files : list FileToReview.t) (rulesPrompt : string) (result : ReviewResult.t) :
  snd (reviewCode config remote files rulesPrompt) = Return result ->
  exists response text v,
    Remote.generateContent remote = Return response
    /\ Response.text response = Return text
    /\ JSON_parse text = Some v
    /\ v <> JNull.
Proof.
  intros H.
  destruct (Remote.generateContent remote) as [response|e0] eqn:H1.
  - destruct (Response.text response) as [text|e1] eqn:H2.
    + destruct (JSON_parse text) as [v|] eqn:H3.
      * exists response, text, v. repeat split; try assumption.
        intros ->.
        rewrite (@reviewCode_null config remote response files rulesPrompt text
                   H1 H2 H3) in H. discriminate H.
      * rewrite (@reviewCode_invalid config remote response files rulesPrompt text
                   H1 H2 H3) in H. discriminate H.
    + rewrite (@reviewCode_unreadable config remote response files rulesPrompt e1
                 H1 H2) in H. discriminate H.
  - rewrite (@reviewCode_transport config remote files rulesPrompt e0 H1) in H.
    discriminate H.
Qed.

(** X11. [reviewCode] returns a result exactly when the remote call
    resolves, the text of the response can be read, and the text parses
    to a value other than [null]. *)
Theorem reviewCode_returns_iff (config : ReviewConfig.t) (remote : Remote.t)
    (files : list FileToReview.t) (rulesPrompt : string) :
  (exists result, snd (reviewCode config remote files rulesPrompt) = Return result)
  <-> exists response text v,
        Remote.generateContent remote = Return response
        /\ Response.text response = Return text
        /\ JSON_parse text = Some v
        /\ v <> JNull.
Proof.
  split.
  - intros [result H]. exact (reviewCode_returned _ _ _ _ H).
  - intros [response [text [v [H1 [H2 [H3 Hv]]]]]].
    destruct (@reviewCode_value config remote response files rulesPrompt text v
                H1 H2 H3 Hv) as [i [s [o [_ [_ [_ E]]]]]].
    rewrite E. eexists. reflexivity.
Qed.

(** X12. A response that is valid JSON but neither an object nor [null]
    (an array, a number, a string, a boolean) is accepted without
    warning: the result has no issue, the placeholder summary and the
    score 0. *)
Theorem reviewCode_non_object (config : ReviewConfig.t) (remote : Remote.t)
    (response : Response.t) (files : list FileToReview.t) (rulesPrompt text : string)
    (v : json) :
  Remote.generateContent remote = Return response ->
  Response.text response = Return text ->
  JSON_parse text = Some v ->
  v <> JNull ->
  (forall fields, v <> JObj fields) ->
  exists result,
    reviewCode config remote files rulesPrompt = (preamble config remote, Return result)
    /\ ReviewResult.issues result = JArr []
    /\ ReviewResult.summary result = JStr "No summary provided"
    /\ ReviewResult.overallScore result = JNum 0 0.
Proof.
  intros H1 H2 H3 Hnull Hobj.
  destruct (@reviewCode_value config remote response files rulesPrompt text v
              H1 H2 H3 Hnull) as [i [s [o [Hi [Hs [Ho E]]]]]].
  rewrite E. eexists. split; [reflexivity|].
  destruct v; try (now elim Hnull); try (now elim (Hobj fields));
    cbn in Hi, Hs, Ho; injection Hi as <-; injection Hs as <-; injection Ho as <-;
    repeat split.
Qed.

Lemma reviewCode_non_object_witness :
  exists result,
    snd (reviewCode sampleConfig (answering "[1, 2, 3]") sampleFiles "") = Return result
    /\ ReviewResult.issues result = JArr []
    /\ ReviewResult.summary result = JStr "No summary provided".
Proof.
  destruct (@reviewCode_non_object sampleConfig (answering "[1, 2, 3]")
              {| Response.text := Return "[1, 2, 3]"; Response.parts := None |}
              sampleFiles "" "[1, 2, 3]" (JArr [JNum 1 0; JNum 2 0; JNum 3 0])
              eq_refl eq_refl eq_refl)
    as [result [E [Hi [Hs _]]]]; try discriminate.
  exists result. rewrite E. repeat split; assumption.
Defined.

Lemma or_else_truthy (v : option json) (d : json) :
  truthy (Some d) = true -> truthy (Some (or_else v d)) = true.
Proof.
  intros Hd. destruct v as [x|]; cbn [or_else]; [|exact Hd].
  destruct (truthy (Some x)) eqn:E; [exact E | exact Hd].
Qed.

Lemma or_else_cases (v : option json) (d : json) :
  or_else v d = d \/ (v = Some (or_else v d) /\ truthy v = true).
Proof.
  destruct v as [x|]; cbn [or_else]; [|now left].
  destruct (truthy (Some x)) eqn:E; [right; now split | now left].
Qed.

Lemma countLines_at_least (files : list FileToReview.t) :
  List.length files <= countLines files.
Proof.
  rewrite countLines_sum. induction files as [|f files IH].
  - reflexivity.
  - cbn [List.length map]. change (list_sum (?x :: ?l)) with (x + list_sum l).
    unfold lineCount at 1. lia.
Qed.

(** X13. In every result that [reviewCode] returns, [issues] and
    [summary] are truthy values (never [null], [false], 0 or the empty
    string), [overallScore] is truthy or the number 0, there is one
    reviewed path per input file, and every file counts for at least one
    line, an empty file included. *)
Theorem reviewCode_result_invariants (config : ReviewConfig.t) (remote : Remote.t)
    (files : list FileToReview.t) (rulesPrompt : string) (result : ReviewResult.t) :
  snd (reviewCode config remote files rulesPrompt) = Return result ->
  truthy (Some (ReviewResult.issues result)) = true
  /\ truthy (Some (ReviewResult.summary result)) = true
  /\ (ReviewResult.overallScore result = JNum 0 0
      \/ truthy (Some (ReviewResult.overallScore result)) = true)
  /\ List.length (ReviewResult.filesReviewed result) = List.length files
  /\ List.length files <= ReviewResult.totalLines result.
Proof.
  intros H.
  destruct (reviewCode_returned _ _ _ _ H) as [response [text [v [H1 [H2 [H3 Hv]]]]]].
  destruct (@reviewCode_value config remote response files rulesPrompt text v
              H1 H2 H3 Hv) as [i [s [o [_ [_ [_ E]]]]]].
  rewrite E in H. cbn [snd] in H. injection H as <-.
  cbn [ReviewResult.issues ReviewResult.summary ReviewResult.overallScore
       ReviewResult.filesReviewed ReviewResult.totalLines].
  split; [now apply or_else_truthy|].
  split; [now apply or_else_truthy|].
  split.
  - destruct (or_else_cases o (JNum 0 0)) as [->|[Ho Ht]]; [now left|].
    right. now rewrite <- Ho.
  - split; [apply length_map | apply countLines_at_least].
Qed.

(** A response whose [summary] is the empty string and whose [issues]
    are [null]. *)
Lemma reviewCode_result_invariants_witness :
  exists result,
    snd (reviewCode sampleConfig
           (answering (dq "{'issues': null, 'summary': '', 'overallScore': 0}"))
           sampleFiles "") = Return result
    /\ truthy (Some (ReviewResult.summary result)) = true
    /\ List.length sampleFiles <= ReviewResult.totalLines result.
Proof.
  eexists. split; [vm_compute; reflexivity|].
  match goal with
  | |- context [ReviewResult.summary ?r] =>
      destruct (@reviewCode_result_invariants sampleConfig
                  (answering (dq "{'issues': null, 'summary': '', 'overallScore': 0}"))
                  sampleFiles "" r) as [_ [Hs [_ [_ Hl]]]]; [vm_compute; reflexivity|]
  end.
  split; assumption.
Defined.

(* ================================================================== *)
(** * Facts on the report *)
(* ================================================================== *)

Lemma andThen_returns {A B} (m : report A) (k : A -> report B) (a : A) :
  snd m = Return a -> andThen m k = ((fst m ++ fst (k a))%list, snd (k a)).
Proof.
  destruct m as [out o]. cbn [snd fst]. intros ->. cbn [andThen].
  now destruct (k a).
Qed.

Lemma andThen_throws {A B} (m : report A) (k : A -> report B) (e : thrown) :
  snd m = Throw e -> andThen m k = (fst m, Throw e).
Proof. destruct m as [out o]. cbn [snd fst]. now intros ->. Qed.

Lemma filterM_pure (test : json -> outcome bool) (t : json -> bool) (items : list json) :
  (forall i, i <> JNull -> test i = Return (t i)) ->
  Forall (fun i => i <> JNull) items ->
  filterM test items = Return (filter t items).
Proof.
  intros Ht. induction 1 as [|i items Hi _ IH]; cbn [filterM filter].
  - reflexivity.
  - rewrite (Ht i Hi), IH. reflexivity.
Qed.

Lemma hasRuleId_test (i : json) : i <> JNull -> hasRuleId i = Return (ruleIdTest i).
Proof. destruct i; intros H; try reflexivity. now elim H. Qed.

Lemma lacksRuleId_test (i : json) :
  i <> JNull -> lacksRuleId i = Return (negb (ruleIdTest i)).
Proof. destruct i; intros H; try reflexivity. now elim H. Qed.

Lemma filter_not_null (t : json -> bool) (items : list json) :
  Forall (fun i => i <> JNull) items -> Forall (fun i => i <> JNull) (filter t items).
Proof.
  rewrite !Forall_forall. intros H i Hin. apply filter_In in Hin. now apply H.
Qed.

Lemma filterM_null (severity : string) (items : list json) :
  Exists (fun i => i = JNull) items ->
  filterM (severityIs severity) items
  = Throw (EngineError "Cannot read properties of null (reading 'severity')").
Proof.
  induction items as [|i items IH]; intros H; [inversion H|].
  cbn [filterM]. destruct i;
    try (cbn; rewrite IH; [reflexivity | inversion H; subst; [discriminate | assumption]]).
  reflexivity.
Qed.

Lemma not_null_or_null (items : list json) :
  Forall (fun i => i <> JNull) items \/ Exists (fun i => i = JNull) items.
Proof.
  induction items as [|i items [IH|IH]].
  - left. constructor.
  - destruct i; try (left; constructor; [discriminate | assumption]).
    right. now left.
  - right. now right.
Qed.

(** ** The conversions *)

(** A value that does not convert is an object or an array, hence
    truthy. *)
Lemma unconvertible_truthy (v : option json) : converts v = false -> truthy v = true.
Proof.
  destruct v as [[| | | | |]|]; cbn [converts convertible truthy]; intros H;
    try discriminate H; reflexivity.
Qed.

Lemma falsy_converts (v : option json) : truthy v = false -> converts v = true.
Proof.
  intros H. destruct (converts v) eqn:E; [reflexivity|].
  apply unconvertible_truthy in E. congruence.
Qed.

(** One step through the body of [printIssue]: the tests on the values
    read, in the order of the source. *)
Ltac issue_step :=
  cbn [member reading andThen emit nothing app fst snd];
  match goal with
  | |- context [if truthy ?v then _ else _] =>
      let T := fresh "T" in
      destruct (truthy v) eqn:T; [|rewrite ?(falsy_converts _ T)]
  | |- context [if converts ?v then _ else _] =>
      let C := fresh "C" in destruct (converts v) eqn:C
  end.

(** [printIssue] on an issue that is not [null] returns exactly when the
    issue is printable. *)
Lemma printIssue_outcome (issue : json) (isAiDiscovery : bool) :
  issue <> JNull ->
  snd (printIssue issue isAiDiscovery)
  = if printable issue then Return tt
    else Throw (EngineError "Cannot convert object to primitive value").
Proof.
  intros Hnn.
  destruct issue as [| | | | |fields]; try (now elim Hnn);
    try (destruct isAiDiscovery; reflexivity).
  unfold printIssue, printable, toPrimitive.
  repeat issue_step; cbn [andb]; try reflexivity;
    destruct isAiDiscovery; reflexivity.
Qed.

(** The block of a printable issue: one title, one separator, one marker
    at most. *)
Lemma printIssue_block (issue : json) (isAiDiscovery : bool) :
  issue <> JNull ->
  printable issue = true ->
  titlesOf (fst (printIssue issue isAiDiscovery)) = [titleOf issue]
  /\ separatorsOf (fst (printIssue issue isAiDiscovery)) = [Separator]
  /\ markersOf (fst (printIssue issue isAiDiscovery)) = markerOf issue isAiDiscovery.
Proof.
  intros Hnn Hp. unfold markerOf, ruleIdTest, ruleIdOf, titleOf.
  destruct issue as [| | | | |fields]; try (now elim Hnn);
    try (destruct isAiDiscovery; cbn; repeat split; reflexivity).
  unfold printable in Hp. rewrite !andb_true_iff in Hp.
  destruct Hp as [[[[[Hfile Hline] Htitle] Hreasoning] Hsuggestion] HruleId].
  unfold printIssue, toPrimitive.
  repeat issue_step; try congruence;
    destruct isAiDiscovery; cbn; repeat split; reflexivity.
Qed.

Lemma printIssue_returns (issue : json) (isAiDiscovery : bool) :
  issue <> JNull ->
  (snd (printIssue issue isAiDiscovery) = Return tt <-> printable issue = true).
Proof.
  intros Hnn. rewrite (printIssue_outcome isAiDiscovery Hnn).
  destruct (printable issue); split; intros H; try reflexivity; discriminate H.
Qed.

(** ** Loops *)

Lemma forEach_returns {A : Type} (g : A -> report unit) (xs : list A) :
  snd (forEach g xs) = Return tt <-> Forall (fun x => snd (g x) = Return tt) xs.
Proof.
  induction xs as [|x xs IH]; cbn [forEach].
  - split; [constructor | reflexivity].
  - destruct (g x) as [out [[]|e]] eqn:E.
    + rewrite (@andThen_returns _ _ (out, Return tt) (fun _ => forEach g xs) tt eq_refl).
      cbn [snd]. rewrite IH. split.
      * intros H. constructor; [now rewrite E | exact H].
      * intros H. now inversion H.
    + cbn [andThen snd]. split; [discriminate|].
      intros H. inversion H as [|? ? Hx _]; subst. rewrite E in Hx. discriminate Hx.
Qed.

Lemma forEach_reading {A B : Type} (g : A -> report unit) (f : ReportLine -> list B)
    (h : A -> list B) (xs : list A) :
  (forall x, In x xs -> snd (g x) = Return tt /\ flat_map f (fst (g x)) = h x) ->
  snd (forEach g xs) = Return tt
  /\ flat_map f (fst (forEach g xs)) = flat_map h xs.
Proof.
  induction xs as [|x xs IH]; intros H.
  - split; reflexivity.
  - destruct (H x (or_introl eq_refl)) as [Hs Hf].
    destruct IH as [IHs IHf]; [intros y Hy; apply H; now right|].
    cbn [forEach].
    rewrite (@andThen_returns _ _ (g x) (fun _ => forEach g xs) tt Hs). cbn [fst snd].
    split; [exact IHs|].
    rewrite flat_map_app, Hf, IHf. reflexivity.
Qed.

(** The loop over the severities returns exactly when every issue of
    every bucket is printed. *)
Lemma printGroups_returns (grouped : Buckets.t) (isAiDiscovery : bool) :
  snd (printGroups grouped isAiDiscovery) = Return tt
  <-> Forall (fun i => snd (printIssue i isAiDiscovery) = Return tt)
        (flat_map (bucketOf grouped) severityOrder).
Proof.
  unfold printGroups. rewrite forEach_returns.
  induction severityOrder as [|severity rest IH]; cbn [flat_map].
  - split; constructor.
  - rewrite Forall_app, <- IH. clear IH.
    assert (E : snd (if Nat.eqb (List.length (bucketOf grouped severity)) 0 then nothing
                     else emit (SeverityHeader severity
                                  (List.length (bucketOf grouped severity))) ~~
                          emit BlankLine ~~
                          forEach (fun issue => printIssue issue isAiDiscovery)
                            (bucketOf grouped severity)) = Return tt
                <-> Forall (fun i => snd (printIssue i isAiDiscovery) = Return tt)
                      (bucketOf grouped severity)).
    { destruct (bucketOf grouped severity) as [|i more].
      - split; [constructor | reflexivity].
      - cbn [List.length Nat.eqb emit andThen].
        rewrite <- forEach_returns.
        destruct (forEach (fun issue => printIssue issue isAiDiscovery) (i :: more))
          as [out o]. reflexivity. }
    split.
    + intros H. inversion H as [|? ? Hx Hrest]; subst. split; [now apply E | exact Hrest].
    + intros [Hx Hrest]. constructor; [now apply E | exact Hrest].
Qed.

Lemma printGroups_reading {B : Type} (f : ReportLine -> list B) (grouped : Buckets.t)
    (isAiDiscovery : bool) :
  blockReading f ->
  (forall severity,
     Forall (fun i => i <> JNull /\ printable i = true) (bucketOf grouped severity)) ->
  flat_map f (fst (printGroups grouped isAiDiscovery))
  = flat_map (fun severity =>
                flat_map (fun i => flat_map f (fst (printIssue i isAiDiscovery)))
                         (bucketOf grouped severity))
             severityOrder.
Proof.
  intros [Hblank [_ [_ [_ [_ [_ [_ [Hheader _]]]]]]]] Hok.
  unfold printGroups. apply forEach_reading. intros severity _.
  destruct (bucketOf grouped severity) as [|i rest] eqn:E.
  - split; reflexivity.
  - cbn [List.length Nat.eqb].
    destruct (@forEach_reading json B (fun issue => printIssue issue isAiDiscovery) f
                (fun i => flat_map f (fst (printIssue i isAiDiscovery))) (i :: rest))
      as [Hs Hf].
    { intros x Hx. split; [|reflexivity].
      specialize (Hok severity). rewrite E in Hok.
      rewrite Forall_forall in Hok. destruct (Hok x Hx) as [Hnn Hp].
      now apply printIssue_returns. }
    cbn [emit andThen app].
    destruct (forEach (fun issue => printIssue issue isAiDiscovery) (i :: rest))
      as [out o].
    cbn [fst snd] in *. subst o. split; [reflexivity|].
    cbn [flat_map]. rewrite Hheader, Hblank. exact Hf.
Qed.

Lemma bySeverity_buckets (group : list json) :
  flat_map
    (bucketOf {| Buckets.critical := filter (severityTest "critical") group;
                 Buckets.high := filter (severityTest "high") group;
                 Buckets.medium := filter (severityTest "medium") group;
                 Buckets.low := filter (severityTest "low") group |})
    severityOrder
  = bySeverity group.
Proof. reflexivity. Qed.

(** The part of the report for one group of issues returns exactly when
    every issue it shows is printable. *)
Lemma groupReport_returns (group : list json) (isAiDiscovery : bool) (notice : string) :
  Forall (fun i => i <> JNull) group ->
  (snd (groupReport group isAiDiscovery notice) = Return tt
   <-> Forall (fun i => printable i = true) (bySeverity group)).
Proof.
  intros Hnn. unfold groupReport.
  destruct group as [|i rest] eqn:E.
  - split; [constructor | reflexivity].
  - rewrite <- E in *. replace (Nat.ltb 0 (List.length group)) with true
      by (subst group; reflexivity).
    rewrite groupBySeverity_filters by assumption. cbn [reading andThen].
    assert (S : forall (m : report unit),
               snd (let (out', r) := m in (out', r)) = snd m)
      by (now intros [? ?]).
    cbn [app]. rewrite S. clear S.
    rewrite printGroups_returns, bySeverity_buckets.
    rewrite !Forall_forall. split; intros H x Hx.
    + apply (@printIssue_returns x isAiDiscovery).
      * rewrite Forall_forall in Hnn. unfold bySeverity in Hx.
        apply in_flat_map in Hx. destruct Hx as [s [_ Hx]].
        apply filter_In in Hx. now apply Hnn.
      * now apply H.
    + apply printIssue_returns; [|now apply H].
      rewrite Forall_forall in Hnn. unfold bySeverity in Hx.
      apply in_flat_map in Hx. destruct Hx as [s [_ Hx]].
      apply filter_In in Hx. now apply Hnn.
Qed.

Lemma groupReport_reading {B : Type} (f : ReportLine -> list B) (group : list json)
    (isAiDiscovery : bool) (notice : string) :
  blockReading f ->
  Forall (fun i => i <> JNull) group ->
  Forall (fun i => printable i = true) (bySeverity group) ->
  flat_map f (fst (groupReport group isAiDiscovery notice))
  = flat_map (fun i => flat_map f (fst (printIssue i isAiDiscovery)))
             (bySeverity group).
Proof.
  intros Hf Hnn Hp. unfold groupReport.
  destruct group as [|i rest] eqn:E.
  - destruct Hf as [Hblank [_ [_ [_ [Hnotice _]]]]].
    cbn. rewrite Hnotice, Hblank. reflexivity.
  - rewrite <- E in *. replace (Nat.ltb 0 (List.length group)) with true
      by (subst group; reflexivity).
    rewrite groupBySeverity_filters by assumption. cbn [reading andThen].
    pose proof (@printGroups_reading B f
                {| Buckets.critical := filter (severityTest "critical") group;
                   Buckets.high := filter (severityTest "high") group;
                   Buckets.medium := filter (severityTest "medium") group;
                   Buckets.low := filter (severityTest "low") group |}
                isAiDiscovery Hf) as Hr.
    destruct (printGroups _ isAiDiscovery) as [out o]. cbn [fst snd app] in *.
    rewrite Hr.
    + unfold bySeverity, severityOrder.
      cbn [flat_map]. rewrite !flat_map_app. cbn [app]. reflexivity.
    + intros severity. apply Forall_forall. intros x Hx.
      assert (Hin : In x (bySeverity group) \/ False).
      { unfold bucketOf in Hx. unfold bySeverity, severityOrder. cbn [flat_map].
        rewrite !in_app_iff.
        repeat match type of Hx with context [String.eqb severity ?s] =>
                 destruct (String.eqb severity s) end; cbn in Hx; tauto. }
      destruct Hin as [Hin|[]]. split.
      * rewrite Forall_forall in Hnn. unfold bySeverity in Hin.
        apply in_flat_map in Hin. destruct Hin as [s [_ Hin]].
        apply filter_In in Hin. now apply Hnn.
      * rewrite Forall_forall in Hp. now apply Hp.
Qed.

(** ** The whole report *)

(** The report of a result whose score and summary convert and whose
    issues are an array without [null]: the head, then the two groups,
    as far as their issues are printable. *)
Lemma printResults_shape (result : ReviewResult.t) (items : list json) :
  convertible (ReviewResult.overallScore result) = true ->
  convertible (ReviewResult.summary result) = true ->
  ReviewResult.issues result = JArr items ->
  Forall (fun i => i <> JNull) items ->
  let aiDiscoveries := filter (fun i => negb (ruleIdTest i)) items in
  let g1 := groupReport (filter ruleIdTest items) false "No rule violations found" in
  let g2 := groupReport aiDiscoveries true "No additional issues discovered" in
  printResults result =
    match snd g1 with
    | Throw e => ((reportHead result items ++ fst g1)%list, Throw e)
    | Return _ =>
        match snd g2 with
        | Throw e =>
            ((reportHead result items ++ fst g1
                ++ [Tally "✨ AI Insights" (List.length aiDiscoveries); BlankLine]
                ++ fst g2)%list,
             Throw e)
        | Return _ =>
            ((reportHead result items ++ fst g1
                ++ [Tally "✨ AI Insights" (List.length aiDiscoveries); BlankLine]
                ++ fst g2 ++ [Footer; BlankLine])%list,
             Return tt)
        end
    end.
Proof.
  intros Hscore Hsummary Hissues Hnn aiDiscoveries g1 g2.
  unfold printResults, toPrimitive. cbn [converts].
  rewrite Hscore, Hsummary, Hissues.
  cbn [issuesLength arrayOf reading andThen emit].
  rewrite !filterM_filter by assumption.
  cbn [andThen].
  rewrite (@filterM_pure hasRuleId ruleIdTest items hasRuleId_test Hnn).
  cbn [andThen].
  rewrite (@filterM_pure lacksRuleId (fun i => negb (ruleIdTest i)) items
             lacksRuleId_test Hnn).
  cbn [andThen].
  fold aiDiscoveries.
  change (if Nat.ltb 0 (List.length (filter ruleIdTest items)) then _ else _) with g1.
  change (if Nat.ltb 0 (List.length aiDiscoveries) then _ else _) with g2.
  destruct g1 as [l1 [[]|e1]]; destruct g2 as [l2 [[]|e2]];
    unfold reportHead, summaryLines;
    destruct (truthy (Some (ReviewResult.summary result)));
    cbn [andThen emit nothing reading app fst snd opening];
    rewrite <- ?app_assoc; reflexivity.
Qed.

Lemma printResults_score_throws (result : ReviewResult.t) :
  convertible (ReviewResult.overallScore result) = false ->
  printResults result
  = (opening, Throw (EngineError "Cannot convert object to primitive value")).
Proof.
  intros H. unfold printResults, toPrimitive. cbn [converts]. rewrite H. reflexivity.
Qed.

Lemma printResults_throws (result : ReviewResult.t) :
  (forall items, ReviewResult.issues result = JArr items ->
                 Exists (fun i => i = JNull) items) ->
  exists e, printResults result = (opening, Throw e).
Proof.
  intros H.
  destruct (convertible (ReviewResult.overallScore result)) eqn:Hscore;
    [|eexists; now apply printResults_score_throws].
  unfold printResults, toPrimitive. cbn [converts]. rewrite Hscore.
  destruct (ReviewResult.issues result) as [| | | |items|] eqn:E;
    try (eexists; reflexivity).
  specialize (H items eq_refl). cbn [issuesLength arrayOf reading andThen emit].
  rewrite (filterM_null "critical" H). eexists. reflexivity.
Qed.

Lemma printResults_summary_throws (result : ReviewResult.t) (items : list json) :
  convertible (ReviewResult.overallScore result) = true ->
  convertible (ReviewResult.summary result) = false ->
  ReviewResult.issues result = JArr items ->
  Forall (fun i => i <> JNull) items ->
  exists e,
    printResults result
    = ((opening
          ++ [ ResultsTable (ReviewResult.overallScore result)
                 (List.length (ReviewResult.filesReviewed result)) (List.length items);
               BlankLine; Heading "Summary" ])%list,
       Throw e).
Proof.
  intros Hscore Hsummary Hissues Hnn.
  unfold printResults, toPrimitive. cbn [converts].
  rewrite Hscore, Hsummary, Hissues.
  rewrite (@unconvertible_truthy (Some (ReviewResult.summary result)) Hsummary).
  cbn [issuesLength arrayOf reading andThen emit].
  rewrite !filterM_filter by assumption.
  eexists. reflexivity.
Qed.

Lemma printResults_issues_cases (result : ReviewResult.t) :
  (exists items, ReviewResult.issues result = JArr items
                 /\ Forall (fun i => i <> JNull) items)
  \/ (forall items, ReviewResult.issues result = JArr items ->
                    Exists (fun i => i = JNull) items).
Proof.
  destruct (ReviewResult.issues result) as [| | | |items|] eqn:E;
    try (right; intros items' H; discriminate H).
  destruct (not_null_or_null items) as [H|H].
  - left. now exists items.
  - right. intros items' H'. injection H' as <-. exact H.
Qed.

(** When [printResults] returns. *)
Lemma printResults_returns (result : ReviewResult.t) :
  snd (printResults result) = Return tt
  <-> convertible (ReviewResult.overallScore result) = true
      /\ convertible (ReviewResult.summary result) = true
      /\ exists items,
           ReviewResult.issues result = JArr items
           /\ Forall (fun i => i <> JNull) items
           /\ Forall (fun i => printable i = true) (shownIssues items).
Proof.
  split.
  - intros Hret.
    destruct (convertible (ReviewResult.overallScore result)) eqn:Hscore;
      [|rewrite (printResults_score_throws result Hscore) in Hret; discriminate Hret].
    destruct (printResults_issues_cases result) as [[items [Hissues Hnn]]|Hbad];
      [|destruct (printResults_throws result Hbad) as [e He];
        rewrite He in Hret; discriminate Hret].
    destruct (convertible (ReviewResult.summary result)) eqn:Hsummary;
      [|destruct (printResults_summary_throws result Hscore Hsummary Hissues Hnn)
          as [e He]; rewrite He in Hret; discriminate Hret].
    split; [reflexivity|]. split; [reflexivity|].
    exists items. split; [exact Hissues|]. split; [exact Hnn|].
    rewrite (printResults_shape result Hscore Hsummary Hissues Hnn) in Hret.
    unfold shownIssues. apply Forall_app.
    destruct (snd (groupReport (filter ruleIdTest items) false _)) as [[]|e1] eqn:E1;
      [|discriminate Hret].
    destruct (snd (groupReport (filter (fun i => negb (ruleIdTest i)) items) true _))
      as [[]|e2] eqn:E2; [|discriminate Hret].
    split.
    + apply (groupReport_returns false "No rule violations found"
               (filter_not_null ruleIdTest Hnn)). exact E1.
    + apply (groupReport_returns true "No additional issues discovered"
               (filter_not_null (fun i => negb (ruleIdTest i)) Hnn)). exact E2.
  - intros [Hscore [Hsummary [items [Hissues [Hnn Hp]]]]].
    rewrite (printResults_shape result Hscore Hsummary Hissues Hnn).
    unfold shownIssues in Hp. apply Forall_app in Hp. destruct Hp as [Hp1 Hp2].
    apply (groupReport_returns false "No rule violations found"
             (filter_not_null ruleIdTest Hnn)) in Hp1.
    apply (groupReport_returns true "No additional issues discovered"
             (filter_not_null (fun i => negb (ruleIdTest i)) Hnn)) in Hp2.
    rewrite Hp1, Hp2. reflexivity.
Qed.

(** X14. [printResults] completes exactly when the score and the summary
    of the result convert to a string, its issues are an array without
    [null] element, and every issue that gets a block is printable.  When
    the score does not convert, or the issues are not such an array, it
    throws right after the opening lines, before the results table. *)
Theorem printResults_completes_iff (result : ReviewResult.t) :
  (snd (printResults result) = Return tt
   <-> convertible (ReviewResult.overallScore result) = true
       /\ convertible (ReviewResult.summary result) = true
       /\ exists items,
            ReviewResult.issues result = JArr items
            /\ Forall (fun i => i <> JNull) items
            /\ Forall (fun i => printable i = true) (shownIssues items))
  /\ (convertible (ReviewResult.overallScore result) = false
      \/ (forall items, ReviewResult.issues result = JArr items ->
                        Exists (fun i => i = JNull) items) ->
      exists e, printResults result = (opening, Throw e)).
Proof.
  split; [apply printResults_returns|].
  intros [Hscore|Hbad].
  - eexists. now apply printResults_score_throws.
  - now apply printResults_throws.
Qed.

(** A result whose one issue has a title that does not convert: the
    report stops in the block of that issue. *)
Lemma printResults_completes_iff_witness :
  snd (printResults (resultWith [issueOf "low"])) = Return tt
  /\ snd (printResults (resultWith [unprintableIssue])) <> Return tt
  /\ exists e,
       printResults
         {| ReviewResult.issues := JNull;
            ReviewResult.summary := JStr "s";
            ReviewResult.overallScore := JNum 50 0;
            ReviewResult.thinkingTrace := None;
            ReviewResult.filesReviewed := [];
            ReviewResult.totalLines := 0 |}
       = (opening, Throw e).
Proof.
  split; [|split].
  - apply (proj1 (printResults_completes_iff (resultWith [issueOf "low"]))).
    split; [reflexivity|]. split; [reflexivity|].
    exists [issueOf "low"]. split; [reflexivity|].
    split; repeat constructor. discriminate.
  - intros H.
    apply (proj1 (printResults_completes_iff (resultWith [unprintableIssue]))) in H.
    destruct H as [_ [_ [items [Hissues [_ Hp]]]]].
    injection Hissues as <-. inversion Hp as [|? ? Hx _]. discriminate Hx.
  - apply printResults_completes_iff. right. intros items H. discriminate H.
Defined.

Lemma filter_split_length {A : Type} (p : A -> bool) (l : list A) :
  List.length (filter p l) + List.length (filter (fun x => negb (p x)) l) = List.length l.
Proof.
  induction l as [|x l IH]; cbn [filter List.length]; [reflexivity|].
  destruct (p x); cbn [negb List.length]; lia.
Qed.

Lemma printResults_head (result : ReviewResult.t) (items : list json) :
  convertible (ReviewResult.overallScore result) = true ->
  convertible (ReviewResult.summary result) = true ->
  ReviewResult.issues result = JArr items ->
  Forall (fun i => i <> JNull) items ->
  exists rest, fst (printResults result) = (reportHead result items ++ rest)%list.
Proof.
  intros Hscore Hsummary Hissues Hnn.
  rewrite (printResults_shape result Hscore Hsummary Hissues Hnn).
  destruct (snd (groupReport (filter ruleIdTest items) false _)) as [[]|e1];
    [destruct (snd (groupReport (filter (fun i => negb (ruleIdTest i)) items) true _))
       as [[]|e2]|];
    eexists; reflexivity.
Qed.

(** X15. When the score and the summary of a result convert to a string
    and its issues are an array of N elements without [null], the report
    shows the results table and the line [Issues Found] with N, and the
    two tallies, of the issues with a rule id and of the others, which
    sum to N: an issue whose [ruleId] is missing, [null], empty or zero
    counts as an AI insight.  These lines are shown even when a block
    further down cannot be printed. *)
Theorem printResults_tallies (result : ReviewResult.t) (items : list json) :
  convertible (ReviewResult.overallScore result) = true ->
  convertible (ReviewResult.summary result) = true ->
  ReviewResult.issues result = JArr items ->
  Forall (fun i => i <> JNull) items ->
  let lines := fst (printResults result) in
  let fromRules := List.length (filter ruleIdTest items) in
  let insights := List.length (filter (fun i => negb (ruleIdTest i)) items) in
  In (ResultsTable (ReviewResult.overallScore result)
        (List.length (ReviewResult.filesReviewed result)) (List.length items)) lines
  /\ In (Tally "📊 Issues Found" (List.length items)) lines
  /\ In (Tally "🔖 From Team Rules" fromRules) lines
  /\ In (Tally "✨ AI Insights:" insights) lines
  /\ fromRules + insights = List.length items.
Proof.
  intros Hscore Hsummary Hissues Hnn. cbn zeta.
  destruct (printResults_head result Hscore Hsummary Hissues Hnn) as [rest ->].
  assert (Hin : forall l, In l (reportHead result items) ->
                          In l (reportHead result items ++ rest)%list)
    by (intros l H; apply in_or_app; now left).
  unfold reportHead in Hin |- *.
  split; [|split; [|split; [|split]]].
  - apply Hin. apply in_or_app. right. now left.
  - apply Hin. do 3 (apply in_or_app; right). now left.
  - apply Hin. do 3 (apply in_or_app; right). right. right. now left.
  - apply Hin. do 3 (apply in_or_app; right). do 3 right. now left.
  - apply filter_split_length.
Qed.

(** Among the five issues of [mixedIssues] two have a rule id; the one
    with [ruleId: null] and the string count as AI insights. *)
Lemma printResults_tallies_witness :
  In (Tally "🔖 From Team Rules" 2) (fst (printResults (resultWith mixedIssues)))
  /\ In (Tally "✨ AI Insights:" 3) (fst (printResults (resultWith mixedIssues))).
Proof.
  assert (Hnn : Forall (fun i => i <> JNull) mixedIssues)
    by (repeat constructor; discriminate).
  destruct (@printResults_tallies (resultWith mixedIssues) mixedIssues
              eq_refl eq_refl eq_refl Hnn)
    as [_ [_ [H1 [H2 _]]]].
  split; [exact H1 | exact H2].
Defined.

Lemma flat_map_ext_in {A B : Type} (f g : A -> list B) (l : list A) :
  (forall x, In x l -> f x = g x) -> flat_map f l = flat_map g l.
Proof.
  induction l as [|x l IH]; intros H; cbn [flat_map]; [reflexivity|].
  rewrite (H x (or_introl eq_refl)), IH; [reflexivity|].
  intros y Hy. apply H. now right.
Qed.

Lemma flat_map_single {A B : Type} (g : A -> B) (l : list A) :
  flat_map (fun x => [g x]) l = map g l.
Proof. induction l as [|x l IH]; cbn; [reflexivity | now rewrite IH]. Qed.

Lemma bySeverity_In (group : list json) (i : json) :
  In i (bySeverity group) -> In i group /\ knownTest i = true.
Proof.
  unfold bySeverity, severityOrder, knownTest. cbn [flat_map].
  rewrite !in_app_iff, !filter_In. intros H.
  repeat match goal with H : _ \/ _ |- _ => destruct H as [H|H] end;
    try contradiction; destruct H as [Hin Ht]; rewrite Ht;
    split; try assumption; rewrite ?orb_true_r; reflexivity.
Qed.

(** What a reading of block lines finds in a report that completes. *)
Lemma printResults_reading {B : Type} (f : ReportLine -> list B)
    (result : ReviewResult.t) (items : list json) :
  blockReading f ->
  ReviewResult.issues result = JArr items ->
  snd (printResults result) = Return tt ->
  flat_map f (fst (printResults result))
  = (flat_map (fun i => flat_map f (fst (printIssue i false)))
       (bySeverity (filter ruleIdTest items))
     ++ flat_map (fun i => flat_map f (fst (printIssue i true)))
          (bySeverity (filter (fun i => negb (ruleIdTest i)) items)))%list.
Proof.
  intros Hf Hissues Hret.
  apply printResults_returns in Hret.
  destruct Hret as [Hscore [Hsummary [items' [Hissues' [Hnn Hp]]]]].
  rewrite Hissues in Hissues'. injection Hissues' as <-.
  unfold shownIssues in Hp. apply Forall_app in Hp. destruct Hp as [Hp1 Hp2].
  rewrite (printResults_shape result Hscore Hsummary Hissues Hnn).
  rewrite (proj2 (groupReport_returns false "No rule violations found"
                    (filter_not_null ruleIdTest Hnn)) Hp1).
  rewrite (proj2 (groupReport_returns true "No additional issues discovered"
                    (filter_not_null (fun i => negb (ruleIdTest i)) Hnn)) Hp2).
  cbn [fst].
  pose proof (@groupReport_reading B f (filter ruleIdTest items) false
                "No rule violations found" Hf (filter_not_null _ Hnn) Hp1) as H1.
  pose proof (@groupReport_reading B f (filter (fun i => negb (ruleIdTest i)) items) true
                "No additional issues discovered" Hf (filter_not_null _ Hnn) Hp2) as H2.
  rewrite !flat_map_app, H1, H2.
  destruct Hf as [Hblank [Hframe [Hfooter [Hheading [Hnotice [Htable [Htally [_ Htext]]]]]]]].
  unfold reportHead, opening, summaryLines.
  destruct (truthy (Some (ReviewResult.summary result)));
    rewrite ?flat_map_app; cbn [flat_map];
    rewrite ?Hblank, ?Hframe, ?Hfooter, ?Hheading, ?Htable, ?Htally, ?Htext;
    cbn [app]; now rewrite app_nil_r.
Qed.

Lemma filter_exclusive_perm {A : Type} (p q : A -> bool) (l : list A) :
  (forall x, p x = true -> q x = false) ->
  Permutation (filter p l ++ filter q l) (filter (fun x => p x || q x) l).
Proof.
  intros Hex. induction l as [|x l IH]; cbn [filter]; [constructor|].
  destruct (p x) eqn:Hp.
  - rewrite (Hex x Hp). cbn [orb app]. now constructor.
  - cbn [orb]. destruct (q x).
    + apply Permutation_sym, Permutation_cons_app, Permutation_sym, IH.
    + exact IH.
Qed.

Lemma severityTest_exclusive (s1 s2 : string) (i : json) :
  s1 <> s2 -> severityTest s1 i = true -> severityTest s2 i = false.
Proof.
  intros Hne H1. destruct (severityTest s2 i) eqn:H2; [|reflexivity].
  apply severityTest_hasSeverity in H1, H2.
  elim Hne. exact (hasSeverity_unique H1 H2).
Qed.

Lemma bySeverity_perm (group : list json) :
  Permutation (bySeverity group) (filter knownTest group).
Proof.
  unfold bySeverity, severityOrder. cbn [flat_map]. rewrite app_nil_r.
  set (c := severityTest "critical"). set (h := severityTest "high").
  set (m := severityTest "medium"). set (w := severityTest "low").
  assert (Ex : forall s1 s2 i, s1 <> s2 -> severityTest s1 i = true ->
                                severityTest s2 i = false)
    by (intros; eapply severityTest_exclusive; eassumption).
  transitivity (filter c group ++ filter h group ++ filter (fun x => m x || w x) group)%list.
  { do 2 apply Permutation_app_head. apply filter_exclusive_perm.
    intros x. apply Ex. discriminate. }
  transitivity (filter c group ++ filter (fun x => h x || (m x || w x)) group)%list.
  { apply Permutation_app_head. apply filter_exclusive_perm.
    intros x Hx. unfold m, w.
    rewrite (Ex "high" "medium" x), (Ex "high" "low" x); try discriminate; auto. }
  transitivity (filter (fun x => c x || (h x || (m x || w x))) group).
  { apply filter_exclusive_perm. intros x Hx. unfold h, m, w.
    rewrite (Ex "critical" "high" x), (Ex "critical" "medium" x),
      (Ex "critical" "low" x); try discriminate; auto. }
  erewrite filter_ext; [reflexivity|].
  intros x. unfold knownTest. now rewrite !orb_assoc.
Qed.

Lemma filter_filter_swap {A : Type} (p q : A -> bool) (l : list A) :
  filter p (filter q l) = filter q (filter p l).
Proof.
  induction l as [|x l IH]; cbn [filter]; [reflexivity|].
  destruct (p x) eqn:Hp, (q x) eqn:Hq; cbn [filter]; rewrite ?Hp, ?Hq, IH; reflexivity.
Qed.

Lemma filter_split_perm {A : Type} (p : A -> bool) (l : list A) :
  Permutation (filter p l ++ filter (fun x => negb (p x)) l) l.
Proof.
  induction l as [|x l IH]; cbn [filter]; [constructor|].
  destruct (p x); cbn [negb app].
  - now constructor.
  - apply Permutation_sym, Permutation_cons_app, Permutation_sym, IH.
Qed.

Lemma shownIssues_perm (items : list json) :
  Permutation (shownIssues items) (filter knownTest items).
Proof.
  unfold shownIssues.
  transitivity (filter knownTest (filter ruleIdTest items)
                ++ filter knownTest (filter (fun i => negb (ruleIdTest i)) items))%list.
  { apply Permutation_app; apply bySeverity_perm. }
  rewrite (filter_filter_swap knownTest ruleIdTest),
    (filter_filter_swap knownTest (fun i => negb (ruleIdTest i))).
  apply filter_split_perm.
Qed.

Lemma titles_blockReading :
  blockReading (fun l => match l with Title t => [t] | _ => [] end).
Proof. unfold blockReading. repeat split. Qed.

Lemma separators_blockReading :
  blockReading (fun l => match l with Separator => [l] | _ => [] end).
Proof. unfold blockReading. repeat split. Qed.

Lemma markers_blockReading :
  blockReading (fun l => match l with RuleLine _ | AiInsight => [l] | _ => [] end).
Proof. unfold blockReading. repeat split. Qed.

(** The issues shown by a report that completes are not [null] and are
    printable. *)
Lemma shown_printable (result : ReviewResult.t) (items : list json) :
  ReviewResult.issues result = JArr items ->
  snd (printResults result) = Return tt ->
  forall i, In i (shownIssues items) -> i <> JNull /\ printable i = true.
Proof.
  intros Hissues Hret i Hi.
  apply printResults_returns in Hret.
  destruct Hret as [_ [_ [items' [Hissues' [Hnn Hp]]]]].
  rewrite Hissues in Hissues'. injection Hissues' as <-.
  rewrite Forall_forall in Hp. split; [|now apply Hp].
  rewrite Forall_forall in Hnn. apply Hnn.
  unfold shownIssues in Hi. apply in_app_or in Hi.
  destruct Hi as [Hi|Hi]; apply bySeverity_In in Hi; destruct Hi as [Hi _];
    apply filter_In in Hi; apply Hi.
Qed.

(** X16. A report that completes shows one block for each issue whose
    severity is [critical], [high], [medium] or [low], and none for any
    other issue, although the counts include it.  The blocks come in a
    fixed order: the issues with a rule id before the others, and in each
    group the critical ones first, then high, medium, low, issues of one
    severity in the order of the response. *)
Theorem printResults_blocks (result : ReviewResult.t) (items : list json) :
  ReviewResult.issues result = JArr items ->
  snd (printResults result) = Return tt ->
  let lines := fst (printResults result) in
  titlesOf lines = map titleOf (shownIssues items)
  /\ Permutation (shownIssues items) (filter knownTest items)
  /\ List.length (separatorsOf lines) = List.length (filter knownTest items).
Proof.
  intros Hissues Hret lines.
  pose proof (shown_printable result Hissues Hret) as Hshown.
  assert (Hblock : forall ai i, In i (shownIssues items) ->
             titlesOf (fst (printIssue i ai)) = [titleOf i]
             /\ separatorsOf (fst (printIssue i ai)) = [Separator]).
  { intros ai i Hi. destruct (Hshown i Hi) as [Hnn Hp].
    destruct (printIssue_block ai Hnn Hp) as [Ht [Hs _]]. now split. }
  split; [|split].
  - unfold lines, titlesOf.
    rewrite (@printResults_reading _ _ result items titles_blockReading Hissues Hret).
    unfold shownIssues. rewrite map_app, <- !flat_map_single.
    f_equal; apply flat_map_ext_in; intros i Hi; apply Hblock;
      unfold shownIssues; apply in_or_app; auto.
  - apply shownIssues_perm.
  - unfold lines, separatorsOf.
    rewrite (@printResults_reading _ _ result items separators_blockReading Hissues Hret).
    rewrite <- (Permutation_length (shownIssues_perm items)).
    unfold shownIssues. rewrite !length_app. f_equal.
    + rewrite (@flat_map_ext_in _ _ _ (fun _ => [Separator])).
      * rewrite flat_map_single. apply length_map.
      * intros i Hi. apply Hblock. unfold shownIssues. apply in_or_app. auto.
    + rewrite (@flat_map_ext_in _ _ _ (fun _ => [Separator])).
      * rewrite flat_map_single. apply length_map.
      * intros i Hi. apply Hblock. unfold shownIssues. apply in_or_app. auto.
Qed.

(** Five issues: two with a rule id, one of severity [info], one that is
    a string; the blocks are those of d, a and b. *)
Lemma printResults_blocks_witness :
  titlesOf (fst (printResults (resultWith mixedIssues)))
  = [Some (JStr "d"); Some (JStr "a"); Some (JStr "b")].
Proof.
  rewrite (proj1 (@printResults_blocks (resultWith mixedIssues) mixedIssues
                    eq_refl eq_refl)).
  reflexivity.
Defined.

(** X17. In a report that completes every block carries exactly one
    marker: the rule id for an issue that has one, the AI insight marker
    for any other issue. *)
Theorem printResults_markers (result : ReviewResult.t) (items : list json) :
  ReviewResult.issues result = JArr items ->
  snd (printResults result) = Return tt ->
  let lines := fst (printResults result) in
  markersOf lines
  = (map (fun i => RuleLine (ruleIdOf i)) (bySeverity (filter ruleIdTest items))
     ++ map (fun _ => AiInsight)
          (bySeverity (filter (fun i => negb (ruleIdTest i)) items)))%list
  /\ List.length (markersOf lines) = List.length (separatorsOf lines).
Proof.
  intros Hissues Hret lines.
  pose proof (shown_printable result Hissues Hret) as Hshown.
  assert (Hblock : forall ai i, In i (shownIssues items) ->
             separatorsOf (fst (printIssue i ai)) = [Separator]
             /\ markersOf (fst (printIssue i ai)) = markerOf i ai).
  { intros ai i Hi. destruct (Hshown i Hi) as [Hnn Hp].
    destruct (printIssue_block ai Hnn Hp) as [_ [Hs Hm]]. now split. }
  assert (E : markersOf lines
              = (map (fun i => RuleLine (ruleIdOf i)) (bySeverity (filter ruleIdTest items))
                 ++ map (fun _ => AiInsight)
                      (bySeverity (filter (fun i => negb (ruleIdTest i)) items)))%list).
  { unfold lines, markersOf.
    rewrite (@printResults_reading _ _ result items markers_blockReading Hissues Hret).
    rewrite <- !flat_map_single.
    f_equal; apply flat_map_ext_in; intros i Hi.
    - destruct (Hblock false i) as [_ Hm];
        [unfold shownIssues; apply in_or_app; auto|].
      unfold markersOf in Hm. rewrite Hm. unfold markerOf.
      apply bySeverity_In in Hi. destruct Hi as [Hi _].
      apply filter_In in Hi. destruct Hi as [_ ->]. reflexivity.
    - destruct (Hblock true i) as [_ Hm];
        [unfold shownIssues; apply in_or_app; auto|].
      unfold markersOf in Hm. rewrite Hm. unfold markerOf.
      apply bySeverity_In in Hi. destruct Hi as [Hi _].
      apply filter_In in Hi. destruct Hi as [_ Hi].
      apply negb_true_iff in Hi. now rewrite Hi. }
  split; [exact E|].
  rewrite E, length_app, !length_map.
  unfold lines, separatorsOf.
  rewrite (@printResults_reading _ _ result items separators_blockReading Hissues Hret).
  rewrite length_app. f_equal.
  - rewrite (@flat_map_ext_in _ _ _ (fun _ => [Separator])).
    + rewrite flat_map_single. symmetry. apply length_map.
    + intros i Hi. apply Hblock. unfold shownIssues. apply in_or_app. auto.
  - rewrite (@flat_map_ext_in _ _ _ (fun _ => [Separator])).
    + rewrite flat_map_single. symmetry. apply length_map.
    + intros i Hi. apply Hblock. unfold shownIssues. apply in_or_app. auto.
Qed.

Lemma printResults_markers_witness :
  markersOf (fst (printResults (resultWith mixedIssues)))
  = [RuleLine (Some (JStr "r2")); RuleLine (Some (JStr "r1")); AiInsight].
Proof.
  rewrite (proj1 (@printResults_markers (resultWith mixedIssues) mixedIssues
                    eq_refl eq_refl)).
  reflexivity.
Defined.

(* ================================================================== *)
(** * Facts on the command line *)
(* ================================================================== *)

Lemma string_of_list_ascii_app (a b : list ascii) :
  string_of_list_ascii (a ++ b) = string_of_list_ascii a ++ string_of_list_ascii b.
Proof. induction a as [|c a IH]; cbn; [reflexivity | now rewrite IH]. Qed.

Lemma split_from_length (sep : ascii) (s : string) :
  forall acc, List.length (split_from sep acc s) = S (count_char sep s).
Proof.
  induction s as [|c s IH]; intros acc; cbn [split_from count_char].
  - reflexivity.
  - destruct (Ascii.eqb c sep); cbn [List.length]; now rewrite IH.
Qed.

Lemma split_from_nonempty (sep : ascii) (s : string) :
  forall acc, split_from sep acc s <> [].
Proof.
  induction s as [|c s IH]; intros acc; cbn [split_from].
  - discriminate.
  - destruct (Ascii.eqb c sep); [discriminate | apply IH].
Qed.

Lemma split_from_joined (sep : ascii) (s : string) :
  forall acc,
    String.concat (String sep "") (split_from sep acc s)
    = string_of_list_ascii (rev acc) ++ s.
Proof.
  induction s as [|c s IH]; intros acc; cbn [split_from].
  - cbn [String.concat]. symmetry. apply append_empty_r.
  - destruct (Ascii.eqb c sep) eqn:E.
    + apply Ascii.eqb_eq in E. subst c.
      assert (Hcons : forall piece rest,
                 rest <> [] ->
                 String.concat (String sep "") (piece :: rest)
                 = piece ++ String sep "" ++ String.concat (String sep "") rest).
      { intros piece [|r rest] H; [now elim H | reflexivity]. }
      rewrite Hcons, IH.
      * reflexivity.
      * apply split_from_nonempty.
    + rewrite IH. cbn [rev]. rewrite string_of_list_ascii_app, append_assoc.
      reflexivity.
Qed.

Lemma split_from_lacks (sep : ascii) (s : string) :
  forall acc,
    ~ In sep acc ->
    Forall (lacksChar sep) (split_from sep acc s).
Proof.
  assert (Hpiece : forall acc, ~ In sep acc ->
                               lacksChar sep (string_of_list_ascii (rev acc))).
  { intros acc H. unfold lacksChar. rewrite list_ascii_of_string_of_list_ascii.
    intros Hin. apply in_rev in Hin. contradiction. }
  induction s as [|c s IH]; intros acc Hacc; cbn [split_from].
  - constructor; [now apply Hpiece | constructor].
  - destruct (Ascii.eqb c sep) eqn:E.
    + constructor; [now apply Hpiece|]. apply IH. intros [].
    + apply IH. intros [->|H]; [|contradiction].
      now rewrite Ascii.eqb_refl in E.
Qed.

Lemma trim_keeps_chars (c : ascii) (s : string) :
  lacksChar c s -> lacksChar c (trim s).
Proof.
  unfold lacksChar. intros H Hin.
  destruct (trim_spec s) as [pre [post [E _]]].
  apply H. rewrite E. apply in_or_app. right. apply in_or_app. now left.
Qed.

(** X18. Without the option [--tags], or with an empty one, the tags
    are [react] and [typescript]. Otherwise the option is cut at every
    comma, so that joining its pieces with commas gives the option back,
    and each piece is trimmed: there is one tag more than there are
    commas, an empty piece gives an empty tag, and no tag holds a comma
    or starts or ends with white space. *)
Theorem parseTags_pieces (tagsOption : string) :
  (tagsOption = "" -> parseTags tagsOption = ["react"; "typescript"])
  /\ (tagsOption <> "" ->
      parseTags tagsOption = map trim (split_on comma tagsOption)
      /\ String.concat "," (split_on comma tagsOption) = tagsOption
      /\ List.length (parseTags tagsOption) = S (count_char comma tagsOption)
      /\ Forall (fun tag =>
                   lacksChar comma tag
                   /\ starts_blank (list_ascii_of_string tag) = false
                   /\ starts_blank_rev (rev (list_ascii_of_string tag)) = false)
                (parseTags tagsOption)).
Proof.
  split.
  - intros ->. reflexivity.
  - intros Hne. unfold parseTags.
    apply String.eqb_neq in Hne. rewrite Hne. cbn [negb].
    split; [reflexivity|]. split; [|split].
    + exact (split_from_joined comma tagsOption []).
    + rewrite length_map. apply split_from_length.
    + apply Forall_forall. intros tag Hin. apply in_map_iff in Hin.
      destruct Hin as [piece [<- Hpiece]].
      pose proof (@split_from_lacks comma tagsOption [] (fun H => H)) as Hl.
      rewrite Forall_forall in Hl.
      destruct (trim_spec piece) as [pre [post [_ [_ [_ [S1 S2]]]]]].
      split; [apply trim_keeps_chars, Hl, Hpiece | now split].
Qed.

Lemma parseTags_pieces_witness :
  parseTags " react , hooks,,x " = ["react"; "hooks"; ""; "x"]
  /\ String.concat "," (split_on comma " react , hooks,,x ") = " react , hooks,,x ".
Proof.
  destruct (proj2 (parseTags_pieces " react , hooks,,x ")) as [E [J _]];
    [discriminate|].
  split; [rewrite E; reflexivity | exact J].
Defined.

Lemma exitCode_code (result : ReviewResult.t) (items : list json) :
  ReviewResult.issues result = JArr items ->
  Forall (fun i => i <> JNull) items ->
  snd (exitCode result)
  = Return (if existsb (severityTest "critical") items then 1 else 0).
Proof.
  intros Hissues Hnn. unfold exitCode. rewrite Hissues. cbn [issuesSome].
  rewrite !someM_existsb by assumption.
  destruct (existsb (severityTest "critical") items);
    destruct (existsb (severityTest "high") items); reflexivity.
Qed.

(** The exit code once the startup has succeeded. *)
Lemma action_after_start (env : Env.t) (content : string) :
  started env content ->
  snd (action env)
  = match snd (runReview env content) with
    | Throw _ => 1
    | Return result =>
        match snd (printResults result) with
        | Throw _ => 1
        | Return _ =>
            match snd (exitCode result) with
            | Throw _ => 1
            | Return code => code
            end
        end
    end.
Proof.
  intros [Hkey [Hdir [Harg [Hexists Hread]]]].
  unfold action, runReview, loadSingleFile.
  rewrite Hkey, Hdir, Harg, Hexists, Hread. cbn [negb].
  destruct (loadRules (join (Env.cwd env) "rules") (Env.rulesRoot env) [])
    as [loaderOut rules]. cbn [snd].
  destruct (reviewCode _ (Env.remote env) _ _) as [out [result|e]]; [|reflexivity].
  cbn [snd]. destruct (printResults result) as [lines [u|e]]; [|reflexivity].
  cbn [snd]. destruct (exitCode result) as [out' [code|e]]; reflexivity.
Qed.

Lemma action_not_started (env : Env.t) :
  (forall content, ~ started env content) -> snd (action env) = 1.
Proof.
  intros H. unfold action, loadSingleFile, failWith.
  destruct (truthy_text (Env.GOOGLE_API_KEY env)) eqn:Hkey; [|reflexivity].
  destruct (Env.rulesDirExists env) eqn:Hdir; [|reflexivity]. cbn [negb].
  destruct (loadRules (join (Env.cwd env) "rules") (Env.rulesRoot env) [])
    as [loaderOut rules].
  destruct (truthy_text (Env.fileArgument env)) eqn:Harg; [|reflexivity]. cbn [negb].
  destruct (Env.fileExists env) eqn:Hexists; [|reflexivity]. cbn [negb].
  destruct (Env.fileRead env) as [content|e] eqn:Hread; [|reflexivity].
  exfalso. apply (H content). unfold started. auto.
Qed.

(** X19. With rule files whose frontmatter has the declared types
    (texts, and a list of texts for the tags), the command exits with 0
    exactly when the whole run succeeds and the response has no critical
    issue: the API key is set, the rules directory
    exists, a path is given and the file is read, the review returns a
    result that [printResults] can print (its score and summary convert
    to a string, its issues are an array without [null], the issues that
    get a block are printable), and no issue has the severity
    [critical].  In every other case it exits with 1. *)
Theorem action_exit_code (env : Env.t) :
  (snd (action env) = 0
   <-> exists content result items,
         started env content
         /\ snd (runReview env content) = Return result
         /\ convertible (ReviewResult.overallScore result) = true
         /\ convertible (ReviewResult.summary result) = true
         /\ ReviewResult.issues result = JArr items
         /\ Forall (fun i => i <> JNull) items
         /\ Forall (fun i => printable i = true) (shownIssues items)
         /\ ~ Exists (hasSeverity "critical") items)
  /\ (snd (action env) = 0 \/ snd (action env) = 1).
Proof.
  assert (Hstart : (exists content, started env content)
                   \/ forall content, ~ started env content).
  { unfold started.
    destruct (truthy_text (Env.GOOGLE_API_KEY env));
      try (right; intros c [H _]; discriminate H).
    destruct (Env.rulesDirExists env);
      try (right; intros c [_ [H _]]; discriminate H).
    destruct (truthy_text (Env.fileArgument env));
      try (right; intros c [_ [_ [H _]]]; discriminate H).
    destruct (Env.fileExists env);
      try (right; intros c [_ [_ [_ [H _]]]]; discriminate H).
    destruct (Env.fileRead env) as [content|e];
      try (right; intros c [_ [_ [_ [_ H]]]]; discriminate H).
    left. exists content. auto. }
  destruct Hstart as [[content Hs]|Hnot].
  - assert (Hsame : forall content', started env content' -> content' = content).
    { intros content' Hs'. destruct Hs as [_ [_ [_ [_ H1]]]].
      destruct Hs' as [_ [_ [_ [_ H2]]]]. congruence. }
    rewrite (action_after_start Hs).
    destruct (snd (runReview env content)) as [result|e] eqn:Hreview.
    + destruct (snd (printResults result)) as [[]|e] eqn:Hprint.
      * pose proof (proj1 (printResults_returns result) Hprint)
          as [Hscore [Hsummary [items [Hissues [Hnn Hp]]]]].
        rewrite (exitCode_code result Hissues Hnn).
        pose proof (existsb_severity "critical" items) as Hc.
        destruct (existsb (severityTest "critical") items).
        -- split; [|now right]. split; [discriminate|].
           intros [content' [result' [items' [Hs' [Hr' [_ [_ [Hi' [_ [_ Hno]]]]]]]]]].
           apply Hsame in Hs'. subst content'.
           rewrite Hreview in Hr'. injection Hr' as <-.
           rewrite Hissues in Hi'. injection Hi' as <-.
           exfalso. apply Hno. now apply Hc.
        -- split; [|now left]. split; [|reflexivity]. intros _.
           exists content, result, items.
           split; [exact Hs|]. split; [exact Hreview|].
           split; [exact Hscore|]. split; [exact Hsummary|].
           split; [exact Hissues|]. split; [exact Hnn|]. split; [exact Hp|].
           intros H. apply Hc in H. discriminate H.
      * split; [|now right]. split; [discriminate|].
        intros [content' [result' [items' [Hs' [Hr' [Hscore [Hsummary [Hi' [Hnn' [Hp' _]]]]]]]]]].
        apply Hsame in Hs'. subst content'.
        rewrite Hreview in Hr'. injection Hr' as <-.
        assert (Hret : snd (printResults result) = Return tt).
        { apply printResults_returns. split; [exact Hscore|]. split; [exact Hsummary|].
          now exists items'. }
        rewrite Hprint in Hret. discriminate Hret.
    + split; [|now right]. split; [discriminate|].
      intros [content' [result' [items' [Hs' [Hr' _]]]]].
      apply Hsame in Hs'. subst content'.
      rewrite Hreview in Hr'. discriminate Hr'.
  - rewrite (action_not_started Hnot). split; [|now right].
    split; [discriminate|].
    intros [content [_ [_ [Hs _]]]]. elim (Hnot content Hs).
Qed.

(** A run on a response with one issue of severity [info] exits with 0;
    a run on a response with a critical issue exits with 1, and so does
    a run on a response whose score is an object with an own
    [toString], or whose issues are a number that is zero as a double. *)
Lemma action_exit_code_witness :
  snd (action (sampleEnv infoIssuePayload)) = 0
  /\ snd (action (sampleEnv threeIssuesPayload)) = 1
  /\ snd (action (sampleEnv unprintableScorePayload)) = 1
  /\ snd (action (sampleEnv underflowIssuesPayload)) = 0.
Proof.
  split; [|split; [|split]].
  - apply (proj1 (action_exit_code (sampleEnv infoIssuePayload))).
    exists "const a = 1;". eexists. eexists.
    split; [repeat split|].
    split; [vm_compute; reflexivity|].
    split; [reflexivity|]. split; [reflexivity|].
    split; [reflexivity|].
    split; [repeat constructor; discriminate|].
    split; [constructor|].
    intros H. apply existsb_severity in H. discriminate H.
  - destruct (proj2 (action_exit_code (sampleEnv threeIssuesPayload))) as [H|H];
      [|exact H].
    vm_compute in H. discriminate H.
  - destruct (proj2 (action_exit_code (sampleEnv unprintableScorePayload))) as [H|H];
      [|exact H].
    vm_compute in H. discriminate H.
  - apply (proj1 (action_exit_code (sampleEnv underflowIssuesPayload))).
    exists "const a = 1;". eexists. eexists.
    split; [repeat split|].
    split; [vm_compute; reflexivity|].
    split; [reflexivity|]. split; [reflexivity|].
    split; [reflexivity|].
    split; [constructor|].
    split; [constructor|].
    intros H. inversion H.
Defined.

(* ================================================================== *)
(** * Facts on the prompt and on the thinking trace *)
(* ================================================================== *)

Ltac find_line := repeat first [ left; reflexivity | right ].

Lemma fileSection_holds (f : FileToReview.t) :
  includes (FileToReview.path f) (fileSection f) = true
  /\ includes (FileToReview.language f) (fileSection f) = true
  /\ includes (FileToReview.content f) (fileSection f) = true.
Proof.
  unfold fileSection, template. repeat split.
  - eapply includes_concat; [right; left; reflexivity|].
    apply includes_app_r, includes_self.
  - eapply includes_concat; [right; right; left; reflexivity|].
    apply includes_app_r, includes_self.
  - eapply includes_concat; [do 3 right; left; reflexivity|]. apply includes_self.
Qed.

(** X20. The prompt built for the remote model holds the compiled rules
    text as it is, and for every file to review its path, its language
    and its whole content, unescaped. *)
Theorem buildPrompt_holds_inputs (files : list FileToReview.t) (rulesPrompt : string) :
  includes rulesPrompt (buildPrompt files rulesPrompt) = true
  /\ forall f,
       In f files ->
       includes (FileToReview.path f) (buildPrompt files rulesPrompt) = true
       /\ includes (FileToReview.language f) (buildPrompt files rulesPrompt) = true
       /\ includes (FileToReview.content f) (buildPrompt files rulesPrompt) = true.
Proof.
  split.
  - unfold buildPrompt, template.
    eapply includes_concat; [|apply includes_self]. find_line.
  - intros f Hf.
    assert (H : forall x, includes x (fileSection f) = true ->
                          includes x (buildPrompt files rulesPrompt) = true).
    { intros x Hx. unfold buildPrompt, template.
      eapply includes_concat with (line := String.concat nl (map fileSection files)).
      - find_line.
      - eapply includes_concat; [apply in_map; exact Hf | exact Hx]. }
    destruct (fileSection_holds f) as [Hp [Hl Hc]].
    repeat split; now apply H.
Qed.

Lemma buildPrompt_holds_inputs_witness :
  includes "src/App.tsx" (buildPrompt sampleFiles noRulesText) = true
  /\ includes noRulesText (buildPrompt sampleFiles noRulesText) = true.
Proof.
  destruct (buildPrompt_holds_inputs sampleFiles noRulesText) as [Hrules Hfiles].
  destruct (Hfiles _ (or_introl eq_refl)) as [Hp _].
  split; [exact Hp | exact Hrules].
Defined.

Section TraceFacts.

Variable numberText : Z -> Z -> string.

Lemma toText_convertible (v : json) :
  (exists t, toText numberText v = Return t) <-> convertible v = true.
Proof.
  induction v as [|b|m e|s|items IH|fields] using json_tree_ind;
    cbn [toText convertible]; try (split; [reflexivity | eexists; reflexivity]).
  - induction IH as [|x rest Hx _ IHrest]; cbn [textsOf forallb].
    + split; [reflexivity | eexists; reflexivity].
    + assert (Ex : (exists t, match x with JNull => Return "" | _ => toText numberText x end
                              = Return t) <-> convertible x = true).
      { destruct x; try exact Hx. split; [reflexivity | eexists; reflexivity]. }
      destruct (match x with JNull => Return "" | _ => toText numberText x end)
        as [t|e'].
      * replace (convertible x) with true by (symmetry; apply Ex; now exists t).
        cbn [andb].
        destruct (textsOf _ rest) as [ts|e''].
        -- split; [intros _; apply IHrest; eexists; reflexivity | eexists; reflexivity].
        -- split; [intros [t' H]; discriminate H|].
           intros H. apply IHrest in H. destruct H as [t' H]. discriminate H.
      * split; [intros [t' H]; discriminate H|].
        intros H. apply andb_true_iff in H. destruct H as [H _].
        apply Ex in H. destruct H as [t' H]. discriminate H.
  - destruct (lookup "toString" fields).
    + split; [intros [t H]; discriminate H | discriminate].
    + split; [reflexivity | eexists; reflexivity].
Qed.

Lemma thoughtOrThinking_value (part : json) :
  part <> JNull -> thoughtOrThinking part = Return (markerValue part).
Proof.
  destruct part as [| | | | |fields]; intros H; try reflexivity; [now elim H|].
  unfold thoughtOrThinking, markerValue. cbn [member].
  now destruct (truthy (lookup "thought" fields)).
Qed.

Lemma thinkingParts_filter (items : list json) :
  Forall (fun p => p <> JNull) items ->
  filterM (fun part =>
             match thoughtOrThinking part with
             | Throw e => Throw e
             | Return marker => Return (truthy marker)
             end) items
  = Return (filter markedTest items).
Proof.
  apply filterM_pure. intros i Hi. now rewrite thoughtOrThinking_value.
Qed.

Lemma thinkingParts_null (items : list json) :
  Exists (fun p => p = JNull) items ->
  exists e,
    filterM (fun part =>
               match thoughtOrThinking part with
               | Throw e => Throw e
               | Return marker => Return (truthy marker)
               end) items
    = Throw e.
Proof.
  induction items as [|i items IH]; intros H; [inversion H|].
  cbn [filterM]. destruct i; try (now eexists);
    (destruct IH as [err IH]; [inversion H; subst; [discriminate | assumption]|];
     rewrite IH; destruct (thoughtOrThinking _) as [[|]|]; now eexists).
Qed.

(** The texts of the markers of marked parts. *)
Lemma markerTexts (group : list json) :
  Forall (fun p => p <> JNull) group ->
  Forall (fun p => converts (markerValue p) = true) group ->
  textsOf (fun p =>
             match thoughtOrThinking p with
             | Throw e => Throw e
             | Return (Some marker) => toText numberText marker
             | Return None => Return ""
             end) group
  = Return (map (markerText numberText) group).
Proof.
  induction 1 as [|p rest Hp _ IH]; intros Hc; [reflexivity|].
  inversion Hc as [|? ? Hcp Hcrest]; subst.
  cbn [textsOf map]. rewrite (thoughtOrThinking_value Hp), (IH Hcrest).
  unfold markerText. destruct (markerValue p) as [marker|]; [|reflexivity].
  cbn [converts] in Hcp. apply toText_convertible in Hcp. destruct Hcp as [t ->].
  reflexivity.
Qed.

Lemma markerTexts_throw (group : list json) :
  Forall (fun p => p <> JNull) group ->
  Exists (fun p => converts (markerValue p) = false) group ->
  exists e,
    textsOf (fun p =>
               match thoughtOrThinking p with
               | Throw e => Throw e
               | Return (Some marker) => toText numberText marker
               | Return None => Return ""
               end) group
    = Throw e.
Proof.
  induction 1 as [|p rest Hp _ IH]; intros Hc; [inversion Hc|].
  cbn [textsOf]. rewrite (thoughtOrThinking_value Hp).
  destruct (converts (markerValue p)) eqn:E.
  - destruct IH as [e IH]; [inversion Hc; subst; [congruence | assumption]|].
    rewrite IH. destruct (markerValue p) as [marker|]; [|now eexists].
    destruct (toText numberText marker); now eexists.
  - destruct (markerValue p) as [marker|]; [|discriminate E].
    cbn [converts] in E. destruct (toText numberText marker) as [t|e] eqn:Et.
    + assert (H : convertible marker = true) by (apply toText_convertible; now exists t).
      congruence.
    + now eexists.
Qed.

Lemma all_or_some_false {A : Type} (t : A -> bool) (l : list A) :
  Forall (fun x => t x = true) l \/ Exists (fun x => t x = false) l.
Proof.
  induction l as [|x l [IH|IH]].
  - left. constructor.
  - destruct (t x) eqn:E; [left; now constructor | right; now left].
  - right. now right.
Qed.

(** What [extractThinkingTrace] gives for parts that are an array
    without [null]. *)
Lemma extractThinkingTraceRaw_array (items : list json) :
  Forall (fun p => p <> JNull) items ->
  extractThinkingTraceRaw numberText (Some (JArr items))
  = if Nat.ltb 0 (List.length (filter markedTest items))
    then if forallb (fun p => converts (markerValue p)) (filter markedTest items)
         then Some (String.concat nl (map (markerText numberText) (filter markedTest items)))
         else None
    else None.
Proof.
  intros Hnn. unfold extractThinkingTraceRaw. cbn [truthy].
  rewrite (thinkingParts_filter Hnn).
  destruct (Nat.ltb 0 (List.length (filter markedTest items))); [|reflexivity].
  assert (Hnn' : Forall (fun p => p <> JNull) (filter markedTest items))
    by now apply filter_not_null.
  destruct (forallb (fun p => converts (markerValue p)) (filter markedTest items)) eqn:E.
  - rewrite markerTexts; [reflexivity | exact Hnn' |].
    apply Forall_forall. intros p Hp. rewrite forallb_forall in E. now apply E.
  - destruct (@markerTexts_throw (filter markedTest items) Hnn') as [e ->]; [|reflexivity].
    destruct (all_or_some_false (fun p => converts (markerValue p))
                (filter markedTest items)) as [H|H]; [|exact H].
    rewrite Forall_forall in H. apply forallb_forall in H. congruence.
Qed.

Lemma extractThinkingTraceRaw_none (parts : option json) :
  (forall items, parts = Some (JArr items) -> Exists (fun p => p = JNull) items) ->
  extractThinkingTraceRaw numberText parts = None.
Proof.
  intros H. unfold extractThinkingTraceRaw.
  destruct parts as [[| | | |items|]|]; try reflexivity;
    try (now destruct (truthy _)).
  cbn [truthy]. destruct (thinkingParts_null (H items eq_refl)) as [e ->].
  reflexivity.
Qed.

End TraceFacts.

(** X21. The thinking trace of a response is there exactly when the
    parts of its first candidate are an array without [null] in which
    some part is marked, by a truthy [thought] or else a truthy
    [thinking], and the marker of every part converts to a string; in
    every other case, a failure inside the function included, there is
    no trace.  A trace that is there consists of the texts of the
    markers of the marked parts, in the order of the parts, one per
    line: a marker that is a text contributes that text, the flag
    [true] contributes the text [true]. *)
Theorem extractThinkingTrace_marked (numberText : Z -> Z -> string) (parts : option json) :
  ((exists trace, extractThinkingTraceRaw numberText parts = Some trace)
   <-> exists items,
         parts = Some (JArr items)
         /\ Forall (fun p => p <> JNull) items
         /\ Exists (fun p => markedTest p = true) items
         /\ Forall (fun p => converts (markerValue p) = true) items)
  /\ (forall items trace,
        parts = Some (JArr items) ->
        extractThinkingTraceRaw numberText parts = Some trace ->
        trace = String.concat nl (map (markerText numberText) (filter markedTest items))
        /\ forall p,
             In p items ->
             (forall s, markerValue p = Some (JStr s) -> s <> "" ->
                        includes s trace = true)
             /\ (markerValue p = Some (JBool true) -> includes "true" trace = true)).
Proof.
  assert (Hcases : (exists items, parts = Some (JArr items)
                                  /\ Forall (fun p => p <> JNull) items)
                   \/ (forall items, parts = Some (JArr items) ->
                                     Exists (fun p => p = JNull) items)).
  { destruct parts as [[| | | |items|]|]; try (right; intros items' H; discriminate H).
    destruct (not_null_or_null items) as [H|H].
    - left. now exists items.
    - right. intros items' H'. injection H' as <-. exact H. }
  destruct Hcases as [[items [-> Hnn]]|Hbad].
  - rewrite (extractThinkingTraceRaw_array numberText Hnn).
    assert (Hlen : Nat.ltb 0 (List.length (filter markedTest items)) = true
                   <-> Exists (fun p => markedTest p = true) items).
    { rewrite Exists_exists. destruct (filter markedTest items) as [|p rest] eqn:E.
      - split; [discriminate|]. intros [p [Hin Hp]].
        assert (H : In p (filter markedTest items)) by (apply filter_In; now split).
        rewrite E in H. destruct H.
      - split; [|reflexivity]. intros _. exists p.
        apply filter_In. rewrite E. now left. }
    assert (Hconv : forallb (fun p => converts (markerValue p)) (filter markedTest items)
                    = true
                    <-> Forall (fun p => converts (markerValue p) = true) items).
    { rewrite forallb_forall, Forall_forall. split; intros H p Hp.
      - destruct (markedTest p) eqn:Em.
        + apply H. apply filter_In. now split.
        + now apply falsy_converts.
      - apply H. apply filter_In in Hp. apply Hp. }
    split.
    + split.
      * intros [trace Ht]. exists items. split; [reflexivity|]. split; [exact Hnn|].
        destruct (Nat.ltb 0 (List.length (filter markedTest items))) eqn:El;
          [|discriminate Ht].
        destruct (forallb _ (filter markedTest items)) eqn:Ec; [|discriminate Ht].
        split; [now apply Hlen | now apply Hconv].
      * intros [items' [Heq [_ [Hm Hc]]]]. injection Heq as <-.
        apply Hlen in Hm. apply Hconv in Hc. rewrite Hm, Hc. eexists. reflexivity.
    + intros items' trace Heq Ht. injection Heq as <-.
      destruct (Nat.ltb 0 (List.length (filter markedTest items))) eqn:El;
        [|discriminate Ht].
      destruct (forallb _ (filter markedTest items)) eqn:Ec; [|discriminate Ht].
      injection Ht as <-. split; [reflexivity|].
      intros p Hp.
      assert (Hin : forall t, markedTest p = true -> markerText numberText p = t ->
                      includes t
                        (String.concat nl
                           (map (markerText numberText) (filter markedTest items)))
                      = true).
      { intros t Hm <-. eapply includes_concat; [|apply includes_self].
        apply in_map. apply filter_In. now split. }
      split.
      * intros s Hs Hne. apply Hin.
        -- unfold markedTest. rewrite Hs. cbn [truthy].
           apply negb_true_iff. now apply String.eqb_neq.
        -- unfold markerText. now rewrite Hs.
      * intros Hflag. apply Hin.
        -- unfold markedTest. now rewrite Hflag.
        -- unfold markerText. now rewrite Hflag.
  - rewrite (extractThinkingTraceRaw_none numberText Hbad). split.
    + split; [intros [trace H]; discriminate H|].
      intros [items [Heq [Hnn _]]]. specialize (Hbad items Heq).
      rewrite Forall_forall in Hnn. apply Exists_exists in Hbad.
      destruct Hbad as [p [Hin Hp]]. elim (Hnn p Hin Hp).
    + intros items trace _ H. discriminate H.
Qed.

(** The parts of a response with a flagged thought give the trace of
    the flag and of the text of the part that carries [thinking]. *)
Lemma extractThinkingTrace_marked_witness :
  extractThinkingTraceRaw (fun _ _ => "0") (Some flaggedParts)
  = Some ("true" ++ nl ++ "second thoughts").
Proof.
  destruct (proj2 (extractThinkingTrace_marked (fun _ _ => "0") (Some flaggedParts))
              [ JObj [("text", JStr "Let me think."); ("thought", JBool true)];
                JObj [("text", JStr "{}")];
                JObj [("thinking", JStr "second thoughts")] ]
              ("true" ++ nl ++ "second thoughts") eq_refl eq_refl) as [_ H].
  reflexivity.
Defined.

(** On typed parts the function is [extractThinkingTrace] as it is read
    at the declared types. *)
Lemma extractThinkingTraceRaw_typed (numberText : Z -> Z -> string) (response : Response.t) :
  extractThinkingTraceRaw numberText
    (option_map (fun parts => JArr (map partJson parts)) (Response.parts response))
  = extractThinkingTrace response.
Proof.
  unfold extractThinkingTrace.
  destruct (Response.parts response) as [parts|]; [|reflexivity].
  cbn [option_map].
  assert (Hnn : Forall (fun p => p <> JNull) (map partJson parts)).
  { apply Forall_forall. intros p Hp. apply in_map_iff in Hp.
    destruct Hp as [x [<- _]]. discriminate. }
  rewrite (extractThinkingTraceRaw_array numberText Hnn).
  assert (Hmarker : forall p, markerValue (partJson p) = option_map JStr (partMarker p)).
  { intros [[t|] [k|]]; unfold markerValue, partJson, partMarker;
      cbn [Part.thought Part.thinking app lookup String.eqb Ascii.eqb Bool.eqb
           truthy truthy_text option_map];
      try reflexivity; now destruct (String.eqb t ""). }
  assert (Htest : forall p, markedTest (partJson p) = truthy_text (partMarker p)).
  { intros p. unfold markedTest. rewrite Hmarker. now destruct (partMarker p). }
  assert (Hfilter : filter markedTest (map partJson parts)
                    = map partJson (filter (fun part => truthy_text (partMarker part)) parts)).
  { induction parts as [|p rest IH]; [reflexivity|].
    cbn [map filter]. rewrite Htest.
    rewrite IH by (now inversion Hnn).
    now destruct (truthy_text (partMarker p)). }
  rewrite Hfilter, !length_map.
  destruct (Nat.ltb 0 (List.length (filter _ parts))); [|reflexivity].
  replace (forallb _ _) with true.
  - rewrite map_map. do 2 f_equal. apply map_ext. intros p.
    unfold markerText. rewrite Hmarker. now destruct (partMarker p).
  - symmetry. apply forallb_forall. intros p Hp. apply in_map_iff in Hp.
    destruct Hp as [x [<- _]]. rewrite Hmarker. now destruct (partMarker x).
Qed.

(** X22. In a run of the command, the result of the review names one
    reviewed file, the path as it was given on the command line, and
    its line count is that of the file read, one more than its line
    feeds. *)
Theorem run_reviews_given_file (env : Env.t) (content : string) (result : ReviewResult.t) :
  started env content ->
  snd (runReview env content) = Return result ->
  Some (ReviewResult.filesReviewed result) = option_map (fun path => [path]) (Env.fileArgument env)
  /\ ReviewResult.totalLines result = lineCount content.
Proof.
  intros [_ [_ [Harg _]]] H. unfold runReview in H.
  destruct (reviewCode_returned _ _ _ _ H) as [response [text [v [H1 [H2 [H3 Hv]]]]]].
  match type of H with
  | snd (reviewCode ?c ?r ?f ?p) = _ =>
      destruct (@reviewCode_value c r response f p text v H1 H2 H3 Hv)
        as [i [s [o [_ [_ [_ E]]]]]]
  end.
  rewrite E in H. cbn [snd] in H. injection H as <-.
  cbn [ReviewResult.filesReviewed ReviewResult.totalLines map FileToReview.path].
  split.
  - destruct (Env.fileArgument env); [reflexivity | discriminate Harg].
  - unfold countLines. cbn [fold_left FileToReview.content Nat.add].
    apply split_lf_length.
Qed.

Lemma run_reviews_given_file_witness :
  exists result,
    snd (runReview (sampleEnv emptyObjectPayload) "const a = 1;") = Return result
    /\ ReviewResult.filesReviewed result = ["src/App.tsx"]
    /\ ReviewResult.totalLines result = 1.
Proof.
  eexists. split; [vm_compute; reflexivity|].
  match goal with
  | |- context [ReviewResult.filesReviewed ?r] =>
      destruct (@run_reviews_given_file (sampleEnv emptyObjectPayload) "const a = 1;" r)
        as [Hf Hl]; [repeat split | vm_compute; reflexivity |]
  end.
  split; [|exact Hl].
  exact (f_equal (fun o => match o with Some l => l | None => [] end) Hf).
Defined.
